(** * Backtest Signal Visualizer: the chart pipeline of [frontend/src/App.jsx]

    A shallow embedding of the React component [App]: the validation of the
    fetched signal and trade records, the derivation of chart points and
    markers, the chart-update effect, the time-scale synchronisation
    callback, the fetch effect of the run selector and [formatMetric].

    JavaScript built-ins that depend on the host (string-to-number
    conversion, date parsing, locale formatting) and the charting library
    are interfaces ([Host], [ChartLibrary]); everything the component itself
    computes is a Rocq function. *)

From Stdlib Require Import List String Ascii Bool ZArith QArith Lia.
From Stdlib Require Import Qabs Qround Permutation Sorted DecimalString.
Import ListNotations.

Local Open Scope string_scope.
Local Open Scope Z_scope.

(** ** JavaScript numbers and values *)

(** A Number is NaN, an infinity or a finite value.  A finite value is kept
    as the rational it denotes, reduced to lowest terms by every operation;
    the two zeros are not told apart and the rounding of binary64 arithmetic
    is not modelled ([Number.prototype.toFixed] and [Math.round] are defined
    by ECMAScript on the exact value, so they need none). *)
Inductive number : Type :=
| NaN
| Inf (negative : bool)
| Fin (q : Q).

(** The values a field of a parsed JSON record, or a missing field, can
    hold. *)
Inductive jsval : Type :=
| VUndefined
| VNull
| VBool (b : bool)
| VNum (n : number)
| VStr (s : string).

(** The TypeErrors the engine raises in the component: a property read on
    [null] or [undefined] ([base] is the one or the other), and a call of
    what is not a function. *)
Inductive TypeError : Type :=
| CannotRead (base : jsval) (name : string)
| NotAFunction (callee : string).

(** What the component takes from its host: [StringToNumber] (the
    conversion behind [Number(s)] and [isNaN(s)] on a string), [Date.parse]
    ([None] is the NaN time value), [Date.prototype.toLocaleString] on a
    time value, [Number::toString] on a value that is not negative, which
    [toFixed] falls back to from 10^21 on, and the message the engine gives
    a TypeError. *)
Class Host : Type := {
  StringToNumber : string -> number;
  Date_parse : string -> option Z;
  Date_toLocaleString : option Z -> string;
  Number_toString : Q -> string;
  TypeError_message : TypeError -> string
}.

Definition num (z : Z) : number := Fin (inject_Z z).

Definition Q_is_zero (q : Q) : bool := Qnum q =? 0.
Definition Q_is_neg (q : Q) : bool := Qnum q <? 0.

(** [ToNumber]. *)
Definition ToNumber `{Host} (v : jsval) : number :=
  match v with
  | VUndefined => NaN
  | VNull => num 0
  | VBool b => if b then num 1 else num 0
  | VNum n => n
  | VStr s => StringToNumber s
  end.

(** [Number(v)]. *)
Definition Number `{Host} (v : jsval) : number := ToNumber v.

(** [ToString], as a template literal applies it to a substitution. *)
Definition ToString `{Host} (v : jsval) : string :=
  match v with
  | VUndefined => "undefined"
  | VNull => "null"
  | VBool b => if b then "true" else "false"
  | VNum NaN => "NaN"
  | VNum (Inf negative) => if negative then "-Infinity" else "Infinity"
  | VNum (Fin q) => (if Q_is_neg q then "-" else "") ++ Number_toString (Qabs q)
  | VStr s => s
  end.

Definition number_isNaN (n : number) : bool :=
  match n with NaN => true | _ => false end.

(** The global [isNaN(v)]. *)
Definition isNaN `{Host} (v : jsval) : bool := number_isNaN (ToNumber v).

(** [v > 0]: the operand is converted to a Number, and a comparison with
    NaN is false. *)
Definition greater_than_zero `{Host} (v : jsval) : bool :=
  match ToNumber v with
  | NaN => false
  | Inf negative => negb negative
  | Fin q => 0 <? Qnum q
  end.

Definition number_truthy (n : number) : bool :=
  match n with
  | NaN => false
  | Inf _ => true
  | Fin q => negb (Q_is_zero q)
  end.

(** [ToBoolean]: what [&&], [||], [if] and [filter] make of a value. *)
Definition truthy (v : jsval) : bool :=
  match v with
  | VUndefined | VNull => false
  | VBool b => b
  | VNum n => number_truthy n
  | VStr s => negb (String.eqb s "")
  end.

(** [v == null]: true of [null] and [undefined] only. *)
Definition loose_eq_null (v : jsval) : bool :=
  match v with VUndefined | VNull => true | _ => false end.

(** [v === n] against a number literal. *)
Definition strict_eq_num (v : jsval) (z : Z) : bool :=
  match v with
  | VNum (Fin q) => Qeq_bool q (inject_Z z)
  | _ => false
  end.

(** [[k1, k2, ...].includes(v)] on an array of string literals. *)
Definition includes (keys : list string) (v : jsval) : bool :=
  match v with
  | VStr s => existsb (String.eqb s) keys
  | _ => false
  end.

(** [a / b] and [a - b] on Numbers. *)
Definition number_div (a b : number) : number :=
  match a, b with
  | NaN, _ | _, NaN => NaN
  | Inf _, Inf _ => NaN
  | Inf s, Fin q => Inf (xorb s (Q_is_neg q))
  | Fin _, Inf _ => num 0
  | Fin p, Fin q =>
      if Q_is_zero q
      then (if Q_is_zero p then NaN else Inf (Q_is_neg p))
      else Fin (Qred (p / q)%Q)
  end.

Definition number_sub (a b : number) : number :=
  match a, b with
  | NaN, _ | _, NaN => NaN
  | Inf s, Inf s' => if Bool.eqb s s' then NaN else Inf s
  | Inf s, Fin _ => Inf s
  | Fin _, Inf s => Inf (negb s)
  | Fin p, Fin q => Fin (Qred (p - q)%Q)
  end.

(** [TimeClip]: a time value is NaN or a whole number of milliseconds
    within 8.64e15 of the epoch. *)
Definition TimeClip (n : number) : option Z :=
  match n with
  | Fin q =>
      let t := Z.quot (Qnum q) (Z.pos (Qden q)) in
      if Qle_bool (Qabs q) (inject_Z 8640000000000000) then Some t else None
  | _ => None
  end.

(** [new Date(v)]: a string is parsed, anything else is converted to a
    Number and clipped. *)
Definition Date_new `{Host} (v : jsval) : option Z :=
  match v with
  | VStr s => Date_parse s
  | _ => TimeClip (ToNumber v)
  end.

(** [new Date(v).getTime()]. *)
Definition getTime `{Host} (v : jsval) : number :=
  match Date_new v with
  | Some ms => num ms
  | None => NaN
  end.

(** ** Number formatting *)

Definition decimal_digits (n : Z) : string :=
  NilZero.string_of_uint (N.to_uint (Z.to_N n)).

Fixpoint zeros (k : nat) : string :=
  match k with
  | O => ""
  | S k' => String "0" (zeros k')
  end.

(** [x.toFixed(f)] on a finite [x] below 10^21: the integer [n] nearest to
    [x * 10^f] (the larger one on a tie), written with at least [f + 1]
    digits and a point before the last [f]. *)
Definition toFixed_digits (f : nat) (q : Q) : string :=
  let scaled := (Qabs q * inject_Z (10 ^ Z.of_nat f))%Q in
  let n := Qfloor (scaled + (1 # 2))%Q in
  let m := decimal_digits n in
  let m := zeros (S f - String.length m) ++ m in
  let k := String.length m in
  if Nat.eqb f 0 then m
  else substring 0 (k - f) m ++ "." ++ substring (k - f) f m.

Definition toFixed `{Host} (x : number) (f : nat) : string :=
  match x with
  | NaN => "NaN"
  | Inf false => "Infinity"
  | Inf true => "-Infinity"
  | Fin q =>
      let s := if Q_is_neg q then "-" else "" in
      if Qle_bool (inject_Z (10 ^ 21)) (Qabs q)
      then s ++ Number_toString (Qabs q)
      else s ++ toFixed_digits f q
  end.

(** [Math.round]: the nearest integer, the larger one on a tie. *)
Definition Math_round (x : number) : number :=
  match x with
  | Fin q => num (Qfloor (q + (1 # 2))%Q)
  | _ => x
  end.

(** ** [formatMetric] *)

Definition date_keys : list string := ["max_drawdown_start"; "max_drawdown_end"].
Definition percent_keys : list string := ["annualized_return"; "max_drawdown"; "win_rate"].
Definition ratio_keys : list string :=
  ["sharpe_ratio"; "sortino_ratio"; "calmar_ratio"; "profit_factor"].

Definition formatMetric `{Host} (value : jsval) (key : string) : jsval :=
  if loose_eq_null value then VStr "N/A"
  else if includes date_keys (VStr key) then
    VStr (Date_toLocaleString (Date_new value))
  else if includes percent_keys (VStr key) then
    VStr (toFixed (Number value) 2 ++ "%")
  else if includes ratio_keys (VStr key) then
    VStr (toFixed (Number value) 2)
  else if String.eqb key "avg_trade_duration" then
    VStr (toFixed (Number value) 2 ++ " min")
  else if String.eqb key "final_portfolio_value" then
    VStr ("₹" ++ toFixed (Number value) 2)
  else VNum (Math_round (ToNumber value)).

(** The rows of the metrics table. *)
Definition metricDisplay : list (string * string) :=
  [ ("final_portfolio_value", "Final Portfolio Value");
    ("annualized_return", "Annualized Return");
    ("max_drawdown", "Max Drawdown");
    ("max_drawdown_start", "Max Drawdown Start");
    ("max_drawdown_end", "Max Drawdown End");
    ("win_rate", "Win Rate");
    ("sharpe_ratio", "Sharpe Ratio");
    ("sortino_ratio", "Sortino Ratio");
    ("calmar_ratio", "Calmar Ratio");
    ("profit_factor", "Profit Factor");
    ("total_trades", "Total Trades");
    ("avg_trade_duration", "Avg Trade Duration") ].

Definition declared_keys : list string := map fst metricDisplay.

(** ** Records *)

(** A signal record, as [/signals/{run_id}] returns it. *)
Module Signal.
Record t : Type := mk {
  timestamp : jsval;
  price : jsval;
  rsi : jsval;
  signal : jsval
}.
End Signal.

(** A trade record, as [/trades/{run_id}] returns it. *)
Module Trade.
Record t : Type := mk {
  timestamp : jsval;
  action : jsval;
  reason : jsval;
  price : jsval
}.
End Trade.

(** A point of a line series: [{ time, value }]. *)
Module ChartPoint.
Record t : Type := mk {
  time : number;
  value : number
}.
End ChartPoint.

(** A series marker: [{ time, position, color, shape, text }]. *)
Module Marker.
Record t : Type := mk {
  time : number;
  position : string;
  color : string;
  shape : string;
  text : jsval
}.
End Marker.

(** ** [Array.prototype.sort]

    [sort] with a comparison function is stable, and for a consistent
    comparison function its result is determined: the elements in the order
    of the comparison, equal ones in their order in the array.  It is
    embedded as a stable insertion sort.  A comparison that returns NaN
    counts as zero. *)
Definition SortCompare {A : Type} (comparefn : A -> A -> number) (x y : A)
  : comparison :=
  match comparefn x y with
  | NaN => Eq
  | Inf true => Lt
  | Inf false => Gt
  | Fin q => (q ?= 0)%Q
  end.

Fixpoint sort_insert {A : Type} (comparefn : A -> A -> number) (x : A)
  (sorted : list A) : list A :=
  match sorted with
  | [] => [x]
  | y :: rest =>
      match SortCompare comparefn x y with
      | Gt => y :: sort_insert comparefn x rest
      | _ => x :: y :: rest
      end
  end.

Definition Array_sort {A : Type} (comparefn : A -> A -> number) (l : list A)
  : list A :=
  fold_right (sort_insert comparefn) [] l.

(** ** Validation and preparation of the chart data

    The bodies of the [filter] and [map] callbacks of the chart-update
    effect.  [a && b && c] is truthy exactly when its three operands are,
    and [filter] keeps an element when the callback's result is truthy.
    The [console.warn] of a rejected record is not modelled. *)
Section Prepare.
Context `{Host}.

(** [new Date(ts).getTime() / 1000]. *)
Definition seconds (ts : jsval) : number :=
  number_div (getTime ts) (num 1000).

Definition price_isValid (s : Signal.t) : bool :=
  negb (loose_eq_null (Signal.price s))
  && negb (isNaN (Signal.price s))
  && number_truthy (getTime (Signal.timestamp s)).

Definition rsi_isValid (s : Signal.t) : bool :=
  negb (loose_eq_null (Signal.rsi s))
  && negb (isNaN (Signal.rsi s))
  && number_truthy (getTime (Signal.timestamp s)).

Definition pricePoint (s : Signal.t) : ChartPoint.t :=
  {| ChartPoint.time := seconds (Signal.timestamp s);
     ChartPoint.value := Number (Signal.price s) |}.

Definition rsiPoint (s : Signal.t) : ChartPoint.t :=
  {| ChartPoint.time := seconds (Signal.timestamp s);
     ChartPoint.value := Number (Signal.rsi s) |}.

Definition priceData (signals : list Signal.t) : list ChartPoint.t :=
  map pricePoint (filter price_isValid signals).

Definition rsiData (signals : list Signal.t) : list ChartPoint.t :=
  map rsiPoint (filter rsi_isValid signals).

Definition buy_isValid (s : Signal.t) : bool :=
  strict_eq_num (Signal.signal s) 1
  && negb (loose_eq_null (Signal.price s))
  && negb (isNaN (Signal.price s))
  && number_truthy (getTime (Signal.timestamp s)).

Definition sell_isValid (s : Signal.t) : bool :=
  strict_eq_num (Signal.signal s) (-1)
  && negb (loose_eq_null (Signal.price s))
  && negb (isNaN (Signal.price s))
  && number_truthy (getTime (Signal.timestamp s)).

Definition buyMarker (s : Signal.t) : Marker.t :=
  {| Marker.time := seconds (Signal.timestamp s);
     Marker.position := "belowBar";
     Marker.color := "green";
     Marker.shape := "arrowUp";
     Marker.text := VStr "BUY" |}.

Definition sellMarker (s : Signal.t) : Marker.t :=
  {| Marker.time := seconds (Signal.timestamp s);
     Marker.position := "aboveBar";
     Marker.color := "red";
     Marker.shape := "arrowDown";
     Marker.text := VStr "SELL" |}.

Definition buySignals (signals : list Signal.t) : list Marker.t :=
  map buyMarker (filter buy_isValid signals).

Definition sellSignals (signals : list Signal.t) : list Marker.t :=
  map sellMarker (filter sell_isValid signals).

Definition trade_isValid (t : Trade.t) : bool :=
  truthy (Trade.timestamp t)
  && truthy (Trade.action t)
  && truthy (Trade.reason t)
  && negb (loose_eq_null (Trade.price t))
  && negb (isNaN (Trade.price t))
  && number_truthy (getTime (Trade.timestamp t)).

Definition long_actions : list string := ["Buy"; "Cover"].

Definition tradeMarker (t : Trade.t) : Marker.t :=
  {| Marker.time := seconds (Trade.timestamp t);
     Marker.position :=
       if includes long_actions (Trade.action t) then "belowBar" else "aboveBar";
     Marker.color :=
       if includes long_actions (Trade.action t) then "green" else "red";
     Marker.shape := "circle";
     Marker.text :=
       if truthy (Trade.reason t) then Trade.reason t else VStr "Trade" |}.

Definition tradeMarkers (trades : list Trade.t) : list Marker.t :=
  map tradeMarker (filter trade_isValid trades).

(** [(a, b) => a.time - b.time]. *)
Definition byTime (a b : Marker.t) : number :=
  number_sub (Marker.time a) (Marker.time b).

(** [[...buySignals, ...sellSignals].sort((a, b) => a.time - b.time)]. *)
Definition signalMarkers (signals : list Signal.t) : list Marker.t :=
  Array_sort byTime (buySignals signals ++ sellSignals signals).

End Prepare.

(** ** Exceptions

    Any value can be thrown.  The component tells thrown values apart by
    reading [err.message] only: a primitive value ([undefined] and [null]
    among them), or an object with what its [message] property holds
    ([undefined] when it has none; a message that is itself an object is not
    modelled). *)
Inductive exception : Type :=
| Thrown (v : jsval)
| ThrownObject (message : jsval).

(** [new Error(message)], and a TypeError of the engine. *)
Definition Error (message : string) : exception := ThrownObject (VStr message).

Definition typeError `{Host} (reason : TypeError) : exception :=
  Error (TypeError_message reason).

(** How an expression or a call completes: normally with a result, or
    abruptly with a thrown value. *)
Inductive completion (A : Type) : Type :=
| Normal (result : A)
| Throw (err : exception).
Arguments Normal {A} result.
Arguments Throw {A} err.

(** ** The charting library

    [lightweight-charts] is not part of the repository.  Its objects are
    handles ([chart], [series]) into a library state [lib]; a call takes the
    state to a new state and completes normally with a result or abruptly
    with whatever the library throws. *)

Inductive LineStyle : Type := Solid | Dotted | Dashed | LargeDashed | SparseDotted.

Module LineSeriesOptions.
Record t : Type := mk { color : string; lineWidth : Z }.
End LineSeriesOptions.

Module PriceLineOptions.
Record t : Type := mk {
  price : number;
  color : string;
  lineWidth : Z;
  lineStyle : LineStyle
}.
End PriceLineOptions.

Module LogicalRange.
Record t : Type := mk { from : number; to : number }.
End LogicalRange.

(** The calls the component makes.  [fitContent], [getVisibleLogicalRange]
    and [setVisibleLogicalRange] are the methods of [chart.timeScale()]. *)
Class ChartLibrary (chart series lib : Type) : Type := {
  removeSeries : chart -> series -> lib -> completion unit * lib;
  addLineSeries : chart -> LineSeriesOptions.t -> lib -> completion series * lib;
  setData : series -> list ChartPoint.t -> lib -> completion unit * lib;
  setMarkers : series -> list Marker.t -> lib -> completion unit * lib;
  createPriceLine : series -> PriceLineOptions.t -> lib -> completion unit * lib;
  fitContent : chart -> lib -> completion unit * lib;
  getVisibleLogicalRange :
    chart -> lib -> completion (option LogicalRange.t) * lib;
  setVisibleLogicalRange : chart -> LogicalRange.t -> lib -> completion unit * lib
}.

(** ** The state of the component *)

Module Run.
Record t : Type := mk { run_id : string; initiated_time : jsval }.
End Run.

(** The metrics object of a run: its properties, in order. *)
Definition Metrics : Type := list (string * jsval).

(** [metrics[key]]: [undefined] when the property is missing. *)
Fixpoint property (m : Metrics) (key : string) : jsval :=
  match m with
  | [] => VUndefined
  | (k, v) :: rest => if String.eqb k key then v else property rest key
  end.

(** The [useState] cells.  [signals] and [trades] hold arrays of records
    here; what the chart-update effect does on another value of these two
    cells is [chartUpdateEffect], further down. *)
Record AppState : Type := mkAppState {
  runs : list Run.t;
  selectedRunId : string;
  signals : list Signal.t;
  trades : list Trade.t;
  metrics : option Metrics;
  finalPortfolioValue : jsval;
  error : option string
}.

Definition initialState : AppState :=
  {| runs := []; selectedRunId := ""; signals := []; trades := [];
     metrics := None; finalPortfolioValue := VNull; error := None |}.

Definition with_runs (v : list Run.t) (a : AppState) : AppState :=
  mkAppState v (selectedRunId a) (signals a) (trades a) (metrics a)
    (finalPortfolioValue a) (error a).
Definition with_selectedRunId (v : string) (a : AppState) : AppState :=
  mkAppState (runs a) v (signals a) (trades a) (metrics a)
    (finalPortfolioValue a) (error a).
Definition with_signals (v : list Signal.t) (a : AppState) : AppState :=
  mkAppState (runs a) (selectedRunId a) v (trades a) (metrics a)
    (finalPortfolioValue a) (error a).
Definition with_trades (v : list Trade.t) (a : AppState) : AppState :=
  mkAppState (runs a) (selectedRunId a) (signals a) v (metrics a)
    (finalPortfolioValue a) (error a).
Definition with_metrics (v : option Metrics) (a : AppState) : AppState :=
  mkAppState (runs a) (selectedRunId a) (signals a) (trades a) v
    (finalPortfolioValue a) (error a).
Definition with_finalPortfolioValue (v : jsval) (a : AppState) : AppState :=
  mkAppState (runs a) (selectedRunId a) (signals a) (trades a) (metrics a)
    v (error a).
Definition with_error (v : option string) (a : AppState) : AppState :=
  mkAppState (runs a) (selectedRunId a) (signals a) (trades a) (metrics a)
    (finalPortfolioValue a) v.

(** The four requests of the fetch effect, and the one made on mount. *)
Inductive Endpoint : Type :=
| EpRuns | EpSignals | EpTrades | EpMetrics | EpPortfolioFinal.

(** A request in flight: [fetch(`http://localhost:8000/<endpoint>/<run>`)]. *)
Record Fetch : Type := mkFetch { endpoint : Endpoint; run : string }.

Definition Endpoint_eqb (a b : Endpoint) : bool :=
  match a, b with
  | EpRuns, EpRuns | EpSignals, EpSignals | EpTrades, EpTrades
  | EpMetrics, EpMetrics | EpPortfolioFinal, EpPortfolioFinal => true
  | _, _ => false
  end.

Definition Fetch_eqb (f g : Fetch) : bool :=
  Endpoint_eqb (endpoint f) (endpoint g) && String.eqb (run f) (run g).

(** The [useRef] cells. *)
Record Refs (chart series : Type) : Type := mkRefs {
  priceChartInstance : option chart;
  tradeChartInstance : option chart;
  rsiChartInstance : option chart;
  priceSeriesRef : option series;
  tradeSeriesRef : option series;
  rsiSeriesRef : option series;
  isUpdatingTimeScale : bool
}.
Arguments mkRefs {chart series}.
Arguments priceChartInstance {chart series}.
Arguments tradeChartInstance {chart series}.
Arguments rsiChartInstance {chart series}.
Arguments priceSeriesRef {chart series}.
Arguments tradeSeriesRef {chart series}.
Arguments rsiSeriesRef {chart series}.
Arguments isUpdatingTimeScale {chart series}.

(** Everything an effect or a callback can read or change: the state
    cells, the refs, the library's state and the requests in flight. *)
Record World (chart series lib : Type) : Type := mkWorld {
  app : AppState;
  refs : Refs chart series;
  charts : lib;
  inflight : list Fetch
}.
Arguments mkWorld {chart series lib}.
Arguments app {chart series lib}.
Arguments refs {chart series lib}.
Arguments charts {chart series lib}.
Arguments inflight {chart series lib}.

(** The three panes. *)
Inductive Pane : Type := PricePane | TradePane | RsiPane.

(** ** Responses

    What [res.json()] can give for a signals or a trades request: [null],
    an array, or another value (a boolean, a number, a string, an object),
    of which the effect reads the [length] property only ([undefined] when
    it has none, and as the primitive value it converts to when it is an
    object).  An element of an array is [null] ([None]) or a record: a
    property read on an element that is not an object gives [undefined], as
    it does on an object without the property. *)
Inductive Response (A : Type) : Type :=
| NullResponse
| NotAnArray (length : jsval)
| ArrayOf (elements : list (option A)).
Arguments NullResponse {A}.
Arguments NotAnArray {A} length.
Arguments ArrayOf {A} elements.

(** The elements of an array as records, when none of them is [null]. *)
Fixpoint records {A : Type} (elements : list (option A)) : option (list A) :=
  match elements with
  | [] => Some []
  | Some a :: rest => option_map (cons a) (records rest)
  | None :: _ => None
  end.

(** An array of records, as a response. *)
Definition arrayOfRecords {A : Type} (l : list A) : Response A :=
  ArrayOf (map Some l).

(** ** Effects

    An effect or callback is a function of the world that completes
    normally or throws.  What it changed before a throw stays changed: an
    exception does not roll anything back. *)
Section Effects.
Context `{Host} {chart series lib : Type} `{ChartLibrary chart series lib}.

Definition M (A : Type) : Type :=
  World chart series lib -> completion A * World chart series lib.

Definition ret {A : Type} (a : A) : M A := fun w => (Normal a, w).

Definition bind {A B : Type} (m : M A) (k : A -> M B) : M B :=
  fun w =>
    match m w with
    | (Normal a, w') => k a w'
    | (Throw message, w') => (Throw message, w')
    end.

Definition throw {A : Type} (err : exception) : M A :=
  fun w => (Throw err, w).

(** [try { body } catch (err) { handler }]: the handler gets the thrown
    value, and what it throws leaves the statement. *)
Definition try_catch (body : M unit) (handler : exception -> M unit) : M unit :=
  fun w =>
    match body w with
    | (Normal _, w') => (Normal tt, w')
    | (Throw err, w') => handler err w'
    end.

(** [err.message]: reading a property of [undefined] or [null] throws a
    TypeError; another primitive value has no such property. *)
Definition messageOf (err : exception) : M jsval :=
  match err with
  | Thrown v =>
      if loose_eq_null v then throw (typeError (CannotRead v "message"))
      else ret VUndefined
  | ThrownObject message => ret message
  end.

Definition getApp : M AppState := fun w => (Normal (app w), w).

Definition getRefs : M (Refs chart series) := fun w => (Normal (refs w), w).

Definition setState (f : AppState -> AppState) : M unit :=
  fun w => (Normal tt, mkWorld (f (app w)) (refs w) (charts w) (inflight w)).

Definition setRefs (f : Refs chart series -> Refs chart series) : M unit :=
  fun w => (Normal tt, mkWorld (app w) (f (refs w)) (charts w) (inflight w)).

(** A call into the charting library. *)
Definition call {A : Type} (op : lib -> completion A * lib) : M A :=
  fun w =>
    let (c, l) := op (charts w) in
    (c, mkWorld (app w) (refs w) l (inflight w)).

(** [fetch(url)]: the request is in flight until it settles. *)
Definition fetch (f : Fetch) : M unit :=
  fun w => (Normal tt, mkWorld (app w) (refs w) (charts w) (inflight w ++ [f])).

Fixpoint remove_first (f : Fetch) (l : list Fetch) : list Fetch :=
  match l with
  | [] => []
  | g :: rest => if Fetch_eqb f g then rest else g :: remove_first f rest
  end.

Definition settled (f : Fetch) : M unit :=
  fun w =>
    (Normal tt,
     mkWorld (app w) (refs w) (charts w) (remove_first f (inflight w))).

(** [array.forEach(callback)]. *)
Fixpoint forEach {A : Type} (l : list A) (callback : A -> M unit) : M unit :=
  match l with
  | [] => ret tt
  | x :: rest => bind (callback x) (fun _ => forEach rest callback)
  end.

End Effects.

Declare Scope effect_scope.
Delimit Scope effect_scope with effect.
Notation "x <- m ;; k" := (bind m (fun x => k))
  (at level 61, m at next level, right associativity) : effect_scope.
Notation "m ;; k" := (bind m (fun _ => k))
  (at level 61, right associativity) : effect_scope.

Section Component.
Context `{Host} {chart series lib : Type} `{ChartLibrary chart series lib}.
Local Open Scope effect_scope.

Local Abbreviation M := (@M chart series lib).
Local Abbreviation Refs := (Refs chart series).

Definition with_priceSeriesRef (v : option series) (r : Refs) : Refs :=
  mkRefs (priceChartInstance r) (tradeChartInstance r) (rsiChartInstance r)
    v (tradeSeriesRef r) (rsiSeriesRef r) (isUpdatingTimeScale r).
Definition with_tradeSeriesRef (v : option series) (r : Refs) : Refs :=
  mkRefs (priceChartInstance r) (tradeChartInstance r) (rsiChartInstance r)
    (priceSeriesRef r) v (rsiSeriesRef r) (isUpdatingTimeScale r).
Definition with_rsiSeriesRef (v : option series) (r : Refs) : Refs :=
  mkRefs (priceChartInstance r) (tradeChartInstance r) (rsiChartInstance r)
    (priceSeriesRef r) (tradeSeriesRef r) v (isUpdatingTimeScale r).
Definition with_isUpdatingTimeScale (v : bool) (r : Refs) : Refs :=
  mkRefs (priceChartInstance r) (tradeChartInstance r) (rsiChartInstance r)
    (priceSeriesRef r) (tradeSeriesRef r) (rsiSeriesRef r) v.

Definition setRuns (v : list Run.t) : M unit := setState (with_runs v).
Definition setSelectedRunId (v : string) : M unit :=
  setState (with_selectedRunId v).
Definition setSignals (v : list Signal.t) : M unit := setState (with_signals v).
Definition setTrades (v : list Trade.t) : M unit := setState (with_trades v).
Definition setMetrics (v : option Metrics) : M unit := setState (with_metrics v).
Definition setFinalPortfolioValue (v : jsval) : M unit :=
  setState (with_finalPortfolioValue v).
Definition setError (v : option string) : M unit := setState (with_error v).

(** *** Time-scale synchronisation *)

(** The callback [syncTimeScales] subscribes to the visible-range changes
    of [sourceChart]. *)
Definition onVisibleTimeRangeChange (sourceChart : chart)
  (targetCharts : list chart) : M unit :=
  r <- getRefs ;;
  if isUpdatingTimeScale r then ret tt
  else
    setRefs (with_isUpdatingTimeScale true) ;;
    timeRange <- call (getVisibleLogicalRange sourceChart) ;;
    match timeRange with
    | Some range =>
        forEach targetCharts
          (fun targetChart => call (setVisibleLogicalRange targetChart range))
    | None => ret tt
    end ;;
    setRefs (with_isUpdatingTimeScale false).

(** The three calls of [syncTimeScales]: the source chart and the target
    charts of each pane's callback. *)
Definition chartOf (price trade rsi : chart) (p : Pane) : chart :=
  match p with
  | PricePane => price
  | TradePane => trade
  | RsiPane => rsi
  end.

Definition targetPanes (p : Pane) : list Pane :=
  match p with
  | PricePane => [TradePane; RsiPane]
  | TradePane => [PricePane; RsiPane]
  | RsiPane => [PricePane; TradePane]
  end.

(** A visible-range change of pane [p] reaches the callback subscribed on
    its chart.  The callback runs to its end as one step: a notification
    that a target chart sends while the range is being applied to it finds
    the guard true and is ignored, whatever the world it meets. *)
Definition rangeChanged (price trade rsi : chart) (p : Pane) : M unit :=
  onVisibleTimeRangeChange (chartOf price trade rsi p)
    (map (chartOf price trade rsi) (targetPanes p)).

(** *** The chart-update effect *)

Definition priceLineOptions : LineSeriesOptions.t :=
  {| LineSeriesOptions.color := "#2962FF"; LineSeriesOptions.lineWidth := 2 |}.

Definition rsiLineOptions : LineSeriesOptions.t :=
  {| LineSeriesOptions.color := "#FF6D00"; LineSeriesOptions.lineWidth := 2 |}.

Definition overboughtLine : PriceLineOptions.t :=
  {| PriceLineOptions.price := num 70;
     PriceLineOptions.color := "red";
     PriceLineOptions.lineWidth := 1;
     PriceLineOptions.lineStyle := Dashed |}.

Definition oversoldLine : PriceLineOptions.t :=
  {| PriceLineOptions.price := num 30;
     PriceLineOptions.color := "green";
     PriceLineOptions.lineWidth := 1;
     PriceLineOptions.lineStyle := Dashed |}.

(** [if (ref.current) { chart.removeSeries(ref.current); ref.current = null; }] *)
Definition clearSeries (c : chart) (ref : Refs -> option series)
  (with_ref : option series -> Refs -> Refs) : M unit :=
  r <- getRefs ;;
  match ref r with
  | Some s => call (removeSeries c s) ;; setRefs (with_ref None)
  | None => ret tt
  end.

Definition noPriceData : string := "No valid price data to display.".

(** The [try] block from the preparation of the data on, for signals and
    trades that are arrays of records. *)
Definition showCharts (priceChart tradeChart rsiChart : chart)
  (signals : list Signal.t) (trades : list Trade.t) : M unit :=
  let priceData := priceData signals in
  let rsiData := rsiData signals in
  let tradeMarkers := tradeMarkers trades in
  let signalMarkers := signalMarkers signals in
  if Nat.eqb (List.length priceData) 0 then throw (Error noPriceData)
  else
    priceSeries <- call (addLineSeries priceChart priceLineOptions) ;;
    setRefs (with_priceSeriesRef (Some priceSeries)) ;;
    call (setData priceSeries priceData) ;;
    call (setMarkers priceSeries signalMarkers) ;;
    tradeSeries <- call (addLineSeries tradeChart priceLineOptions) ;;
    setRefs (with_tradeSeriesRef (Some tradeSeries)) ;;
    call (setData tradeSeries priceData) ;;
    call (setMarkers tradeSeries tradeMarkers) ;;
    rsiSeries <- call (addLineSeries rsiChart rsiLineOptions) ;;
    setRefs (with_rsiSeriesRef (Some rsiSeries)) ;;
    call (setData rsiSeries rsiData) ;;
    call (createPriceLine rsiSeries overboughtLine) ;;
    call (createPriceLine rsiSeries oversoldLine) ;;
    call (fitContent priceChart) ;;
    call (fitContent tradeChart) ;;
    call (fitContent rsiChart).

(** The body of the [try] block, for signals and trades that are arrays of
    records. *)
Definition refreshCharts (priceChart tradeChart rsiChart : chart)
  (signals : list Signal.t) (trades : list Trade.t) : M unit :=
  clearSeries priceChart priceSeriesRef with_priceSeriesRef ;;
  clearSeries tradeChart tradeSeriesRef with_tradeSeriesRef ;;
  clearSeries rsiChart rsiSeriesRef with_rsiSeriesRef ;;
  showCharts priceChart tradeChart rsiChart signals trades.

Definition updateFailed (message : string) : string :=
  "Failed to update charts: " ++ message.

(** The [catch] block: [setError(`Failed to update charts: ${err.message}`)]. *)
Definition showUpdateError (err : exception) : M unit :=
  message <- messageOf err ;;
  setError (Some (updateFailed (ToString message))).

(** The effect with dependencies [[signals, trades]], in a state whose two
    cells hold arrays of records. *)
Definition updateCharts : M unit :=
  a <- getApp ;;
  r <- getRefs ;;
  if Nat.ltb 0 (List.length (signals a)) then
    match priceChartInstance r, tradeChartInstance r, rsiChartInstance r with
    | Some priceChart, Some tradeChart, Some rsiChart =>
        try_catch
          (refreshCharts priceChart tradeChart rsiChart (signals a) (trades a))
          showUpdateError
    | _, _, _ => ret tt
    end
  else ret tt.

(** *** The chart-update effect on any response

    [setSignals(data)] and [setTrades(data)] store whatever [res.json()]
    gave.  [lengthOf], [filterable] and [chartUpdateEffect] are the same
    lines of the effect for any value of the two cells: the TypeErrors the
    engine raises on a value that is not an array of records are thrown
    where the effect reads it. *)

(** [signals.length]. *)
Definition lengthOf {A : Type} (value : Response A) : M jsval :=
  match value with
  | NullResponse => throw (typeError (CannotRead VNull "length"))
  | NotAnArray length => ret length
  | ArrayOf elements => ret (VNum (num (Z.of_nat (List.length elements))))
  end.

(** [value.filter(callback)] with a callback that starts by reading the
    property [name] of its argument: the records the callback can be run
    on. *)
Definition filterable {A : Type} (expression name : string) (value : Response A)
  : M (list A) :=
  match value with
  | NullResponse => throw (typeError (CannotRead VNull "filter"))
  | NotAnArray _ => throw (typeError (NotAFunction (expression ++ ".filter")))
  | ArrayOf elements =>
      match records elements with
      | Some l => ret l
      | None => throw (typeError (CannotRead VNull name))
      end
  end.

(** The body of the [try] block. *)
Definition refreshChartsOf (priceChart tradeChart rsiChart : chart)
  (signals : Response Signal.t) (trades : Response Trade.t) : M unit :=
  clearSeries priceChart priceSeriesRef with_priceSeriesRef ;;
  clearSeries tradeChart tradeSeriesRef with_tradeSeriesRef ;;
  clearSeries rsiChart rsiSeriesRef with_rsiSeriesRef ;;
  signalRecords <- filterable "signals" "price" signals ;;
  tradeRecords <- filterable "trades" "timestamp" trades ;;
  showCharts priceChart tradeChart rsiChart signalRecords tradeRecords.

(** The effect with dependencies [[signals, trades]]. *)
Definition chartUpdateEffect (signals : Response Signal.t)
  (trades : Response Trade.t) : M unit :=
  length <- lengthOf signals ;;
  r <- getRefs ;;
  if greater_than_zero length then
    match priceChartInstance r, tradeChartInstance r, rsiChartInstance r with
    | Some priceChart, Some tradeChart, Some rsiChart =>
        try_catch
          (refreshChartsOf priceChart tradeChart rsiChart signals trades)
          showUpdateError
    | _, _, _ => ret tt
    end
  else ret tt.

(** *** The fetch effect *)

(** The effect with dependency [[selectedRunId]]. *)
Definition fetchRun : M unit :=
  a <- getApp ;;
  if truthy (VStr (selectedRunId a)) then
    fetch (mkFetch EpSignals (selectedRunId a)) ;;
    fetch (mkFetch EpTrades (selectedRunId a)) ;;
    fetch (mkFetch EpMetrics (selectedRunId a)) ;;
    fetch (mkFetch EpPortfolioFinal (selectedRunId a))
  else
    setSignals [] ;;
    setTrades [] ;;
    setMetrics None ;;
    setFinalPortfolioValue VNull ;;
    setError None.

(** The [then] and [catch] callbacks of the requests; [None] is a rejected
    promise. *)
Definition onRuns (response : option (list Run.t)) : M unit :=
  match response with
  | Some data => setRuns data
  | None => ret tt
  end.

Definition onSignals (response : option (list Signal.t)) : M unit :=
  match response with
  | Some data => setSignals data ;; setError None
  | None => setError (Some "Failed to fetch signals. Please try another run.")
  end.

Definition onTrades (response : option (list Trade.t)) : M unit :=
  match response with
  | Some data => setTrades data
  | None => setError (Some "Failed to fetch trades. Please try another run.")
  end.

Definition onMetrics (response : option Metrics) : M unit :=
  match response with
  | Some data => setMetrics (Some data) ;; setError None
  | None => setError (Some "Failed to fetch metrics. Please try another run.")
  end.

(** [data.total] of the response. *)
Definition onPortfolioFinal (response : option jsval) : M unit :=
  match response with
  | Some total => setFinalPortfolioValue total ;; setError None
  | None =>
      setError (Some "Failed to fetch final portfolio value. Please try another run.")
  end.

(** *** Events

    What happens to the mounted component: the user picks a run, a request
    settles, a pane's visible range changes.  After the event's own state
    updates React re-runs the effects whose dependencies changed: the fetch
    effect when [selectedRunId] is a different string, the chart-update
    effect when [signals] or [trades] was set (a parsed response and the
    literal [[]] are new arrays every time).  A signals or trades response
    is an array of records, as the cells are. *)
Inductive Event : Type :=
| RunSelected (run_id : string)
| RunsSettled (response : option (list Run.t))
| SignalsSettled (run_id : string) (response : option (list Signal.t))
| TradesSettled (run_id : string) (response : option (list Trade.t))
| MetricsSettled (run_id : string) (response : option Metrics)
| PortfolioFinalSettled (run_id : string) (response : option jsval)
| VisibleRangeChanged (p : Pane).

Definition isSome {A : Type} (o : option A) : bool :=
  match o with Some _ => true | None => false end.

Definition handle (e : Event) : M unit :=
  match e with
  | RunSelected run_id =>
      a <- getApp ;;
      setSelectedRunId run_id ;;
      if String.eqb (selectedRunId a) run_id then ret tt
      else
        fetchRun ;;
        if truthy (VStr run_id) then ret tt else updateCharts
  | RunsSettled response =>
      settled (mkFetch EpRuns "") ;; onRuns response
  | SignalsSettled run_id response =>
      settled (mkFetch EpSignals run_id) ;;
      onSignals response ;;
      if isSome response then updateCharts else ret tt
  | TradesSettled run_id response =>
      settled (mkFetch EpTrades run_id) ;;
      onTrades response ;;
      if isSome response then updateCharts else ret tt
  | MetricsSettled run_id response =>
      settled (mkFetch EpMetrics run_id) ;; onMetrics response
  | PortfolioFinalSettled run_id response =>
      settled (mkFetch EpPortfolioFinal run_id) ;; onPortfolioFinal response
  | VisibleRangeChanged p =>
      r <- getRefs ;;
      match priceChartInstance r, tradeChartInstance r, rsiChartInstance r with
      | Some priceChart, Some tradeChart, Some rsiChart =>
          rangeChanged priceChart tradeChart rsiChart p
      | _, _, _ => ret tt
      end
  end.

(** The request an event settles, if any: it has to be in flight. *)
Definition settles (e : Event) : option Fetch :=
  match e with
  | RunsSettled _ => Some (mkFetch EpRuns "")
  | SignalsSettled run_id _ => Some (mkFetch EpSignals run_id)
  | TradesSettled run_id _ => Some (mkFetch EpTrades run_id)
  | MetricsSettled run_id _ => Some (mkFetch EpMetrics run_id)
  | PortfolioFinalSettled run_id _ => Some (mkFetch EpPortfolioFinal run_id)
  | RunSelected _ | VisibleRangeChanged _ => None
  end.

Definition enabled (e : Event) (w : World chart series lib) : bool :=
  match settles e with
  | Some f => existsb (Fetch_eqb f) (inflight w)
  | None => true
  end.

(** One event, and a sequence of events; [None] when an event cannot
    happen in the world it meets. *)
Definition step (e : Event) (w : World chart series lib)
  : option (World chart series lib) :=
  if enabled e w then Some (snd (handle e w)) else None.

Fixpoint run_events (es : list Event) (w : World chart series lib)
  : option (World chart series lib) :=
  match es with
  | [] => Some w
  | e :: rest =>
      match step e w with
      | Some w' => run_events rest w'
      | None => None
      end
  end.

(** *** The metrics table *)

(** The value cell of the row of [key]; [None] renders nothing. *)
Definition metricCell (a : AppState) (key : string) : option jsval :=
  if String.eqb key "final_portfolio_value"
  then Some (formatMetric (finalPortfolioValue a) key)
  else
    match metrics a with
    | Some m => Some (formatMetric (property m key) key)
    | None => None
    end.

End Component.

(** ** A host and a charting library to run the component on

    The theorems below hold for every [Host] and every [ChartLibrary].  The
    worked examples need one of each. *)

(** [TestHost] reads plain decimal literals as Numbers and the ECMAScript
    date-time format [YYYY-MM-DDTHH:mm:ss.sssZ] as dates; every other
    string is NaN or an invalid date to it. *)
Module TestHost.

Definition digit (c : ascii) : option Z :=
  let n := Z.of_nat (nat_of_ascii c) in
  if (48 <=? n) && (n <=? 57) then Some (n - 48) else None.

Fixpoint natural_from (acc : Z) (s : string) : option Z :=
  match s with
  | EmptyString => Some acc
  | String c rest =>
      match digit c with
      | Some d => natural_from (10 * acc + d) rest
      | None => None
      end
  end.

Definition natural (s : string) : option Z :=
  match s with
  | EmptyString => None
  | _ => natural_from 0 s
  end.

(** The part of [s] before the first [c], and the part after it. *)
Fixpoint split_at (c : ascii) (s : string) : string * option string :=
  match s with
  | EmptyString => (EmptyString, None)
  | String d rest =>
      if Ascii.eqb c d then (EmptyString, Some rest)
      else let (before, after) := split_at c rest in (String d before, after)
  end.

Definition unsigned_literal (s : string) : option Q :=
  match split_at "." s with
  | (whole, None) => option_map inject_Z (natural whole)
  | (whole, Some fraction) =>
      match natural whole, natural fraction with
      | Some w, Some f =>
          Some (Qred (inject_Z w
                      + inject_Z f / inject_Z (10 ^ Z.of_nat (String.length fraction)))%Q)
      | _, _ => None
      end
  end.

Definition StringToNumber (s : string) : number :=
  match s with
  | EmptyString => num 0
  | String "-" rest =>
      match unsigned_literal rest with
      | Some q => Fin (Qred (- q)%Q)
      | None => NaN
      end
  | _ =>
      match unsigned_literal s with
      | Some q => Fin q
      | None => NaN
      end
  end.

Definition leap (y : Z) : bool :=
  ((y mod 4 =? 0) && negb (y mod 100 =? 0)) || (y mod 400 =? 0).

Definition days_in_month (y m : Z) : Z :=
  if m =? 2 then (if leap y then 29 else 28)
  else if (m =? 4) || (m =? 6) || (m =? 9) || (m =? 11) then 30
  else 31.

(** Days from 1970-01-01 to the civil date [y]-[m]-[d]. *)
Definition days_from_civil (y m d : Z) : Z :=
  let y' := if m <=? 2 then y - 1 else y in
  let era := y' / 400 in
  let yoe := y' - era * 400 in
  let mp := (m + 9) mod 12 in
  let doy := (153 * mp + 2) / 5 + d - 1 in
  let doe := yoe * 365 + yoe / 4 - yoe / 100 + doy in
  era * 146097 + doe - 719468.

Definition field (s : string) (start len : nat) : option Z :=
  natural (substring start len s).

Definition separators_ok (s : string) : bool :=
  String.eqb (substring 4 1 s) "-" && String.eqb (substring 7 1 s) "-"
  && String.eqb (substring 10 1 s) "T" && String.eqb (substring 13 1 s) ":"
  && String.eqb (substring 16 1 s) ":" && String.eqb (substring 19 1 s) "."
  && String.eqb (substring 23 1 s) "Z".

Definition Date_parse (s : string) : option Z :=
  if negb (Nat.eqb (String.length s) 24 && separators_ok s) then None
  else
    match field s 0 4, field s 5 2, field s 8 2,
          field s 11 2, field s 14 2, field s 17 2, field s 20 3 with
    | Some y, Some m, Some d, Some hh, Some mm, Some ss, Some ms =>
        if (1 <=? m) && (m <=? 12) && (1 <=? d) && (d <=? days_in_month y m)
           && (hh <=? 23) && (mm <=? 59) && (ss <=? 59)
        then Some ((((days_from_civil y m d * 24 + hh) * 60 + mm) * 60 + ss)
                   * 1000 + ms)
        else None
    | _, _, _, _, _, _, _ => None
    end.

(** The locale of this host writes a date as its epoch milliseconds. *)
Definition Date_toLocaleString (t : option Z) : string :=
  match t with
  | None => "Invalid Date"
  | Some ms =>
      (if ms <? 0 then "-" else "") ++ decimal_digits (Z.abs ms) ++ " ms"
  end.

(** Without the exponent notation of a JavaScript engine. *)
Definition Number_toString (q : Q) : string := decimal_digits (Qfloor q).

Definition quoted (v : jsval) : string :=
  match v with
  | VUndefined => "undefined"
  | _ => "null"
  end.

(** The messages of V8. *)
Definition TypeError_message (reason : TypeError) : string :=
  match reason with
  | CannotRead base name =>
      "Cannot read properties of " ++ quoted base
      ++ " (reading '" ++ name ++ "')"
  | NotAFunction callee => callee ++ " is not a function"
  end.

End TestHost.

#[export] Instance testHost : Host := {|
  StringToNumber := TestHost.StringToNumber;
  Date_parse := TestHost.Date_parse;
  Date_toLocaleString := TestHost.Date_toLocaleString;
  Number_toString := TestHost.Number_toString;
  TypeError_message := TestHost.TypeError_message
|}.

(** [TestCharts]: three charts, one per pane.  A chart keeps its series
    and its visible logical range; a series keeps what was set on it.  A
    chart that was disposed of throws on every call. *)
Module TestCharts.

Record Series : Type := mkSeries {
  id : nat;
  options : LineSeriesOptions.t;
  data : list ChartPoint.t;
  markers : list Marker.t;
  priceLines : list PriceLineOptions.t
}.

Record Chart : Type := mkChart {
  seriesOf : list Series;
  created : nat;
  visibleLogicalRange : option LogicalRange.t;
  disposed : bool
}.

Record Charts : Type := mkCharts {
  priceChart : Chart;
  tradeChart : Chart;
  rsiChart : Chart
}.

Definition chart (l : Charts) (p : Pane) : Chart :=
  match p with
  | PricePane => priceChart l
  | TradePane => tradeChart l
  | RsiPane => rsiChart l
  end.

Definition with_chart (p : Pane) (c : Chart) (l : Charts) : Charts :=
  match p with
  | PricePane => mkCharts c (tradeChart l) (rsiChart l)
  | TradePane => mkCharts (priceChart l) c (rsiChart l)
  | RsiPane => mkCharts (priceChart l) (tradeChart l) c
  end.

Definition isDisposed : exception := Error "Object is disposed".

(** A call on the chart of pane [p]. *)
Definition on_chart {A : Type} (p : Pane) (f : Chart -> A * Chart) (l : Charts)
  : completion A * Charts :=
  if disposed (chart l p) then (Throw isDisposed, l)
  else let (a, c) := f (chart l p) in (Normal a, with_chart p c l).

Definition update_series (n : nat) (f : Series -> Series) (c : Chart) : Chart :=
  mkChart (map (fun s => if Nat.eqb (id s) n then f s else s) (seriesOf c))
    (created c) (visibleLogicalRange c) (disposed c).

Definition longest (c : Chart) : nat :=
  fold_right Nat.max 0%nat (map (fun s => List.length (data s)) (seriesOf c)).

Definition fitted (c : Chart) : option LogicalRange.t :=
  match longest c with
  | O => None
  | S n => Some (LogicalRange.mk (num 0) (num (Z.of_nat n)))
  end.

(** No chart was disposed of. *)
Definition live (l : Charts) : Prop :=
  forall p, disposed (chart l p) = false.

End TestCharts.

#[export] Instance testCharts : ChartLibrary Pane (Pane * nat) TestCharts.Charts := {|
  removeSeries p s :=
    TestCharts.on_chart p (fun c =>
      (tt, TestCharts.mkChart
             (filter (fun x => negb (Nat.eqb (TestCharts.id x) (snd s)))
                (TestCharts.seriesOf c))
             (TestCharts.created c) (TestCharts.visibleLogicalRange c)
             (TestCharts.disposed c)));
  addLineSeries p o :=
    TestCharts.on_chart p (fun c =>
      ((p, TestCharts.created c),
       TestCharts.mkChart
         (TestCharts.seriesOf c
          ++ [TestCharts.mkSeries (TestCharts.created c) o [] [] []])
         (S (TestCharts.created c)) (TestCharts.visibleLogicalRange c)
         (TestCharts.disposed c)));
  setData s d :=
    TestCharts.on_chart (fst s) (fun c =>
      (tt, TestCharts.update_series (snd s)
             (fun x => TestCharts.mkSeries (TestCharts.id x) (TestCharts.options x)
                         d (TestCharts.markers x) (TestCharts.priceLines x)) c));
  setMarkers s m :=
    TestCharts.on_chart (fst s) (fun c =>
      (tt, TestCharts.update_series (snd s)
             (fun x => TestCharts.mkSeries (TestCharts.id x) (TestCharts.options x)
                         (TestCharts.data x) m (TestCharts.priceLines x)) c));
  createPriceLine s o :=
    TestCharts.on_chart (fst s) (fun c =>
      (tt, TestCharts.update_series (snd s)
             (fun x => TestCharts.mkSeries (TestCharts.id x) (TestCharts.options x)
                         (TestCharts.data x) (TestCharts.markers x)
                         (TestCharts.priceLines x ++ [o])) c));
  fitContent p :=
    TestCharts.on_chart p (fun c =>
      (tt, TestCharts.mkChart (TestCharts.seriesOf c) (TestCharts.created c)
             (TestCharts.fitted c) (TestCharts.disposed c)));
  getVisibleLogicalRange p :=
    TestCharts.on_chart p (fun c => (TestCharts.visibleLogicalRange c, c));
  setVisibleLogicalRange p r :=
    TestCharts.on_chart p (fun c =>
      (tt, TestCharts.mkChart (TestCharts.seriesOf c) (TestCharts.created c)
             (Some r) (TestCharts.disposed c)))
|}.

(** ** Vocabulary of the specification *)

(** [a < b] and [a <= b] on Numbers; false when either is NaN. *)
Definition number_compare (a b : number) : option comparison :=
  match a, b with
  | NaN, _ | _, NaN => None
  | Inf s, Inf s' =>
      Some (if Bool.eqb s s' then Eq else if s then Lt else Gt)
  | Inf s, Fin _ => Some (if s then Lt else Gt)
  | Fin _, Inf s => Some (if s then Gt else Lt)
  | Fin p, Fin q => Some (p ?= q)%Q
  end.

Definition number_ltb (a b : number) : bool :=
  match number_compare a b with Some Lt => true | _ => false end.

Definition number_leb (a b : number) : bool :=
  match number_compare a b with Some Lt | Some Eq => true | _ => false end.

Definition number_eqb (a b : number) : bool :=
  match number_compare a b with Some Eq => true | _ => false end.

(** A series is strictly increasing in time when each point is later than
    the one before it. *)
Fixpoint strictly_increasing (times : list number) : bool :=
  match times with
  | a :: (b :: _) as rest => number_ltb a b && strictly_increasing rest
  | _ => true
  end.

Fixpoint Z_strictly_increasing (l : list Z) : bool :=
  match l with
  | a :: (b :: _) as rest => (a <? b) && Z_strictly_increasing rest
  | _ => true
  end.

(** Markers in ascending order of time. *)
Definition time_le (a b : Marker.t) : Prop :=
  number_leb (Marker.time a) (Marker.time b) = true.

(** The markers of a list that sit at time [t], in their order. *)
Definition at_time (t : number) (l : list Marker.t) : list Marker.t :=
  filter (fun m => number_eqb (Marker.time m) t) l.

(** The epoch milliseconds of a timestamp ([0] for an invalid date). *)
Definition epoch_ms `{Host} (ts : jsval) : Z :=
  match Date_new ts with Some ms => ms | None => 0 end.

(** The timestamp rule of the series on its own: the timestamp parses to a
    truthy time value. *)
Definition timestamp_isValid `{Host} (s : Signal.t) : bool :=
  number_truthy (getTime (Signal.timestamp s)).

(** The signal markers as the specification words them: one marker per
    record with a buy or sell signal and a valid timestamp, in the order of
    the records, then sorted by time with ties in that order. *)
Definition markerOfRecord `{Host} (s : Signal.t) : list Marker.t :=
  if timestamp_isValid s then
    if strict_eq_num (Signal.signal s) 1 then [buyMarker s]
    else if strict_eq_num (Signal.signal s) (-1) then [sellMarker s]
    else []
  else [].

Definition markersInRecordOrder `{Host} (signals : list Signal.t) : list Marker.t :=
  Array_sort byTime (flat_map markerOfRecord signals).

(** The trade marker as the specification words it, without the fallback
    text. *)
Definition isLong (action : jsval) : bool :=
  match action with
  | VStr s => String.eqb s "Buy" || String.eqb s "Cover"
  | _ => false
  end.

Definition tradeMarkerOfReason `{Host} (t : Trade.t) : Marker.t :=
  {| Marker.time := seconds (Trade.timestamp t);
     Marker.position := if isLong (Trade.action t) then "belowBar" else "aboveBar";
     Marker.color := if isLong (Trade.action t) then "green" else "red";
     Marker.shape := "circle";
     Marker.text := Trade.reason t |}.

(** The keys [formatMetric] has a string rule for. *)
Definition string_keys : list string :=
  date_keys ++ percent_keys ++ ratio_keys
  ++ ["avg_trade_duration"; "final_portfolio_value"].

Definition isString (v : jsval) : bool :=
  match v with VStr _ => true | _ => false end.

(** [z] is the integer nearest to [q], the larger one on a tie. *)
Definition nearest_integer (q : Q) (z : Z) : Prop :=
  (inject_Z z - (1 # 2) <= q /\ q < inject_Z z + (1 # 2))%Q.

(** One of the calls the chart-update effect makes into the charting
    library throws [err] on some state of the library. *)
Inductive raised_by_library {chart series lib : Type}
  `{ChartLibrary chart series lib} (err : exception) : Prop :=
| raised_by_removeSeries (c : chart) (s : series) (l l' : lib) :
    removeSeries c s l = (Throw err, l') -> raised_by_library err
| raised_by_addLineSeries (c : chart) (o : LineSeriesOptions.t) (l l' : lib) :
    addLineSeries c o l = (Throw err, l') -> raised_by_library err
| raised_by_setData (s : series) (d : list ChartPoint.t) (l l' : lib) :
    setData s d l = (Throw err, l') -> raised_by_library err
| raised_by_setMarkers (s : series) (m : list Marker.t) (l l' : lib) :
    setMarkers s m l = (Throw err, l') -> raised_by_library err
| raised_by_createPriceLine (s : series) (o : PriceLineOptions.t) (l l' : lib) :
    createPriceLine s o l = (Throw err, l') -> raised_by_library err
| raised_by_fitContent (c : chart) (l l' : lib) :
    fitContent c l = (Throw err, l') -> raised_by_library err.

(** An effect or a call that throws nothing but what [P] holds of. *)
Definition only_throws {chart series lib A : Type} (P : exception -> Prop)
  (m : @M chart series lib A) : Prop :=
  forall w err w', m w = (Throw err, w') -> P err.

(** The records of a response that is an array without a [null] element. *)
Definition recordsOf {A : Type} (value : Response A) : option (list A) :=
  match value with
  | ArrayOf elements => records elements
  | _ => None
  end.

(** A response that is not an array of records, with the TypeError that
    [expression.filter(callback)] raises on it when the callback starts by
    reading the property [name] of its argument. *)
Inductive rejected {A : Type} (expression name : string)
  : Response A -> TypeError -> Prop :=
| rejected_null :
    rejected expression name NullResponse (CannotRead VNull "filter")
| rejected_not_an_array (length : jsval) :
    rejected expression name (NotAnArray length)
      (NotAFunction (expression ++ ".filter"))
| rejected_null_element (elements : list (option A)) :
    In None elements ->
    rejected expression name (ArrayOf elements) (CannotRead VNull name).

(** An outcome that is normal, or is the TypeError of a [catch] block that
    read the message of a [null] or [undefined] thrown by the library. *)
Definition normal_or_nullish `{Host} {chart series lib : Type}
  `{ChartLibrary chart series lib} (c : completion unit) : Prop :=
  c = Normal tt
  \/ exists v,
       loose_eq_null v = true /\ raised_by_library (Thrown v)
       /\ c = Throw (typeError (CannotRead v "message")).

(** The time of a marker as a rational, when it is finite. *)
Definition timeQ (m : Marker.t) : Q :=
  match Marker.time m with Fin q => q | _ => 0%Q end.

Definition finite_time (m : Marker.t) : Prop :=
  exists q, Marker.time m = Fin q.

(** An effect that leaves the state cells as they are. *)
Definition keeps_state {chart series lib A : Type}
  (m : @M chart series lib A) : Prop :=
  forall w, app (snd (m w)) = app w.


(** ** Example data *)
Module Examples.

Definition signalAt (timestamp : jsval) (price rsi signal : Z) : Signal.t :=
  Signal.mk timestamp (VNum (num price)) (VNum (num rsi)) (VNum (num signal)).

(** Two bars of run R1 and two of run R2, with ISO timestamps. *)
Definition r1_signals : list Signal.t :=
  [ signalAt (VStr "2024-03-01T09:15:00.000Z") 100 25 1;
    signalAt (VStr "2024-03-01T09:16:00.000Z") 104 75 (-1) ].

Definition r2_signals : list Signal.t :=
  [ signalAt (VStr "2024-04-01T09:15:00.000Z") 200 50 0;
    signalAt (VStr "2024-04-01T09:16:00.000Z") 201 28 1 ].

Definition r1_trades : list Trade.t :=
  [ Trade.mk (VStr "2024-03-01T09:15:00.000Z") (VStr "Buy")
      (VStr "RSI below 30") (VNum (num 100));
    Trade.mk (VStr "2024-03-01T09:16:00.000Z") (VStr "Sell")
      (VStr "RSI above 70") (VNum (num 104)) ].

Definition r2_trades : list Trade.t :=
  [ Trade.mk (VStr "2024-04-01T09:16:00.000Z") (VStr "Buy")
      (VStr "RSI below 30") (VNum (num 201)) ].

Definition r1_metrics : Metrics :=
  [ ("sharpe_ratio", VNum (Fin (12345 # 1000))); ("win_rate", VNum (num 5));
    ("total_trades", VNum (num 2)) ].

Definition r2_metrics : Metrics :=
  [ ("sharpe_ratio", VNum (Fin (1 # 2))); ("win_rate", VNum (num 100));
    ("total_trades", VNum (num 1)) ].

(** Two records on the same bar, and two records out of order. *)
Definition duplicated : list Signal.t :=
  [ signalAt (VNum (num 1000)) 10 40 0; signalAt (VNum (num 1000)) 11 41 0 ].

Definition decreasing : list Signal.t :=
  [ signalAt (VNum (num 2000)) 10 40 0; signalAt (VNum (num 1000)) 11 41 0 ].

(** A buy signal without a price. *)
Definition unpriced_buy : list Signal.t :=
  [ Signal.mk (VNum (num 1000)) VNull (VNum (num 25)) (VNum (num 1)) ].

(** A sell record followed by a buy record on the same bar. *)
Definition sell_then_buy : list Signal.t :=
  [ signalAt (VNum (num 1000)) 10 75 (-1); signalAt (VNum (num 1000)) 10 25 1 ].

(** A record at the Unix epoch. *)
Definition epoch_signal : Signal.t :=
  signalAt (VStr "1970-01-01T00:00:00.000Z") 100 50 1.

Definition epoch_trade : Trade.t :=
  Trade.mk (VStr "1970-01-01T00:00:00.000Z") (VStr "Buy") (VStr "RSI below 30")
    (VNum (num 100)).

(** The mounted component on the test charts, before any run is chosen. *)
Definition emptyChart : TestCharts.Chart := TestCharts.mkChart [] 0 None false.

Definition mounted : World Pane (Pane * nat) TestCharts.Charts :=
  mkWorld initialState
    (mkRefs (Some PricePane) (Some TradePane) (Some RsiPane) None None None false)
    (TestCharts.mkCharts emptyChart emptyChart emptyChart) [].

(** Run R1 chosen and its four responses arrived. *)
Definition r1_loaded_events : list Event :=
  [ RunSelected "R1";
    SignalsSettled "R1" (Some r1_signals);
    TradesSettled "R1" (Some r1_trades);
    MetricsSettled "R1" (Some r1_metrics);
    PortfolioFinalSettled "R1" (Some (VNum (num 1000))) ].

Definition r1_loaded : World Pane (Pane * nat) TestCharts.Charts :=
  match run_events r1_loaded_events mounted with
  | Some w => w
  | None => mounted
  end.

(** The same world after the user panned the price chart: the range the
    chart shows of its own accord before its callback runs. *)
Definition panned_range : LogicalRange.t := LogicalRange.mk (num 3) (num 7).

Definition panned : World Pane (Pane * nat) TestCharts.Charts :=
  mkWorld (app r1_loaded) (refs r1_loaded)
    (TestCharts.with_chart PricePane
       (TestCharts.mkChart
          (TestCharts.seriesOf (TestCharts.priceChart (charts r1_loaded)))
          (TestCharts.created (TestCharts.priceChart (charts r1_loaded)))
          (Some panned_range)
          false)
       (charts r1_loaded))
    (inflight r1_loaded).

(** And with the oscillator chart disposed of as well. *)
Definition panned_rsi_disposed : World Pane (Pane * nat) TestCharts.Charts :=
  mkWorld (app panned) (refs panned)
    (TestCharts.with_chart RsiPane
       (TestCharts.mkChart
          (TestCharts.seriesOf (TestCharts.rsiChart (charts panned)))
          (TestCharts.created (TestCharts.rsiChart (charts panned)))
          (TestCharts.visibleLogicalRange (TestCharts.rsiChart (charts panned)))
          true)
       (charts panned))
    (inflight panned).



(** [r1_loaded] at the moment the price chart has lost its series and shows
    no range, while the other two charts still show theirs. *)
Definition price_emptied : World Pane (Pane * nat) TestCharts.Charts :=
  mkWorld (app r1_loaded) (refs r1_loaded)
    (TestCharts.with_chart PricePane
       (TestCharts.mkChart []
          (TestCharts.created (TestCharts.priceChart (charts r1_loaded)))
          None false)
       (charts r1_loaded))
    (inflight r1_loaded).

End Examples.

(** ** The rest of the component *)

(** *** The metrics table *)

(** [v !== null]. *)
Definition strict_neq_null (v : jsval) : bool :=
  match v with VNull => false | _ => true end.

(** The table under [(metrics || finalPortfolioValue !== null) &&]: [None]
    when it is not rendered, else the label and the value cell of each row
    of [metricDisplay]. *)
Definition metricsTable `{Host} (a : AppState)
  : option (list (string * option jsval)) :=
  if isSome (metrics a) || strict_neq_null (finalPortfolioValue a)
  then Some (map (fun row => (snd row, metricCell a (fst row))) metricDisplay)
  else None.

(** *** Notifications that arrive while a range is being applied

    A charting library may call the subscribers of a chart from inside
    [setVisibleLogicalRange] on that chart.  [notified depth] is the callback
    of pane [p] with these nested calls: after each range it applies, the
    callback of the target pane runs, one stack frame deeper.  Without a
    frame left the engine throws its RangeError. *)
Section Reentrant.
Context {chart series lib : Type} `{ChartLibrary chart series lib}.
Local Open Scope effect_scope.

Definition stackOverflow : string := "Maximum call stack size exceeded".

Fixpoint notified (depth : nat) (price trade rsi : chart) (p : Pane)
  : @M chart series lib unit :=
  match depth with
  | O => throw (Error stackOverflow)
  | S depth' =>
      r <- getRefs ;;
      if isUpdatingTimeScale r then ret tt
      else
        setRefs (with_isUpdatingTimeScale true) ;;
        timeRange <- call (getVisibleLogicalRange (chartOf price trade rsi p)) ;;
        match timeRange with
        | Some range =>
            forEach (targetPanes p)
              (fun q =>
                 call (setVisibleLogicalRange (chartOf price trade rsi q) range) ;;
                 notified depth' price trade rsi q)
        | None => ret tt
        end ;;
        setRefs (with_isUpdatingTimeScale false)
  end.

End Reentrant.

(** *** The initialisation of the charts *)

(** The [div] of a pane, with the width it has when it is read. *)
Record Container : Type := mkContainer { pane : Pane; clientWidth : number }.

Module CrosshairMode.
Inductive t : Type := Normal | Magnet.
End CrosshairMode.

Module ChartOptions.
Record t : Type := mk {
  width : number;
  height : Z;
  background : string;
  textColor : string;
  vertLines : string;
  horzLines : string;
  crosshair : CrosshairMode.t;
  timeVisible : bool;
  secondsVisible : bool
}.
End ChartOptions.

(** The options every chart is created with. *)
Definition chartOptions (el : Container) : ChartOptions.t :=
  {| ChartOptions.width := clientWidth el;
     ChartOptions.height := 233;
     ChartOptions.background := "#ffffff";
     ChartOptions.textColor := "#333";
     ChartOptions.vertLines := "#e0e0e0";
     ChartOptions.horzLines := "#e0e0e0";
     ChartOptions.crosshair := CrosshairMode.Normal;
     ChartOptions.timeVisible := true;
     ChartOptions.secondsVisible := true |}.

(** [createChart], and [chart.timeScale().subscribeVisibleTimeRangeChange]
    with the callback that [syncTimeScales] builds for the given target
    charts. *)
Class ChartFactory (chart lib : Type) : Type := {
  createChart : Container -> ChartOptions.t -> lib -> completion chart * lib;
  subscribeVisibleTimeRangeChange :
    chart -> list chart -> lib -> completion unit * lib
}.

Section Initialise.
Context {chart series lib : Type} `{ChartFactory chart lib}.
Local Open Scope effect_scope.

Local Abbreviation M := (@M chart series lib).
Local Abbreviation Refs := (Refs chart series).

Definition with_priceChartInstance (v : option chart) (r : Refs) : Refs :=
  mkRefs v (tradeChartInstance r) (rsiChartInstance r)
    (priceSeriesRef r) (tradeSeriesRef r) (rsiSeriesRef r) (isUpdatingTimeScale r).
Definition with_tradeChartInstance (v : option chart) (r : Refs) : Refs :=
  mkRefs (priceChartInstance r) v (rsiChartInstance r)
    (priceSeriesRef r) (tradeSeriesRef r) (rsiSeriesRef r) (isUpdatingTimeScale r).
Definition with_rsiChartInstance (v : option chart) (r : Refs) : Refs :=
  mkRefs (priceChartInstance r) (tradeChartInstance r) v
    (priceSeriesRef r) (tradeSeriesRef r) (rsiSeriesRef r) (isUpdatingTimeScale r).

Definition syncTimeScales (sourceChart : chart) (targetCharts : list chart)
  : M unit :=
  call (subscribeVisibleTimeRangeChange sourceChart targetCharts).

(** The body of the [try] block, up to the registration of the resize
    listener, which is not modelled.  Each instance ref is read back right
    after it is assigned, so the charts passed on are the ones created. *)
Definition createCharts (priceEl tradeEl rsiEl : Container) : M unit :=
  price <- call (createChart priceEl (chartOptions priceEl)) ;;
  setRefs (with_priceChartInstance (Some price)) ;;
  trade <- call (createChart tradeEl (chartOptions tradeEl)) ;;
  setRefs (with_tradeChartInstance (Some trade)) ;;
  rsi <- call (createChart rsiEl (chartOptions rsiEl)) ;;
  setRefs (with_rsiChartInstance (Some rsi)) ;;
  syncTimeScales price [trade; rsi] ;;
  syncTimeScales trade [price; rsi] ;;
  syncTimeScales rsi [price; trade].

Definition initFailed : string := "Failed to initialize charts.".

(** The effect that runs once, on mount, with the three container refs. *)
Definition initCharts (priceChartRef tradeChartRef rsiChartRef : option Container)
  : M unit :=
  match priceChartRef, tradeChartRef, rsiChartRef with
  | Some priceEl, Some tradeEl, Some rsiEl =>
      try_catch (createCharts priceEl tradeEl rsiEl)
        (fun _ => setError (Some initFailed))
  | _, _, _ => ret tt
  end.

End Initialise.

(** On the test charts, creating the chart of a container is getting hold
    of the chart of its pane; a subscription leaves no trace. *)
#[export] Instance testFactory : ChartFactory Pane TestCharts.Charts := {|
  createChart el o := TestCharts.on_chart (pane el) (fun c => (pane el, c));
  subscribeVisibleTimeRangeChange p targets :=
    TestCharts.on_chart p (fun c => (tt, c))
|}.

(** *** Vocabulary of the further properties *)

(** [key] is a property of the metrics object. *)
Definition hasProperty (m : Metrics) (key : string) : bool :=
  existsb (fun entry => String.eqb (fst entry) key) m.

(** A request for a run is made for a run id that is not empty. *)
Definition for_a_run (f : Fetch) : Prop :=
  endpoint f = EpRuns \/ run f <> "".

(** Two worlds that differ in the requests in flight at most. *)
Definition same_but_inflight {chart series lib : Type}
  (w w' : World chart series lib) : Prop :=
  app w = app w' /\ refs w = refs w' /\ charts w = charts w'.

(** Two sets of refs with the same charts and the same guard. *)
Definition same_charts_and_guard {chart series : Type}
  (r r' : Refs chart series) : Prop :=
  priceChartInstance r = priceChartInstance r'
  /\ tradeChartInstance r = tradeChartInstance r'
  /\ rsiChartInstance r = rsiChartInstance r'
  /\ isUpdatingTimeScale r = isUpdatingTimeScale r'.

(** Two sets of refs that differ in the guard at most. *)
Definition same_but_guard {chart series : Type}
  (r r' : Refs chart series) : Prop :=
  priceChartInstance r = priceChartInstance r'
  /\ tradeChartInstance r = tradeChartInstance r'
  /\ rsiChartInstance r = rsiChartInstance r'
  /\ priceSeriesRef r = priceSeriesRef r'
  /\ tradeSeriesRef r = tradeSeriesRef r'
  /\ rsiSeriesRef r = rsiSeriesRef r'.

(** Two states that differ in the error at most. *)
Definition same_but_error (a a' : AppState) : Prop :=
  runs a = runs a' /\ selectedRunId a = selectedRunId a'
  /\ signals a = signals a' /\ trades a = trades a'
  /\ metrics a = metrics a'
  /\ finalPortfolioValue a = finalPortfolioValue a'.

(** An effect that changes, of the state cells, the error at most, and
    neither the charts, the guard nor the requests in flight. *)
Definition keeps_frame {chart series lib A : Type}
  (m : @M chart series lib A) : Prop :=
  forall w,
    same_but_error (app w) (app (snd (m w)))
    /\ same_charts_and_guard (refs w) (refs (snd (m w)))
    /\ inflight (snd (m w)) = inflight w.

Definition with_inflight {chart series lib : Type} (i : list Fetch)
  (w : World chart series lib) : World chart series lib :=
  mkWorld (app w) (refs w) (charts w) i.

(** An effect that neither reads nor changes the requests in flight. *)
Definition inflight_blind {chart series lib A : Type}
  (m : @M chart series lib A) : Prop :=
  forall w i, m (with_inflight i w) = (fst (m w), with_inflight i (snd (m w))).

(** The digits [toFixed] splits around the point: the decimal digits of
    [n], with zeros in front up to [f + 1] digits. *)
Definition padded (f : nat) (n : Z) : string :=
  zeros (S f - String.length (decimal_digits n)) ++ decimal_digits n.

(** No chart exists yet. *)
Definition no_charts {chart series : Type} (r : Refs chart series) : Prop :=
  priceChartInstance r = None /\ tradeChartInstance r = None
  /\ rsiChartInstance r = None.

(** On the test charts: the charts of the component are those of the three
    panes, all live, and each holds the series its ref names and no
    other. *)
Definition shown (l : TestCharts.Charts) (p : Pane) (ref : option (Pane * nat))
  : Prop :=
  match ref with
  | Some s =>
      fst s = p
      /\ exists x, TestCharts.seriesOf (TestCharts.chart l p) = [x]
                   /\ TestCharts.id x = snd s
  | None => TestCharts.seriesOf (TestCharts.chart l p) = []
  end.

Definition tidy (w : World Pane (Pane * nat) TestCharts.Charts) : Prop :=
  priceChartInstance (refs w) = Some PricePane
  /\ tradeChartInstance (refs w) = Some TradePane
  /\ rsiChartInstance (refs w) = Some RsiPane
  /\ TestCharts.live (charts w)
  /\ shown (charts w) PricePane (priceSeriesRef (refs w))
  /\ shown (charts w) TradePane (tradeSeriesRef (refs w))
  /\ shown (charts w) RsiPane (rsiSeriesRef (refs w)).

(** The single series of a pane, if it has just one. *)
Definition theSeries (l : TestCharts.Charts) (p : Pane)
  : option TestCharts.Series :=
  match TestCharts.seriesOf (TestCharts.chart l p) with
  | [x] => Some x
  | _ => None
  end.

Module MoreExamples.

Definition priceDiv : Container := mkContainer PricePane (num 800).
Definition tradeDiv : Container := mkContainer TradePane (num 800).
Definition rsiDiv : Container := mkContainer RsiPane (num 800).

(** The component before its charts exist. *)
Definition unmounted : World Pane (Pane * nat) TestCharts.Charts :=
  mkWorld initialState (mkRefs None None None None None None false)
    (TestCharts.mkCharts Examples.emptyChart Examples.emptyChart
       Examples.emptyChart) [].

(** The same with the trade chart disposed of, so that creating it fails. *)
Definition unmounted_trade_disposed
  : World Pane (Pane * nat) TestCharts.Charts :=
  mkWorld initialState (mkRefs None None None None None None false)
    (TestCharts.mkCharts Examples.emptyChart
       (TestCharts.mkChart [] 0 None true) Examples.emptyChart) [].

End MoreExamples.

(** * Properties *)

(** ** The metric formatter *)

Lemma includes_app (l1 l2 : list string) (v : jsval) :
  includes (l1 ++ l2) v = includes l1 v || includes l2 v.
Proof.
  destruct v; simpl; try reflexivity.
  apply existsb_app.
Qed.

Lemma Math_round_nearest (q : Q) : nearest_integer q (Qfloor (q + (1 # 2))%Q).
Proof.
  unfold nearest_integer.
  pose proof (Qfloor_le (q + (1 # 2))) as Hle.
  pose proof (Qlt_floor (q + (1 # 2))) as Hlt.
  rewrite inject_Z_plus in Hlt.
  split.
  - apply Qplus_le_l with (z := 1 # 2).
    eapply Qle_trans; [|exact Hle].
    ring_simplify. apply Qle_refl.
  - apply Qplus_lt_l with (z := 1 # 2).
    eapply Qlt_le_trans; [exact Hlt|].
    ring_simplify. apply Qle_refl.
Qed.

(** C8. [formatMetric] returns ["N/A"] for a null (or undefined) value under
    every key, before any rule of the key is looked at; and it gives
    ["12.35"] for 12.345 under [sharpe_ratio] (for the decimal 12.345 and for
    the binary64 value the literal [12.345] denotes), ["5.00%"] for 5 under
    [win_rate] and the rupee sign followed by ["1000.00"] for 1000 under
    [final_portfolio_value]. *)
Theorem formatMetric_sentinel_and_examples (host : Host) :
  (forall key, formatMetric VNull key = VStr "N/A")
  /\ (forall key, formatMetric VUndefined key = VStr "N/A")
  /\ formatMetric (VNum (Fin (12345 # 1000))) "sharpe_ratio" = VStr "12.35"
  /\ formatMetric (VNum (Fin (6949617174986097 # 562949953421312)))
       "sharpe_ratio" = VStr "12.35"
  /\ formatMetric (VNum (num 5)) "win_rate" = VStr "5.00%"
  /\ formatMetric (VNum (num 1000)) "final_portfolio_value" = VStr "₹1000.00".
Proof.
  repeat split; try (intros key; reflexivity); vm_compute; reflexivity.
Qed.

(** C9, as the code has it.  For a numeric value [formatMetric] is total
    and returns a string under every key it has a string rule for (the date,
    percent, ratio, duration and currency keys); under any other key, such
    as [total_trades], it returns [Math.round(value)], a Number and not a
    string, which for a finite value is the nearest integer (the larger one
    on a tie). *)
Theorem formatMetric_string_or_rounded (host : Host) (key : string) (n : number) :
  (includes string_keys (VStr key) = true ->
     isString (formatMetric (VNum n) key) = true)
  /\ (includes string_keys (VStr key) = false ->
        formatMetric (VNum n) key = VNum (Math_round n)
        /\ isString (formatMetric (VNum n) key) = false
        /\ forall q, n = Fin q ->
             exists z, Math_round n = num z /\ nearest_integer q z).
Proof.
  unfold string_keys, formatMetric.
  rewrite !includes_app.
  cbn [loose_eq_null].
  destruct (includes date_keys (VStr key)); [split; [reflexivity | discriminate]|].
  destruct (includes percent_keys (VStr key)); [split; [reflexivity | discriminate]|].
  destruct (includes ratio_keys (VStr key)); [split; [reflexivity | discriminate]|].
  cbn [orb includes existsb].
  destruct (String.eqb key "avg_trade_duration");
    [split; [reflexivity | discriminate]|].
  destruct (String.eqb key "final_portfolio_value");
    [split; [reflexivity | discriminate]|].
  split; [discriminate|].
  intros _. cbn [ToNumber].
  split; [reflexivity|]. split; [reflexivity|].
  intros q ->. exists (Qfloor (q + (1 # 2))%Q).
  split; [reflexivity | apply Math_round_nearest].
Qed.

Lemma formatMetric_string_or_rounded_witness :
  isString (formatMetric (VNum (num 5)) "win_rate") = true
  /\ formatMetric (VNum (Fin (5 # 2))) "total_trades" = VNum (num 3).
Proof.
  split.
  - apply (proj1 (formatMetric_string_or_rounded testHost "win_rate" (num 5))).
    reflexivity.
  - apply (proj2 (formatMetric_string_or_rounded testHost "total_trades"
                    (Fin (5 # 2)))).
    reflexivity.
Defined.

(** C9 as stated fails: under the declared key [total_trades] the result
    for the numeric value 5 is the Number 5, not a string. *)
Lemma formatMetric_total_trades_not_string :
  In "total_trades" declared_keys
  /\ formatMetric (VNum (num 5)) "total_trades" = VNum (num 5)
  /\ ~ (forall key n, In key declared_keys ->
          isString (formatMetric (VNum n) key) = true).
Proof.
  split; [vm_compute; tauto|].
  split; [reflexivity|].
  intros Hall.
  specialize (Hall "total_trades" (num 5)).
  assert (Hin : In "total_trades" declared_keys) by (vm_compute; tauto).
  specialize (Hall Hin). vm_compute in Hall. discriminate.
Qed.

(** ** Validation *)

Section Validation.
Context `{Host}.

Lemma includes_long_actions (action : jsval) :
  includes long_actions action = isLong action.
Proof.
  destruct action; try reflexivity.
  simpl. now rewrite orb_false_r.
Qed.

Lemma trade_isValid_reason (t : Trade.t) :
  trade_isValid t = true -> truthy (Trade.reason t) = true.
Proof.
  unfold trade_isValid. intros Hvalid.
  repeat (apply andb_prop in Hvalid; destruct Hvalid as [Hvalid ?]).
  assumption.
Qed.

Lemma tradeMarker_valid (t : Trade.t) :
  trade_isValid t = true -> tradeMarker t = tradeMarkerOfReason t.
Proof.
  intros Hvalid. unfold tradeMarker, tradeMarkerOfReason.
  rewrite (trade_isValid_reason t Hvalid), includes_long_actions.
  reflexivity.
Qed.

Lemma map_filter_ext {A B : Type} (f g : A -> B) (p : A -> bool) (l : list A) :
  (forall x, p x = true -> f x = g x) ->
  map f (filter p l) = map g (filter p l).
Proof.
  intros Hext. apply map_ext_in.
  intros x Hin. apply filter_In in Hin. now apply Hext.
Qed.

Lemma filter_drop {A : Type} (p : A -> bool) (x : A) (before after : list A) :
  p x = false -> filter p (before ++ x :: after) = filter p (before ++ after).
Proof.
  intros Hx. rewrite !filter_app. simpl. now rewrite Hx.
Qed.

Lemma getTime_epoch (ts : jsval) :
  Date_new ts = Some 0 -> number_truthy (getTime ts) = false.
Proof.
  intros Hts. unfold getTime. now rewrite Hts.
Qed.

Lemma getTime_truthy (ts : jsval) :
  number_truthy (getTime ts) = true ->
  exists ms, Date_new ts = Some ms /\ ms <> 0.
Proof.
  unfold getTime. destruct (Date_new ts) as [ms|]; [|discriminate].
  intros Htruthy. exists ms. split; [reflexivity|].
  intros ->. discriminate.
Qed.

End Validation.

(** C7. A trade record that passes the validity filter has a truthy
    reason, so its marker is the one without the fallback text: below the
    bar and green for the actions Buy and Cover, above the bar and red for
    any other, a circle, with the record's reason as text.  The trade
    markers are these markers of the valid records, one each, in order. *)
Theorem tradeMarker_of_valid_trade (host : Host) (trades : list Trade.t)
  (t : Trade.t) :
  In t trades -> trade_isValid t = true ->
  truthy (Trade.reason t) = true
  /\ tradeMarker t = tradeMarkerOfReason t
  /\ Marker.text (tradeMarker t) = Trade.reason t
  /\ Marker.shape (tradeMarker t) = "circle"
  /\ (Marker.position (tradeMarker t), Marker.color (tradeMarker t))
     = (if isLong (Trade.action t) then ("belowBar", "green")
        else ("aboveBar", "red"))
  /\ In (tradeMarker t) (tradeMarkers trades)
  /\ tradeMarkers trades = map tradeMarkerOfReason (filter trade_isValid trades).
Proof.
  intros Hin Hvalid.
  pose proof (tradeMarker_valid t Hvalid) as Hmarker.
  split; [now apply trade_isValid_reason|].
  split; [exact Hmarker|].
  rewrite Hmarker. cbn [tradeMarkerOfReason Marker.text Marker.shape
                        Marker.position Marker.color].
  split; [reflexivity|]. split; [reflexivity|].
  split; [now destruct (isLong (Trade.action t))|].
  split.
  - rewrite <- Hmarker. unfold tradeMarkers.
    apply in_map, filter_In. now split.
  - unfold tradeMarkers. apply map_filter_ext. apply tradeMarker_valid.
Qed.

Lemma tradeMarker_of_valid_trade_witness :
  Marker.text (tradeMarker (hd Examples.epoch_trade Examples.r1_trades))
  = VStr "RSI below 30".
Proof.
  assert (Hin : In (hd Examples.epoch_trade Examples.r1_trades)
                  Examples.r1_trades) by (left; reflexivity).
  assert (Hvalid : trade_isValid (hd Examples.epoch_trade Examples.r1_trades)
                   = true) by (vm_compute; reflexivity).
  destruct (tradeMarker_of_valid_trade testHost Examples.r1_trades
              (hd Examples.epoch_trade Examples.r1_trades) Hin Hvalid)
    as (_ & _ & Htext & _).
  exact Htext.
Defined.

(** C10. A record whose timestamp parses to the Unix epoch, time value 0,
    fails every validity filter although its date is valid: it is absent
    from the price series, the oscillator series, the buy and sell markers,
    the sorted signal markers and the trade markers. *)
Theorem epoch_record_is_dropped (host : Host) (s : Signal.t) (t : Trade.t)
  (before after : list Signal.t) (tbefore tafter : list Trade.t) :
  Date_new (Signal.timestamp s) = Some 0 ->
  Date_new (Trade.timestamp t) = Some 0 ->
  priceData (before ++ s :: after) = priceData (before ++ after)
  /\ rsiData (before ++ s :: after) = rsiData (before ++ after)
  /\ buySignals (before ++ s :: after) = buySignals (before ++ after)
  /\ sellSignals (before ++ s :: after) = sellSignals (before ++ after)
  /\ signalMarkers (before ++ s :: after) = signalMarkers (before ++ after)
  /\ tradeMarkers (tbefore ++ t :: tafter) = tradeMarkers (tbefore ++ tafter).
Proof.
  intros Hs Ht.
  apply getTime_epoch in Hs. apply getTime_epoch in Ht.
  assert (Hprice : price_isValid s = false)
    by (unfold price_isValid; rewrite Hs; apply andb_false_r).
  assert (Hrsi : rsi_isValid s = false)
    by (unfold rsi_isValid; rewrite Hs; apply andb_false_r).
  assert (Hbuy : buy_isValid s = false)
    by (unfold buy_isValid; rewrite Hs; apply andb_false_r).
  assert (Hsell : sell_isValid s = false)
    by (unfold sell_isValid; rewrite Hs; apply andb_false_r).
  assert (Htrade : trade_isValid t = false)
    by (unfold trade_isValid; rewrite Ht; apply andb_false_r).
  unfold signalMarkers, priceData, rsiData, buySignals, sellSignals, tradeMarkers.
  rewrite (filter_drop _ s before after Hprice),
    (filter_drop _ s before after Hrsi),
    (filter_drop _ s before after Hbuy),
    (filter_drop _ s before after Hsell),
    (filter_drop _ t tbefore tafter Htrade).
  repeat split; reflexivity.
Qed.

Lemma epoch_record_is_dropped_witness :
  Date_new (Signal.timestamp Examples.epoch_signal) = Some 0
  /\ priceData (Examples.r1_signals ++ Examples.epoch_signal :: Examples.r2_signals)
     = priceData (Examples.r1_signals ++ Examples.r2_signals)
  /\ tradeMarkers ([] ++ Examples.epoch_trade :: Examples.r1_trades)
     = tradeMarkers ([] ++ Examples.r1_trades).
Proof.
  assert (Hs : Date_new (Signal.timestamp Examples.epoch_signal) = Some 0)
    by (vm_compute; reflexivity).
  assert (Ht : Date_new (Trade.timestamp Examples.epoch_trade) = Some 0)
    by (vm_compute; reflexivity).
  split; [exact Hs|].
  destruct (epoch_record_is_dropped testHost Examples.epoch_signal
              Examples.epoch_trade Examples.r1_signals Examples.r2_signals
              [] Examples.r1_trades Hs Ht)
    as (Hprice & _ & _ & _ & _ & Htrades).
  split; assumption.
Defined.

(** ** The order of the series *)

Lemma Qcompare_div_1000 (a b : Z) :
  (inject_Z a / inject_Z 1000 ?= inject_Z b / inject_Z 1000)%Q = (a ?= b).
Proof.
  unfold Qcompare, Qdiv, Qmult, Qinv, inject_Z. simpl.
  rewrite !Z.mul_1_r.
  symmetry. apply Zmult_compare_compat_r. reflexivity.
Qed.

Lemma number_compare_Qred (p q : Q) :
  number_compare (Fin (Qred p)) (Fin (Qred q)) = Some (p ?= q)%Q.
Proof.
  simpl. now rewrite !Qred_correct.
Qed.

Section SeriesOrder.
Context `{Host}.

Lemma seconds_of_valid (ts : jsval) :
  number_truthy (getTime ts) = true ->
  seconds ts = Fin (Qred (inject_Z (epoch_ms ts) / inject_Z 1000)%Q).
Proof.
  intros Htruthy.
  destruct (getTime_truthy ts Htruthy) as (ms & Hms & _).
  unfold seconds, getTime, epoch_ms. rewrite Hms. reflexivity.
Qed.

Lemma seconds_ltb (ts ts' : jsval) :
  number_truthy (getTime ts) = true ->
  number_truthy (getTime ts') = true ->
  number_ltb (seconds ts) (seconds ts') = (epoch_ms ts <? epoch_ms ts').
Proof.
  intros Hts Hts'.
  rewrite (seconds_of_valid ts Hts), (seconds_of_valid ts' Hts').
  unfold number_ltb. rewrite number_compare_Qred, Qcompare_div_1000.
  unfold Z.ltb. now destruct (epoch_ms ts ?= epoch_ms ts').
Qed.

Lemma strictly_increasing_seconds (l : list jsval) :
  Forall (fun ts => number_truthy (getTime ts) = true) l ->
  strictly_increasing (map seconds l) = Z_strictly_increasing (map epoch_ms l).
Proof.
  induction 1 as [|ts l Hts Hl IH]; [reflexivity|].
  destruct Hl as [|ts' l Hts' Hl]; [reflexivity|].
  change (number_ltb (seconds ts) (seconds ts')
          && strictly_increasing (map seconds (ts' :: l))
          = (epoch_ms ts <? epoch_ms ts')
            && Z_strictly_increasing (map epoch_ms (ts' :: l))).
  now rewrite IH, seconds_ltb.
Qed.

Lemma price_isValid_timestamp (s : Signal.t) :
  price_isValid s = true -> number_truthy (getTime (Signal.timestamp s)) = true.
Proof.
  unfold price_isValid. intros Hvalid.
  now apply andb_prop in Hvalid.
Qed.

Lemma rsi_isValid_timestamp (s : Signal.t) :
  rsi_isValid s = true -> number_truthy (getTime (Signal.timestamp s)) = true.
Proof.
  unfold rsi_isValid. intros Hvalid.
  now apply andb_prop in Hvalid.
Qed.

Lemma Forall_filter_timestamp (p : Signal.t -> bool) (signals : list Signal.t) :
  (forall s, p s = true -> number_truthy (getTime (Signal.timestamp s)) = true) ->
  Forall (fun ts => number_truthy (getTime ts) = true)
    (map Signal.timestamp (filter p signals)).
Proof.
  intros Hp. apply Forall_map, Forall_forall.
  intros s Hin. apply filter_In in Hin. now apply Hp.
Qed.

End SeriesOrder.

(** C2, as the code has it.  Each series holds one point per record that
    passes its validity filter, in the order of the records: no point is
    dropped for a repeated or earlier timestamp.  So a series is strictly
    increasing in time exactly when the epoch milliseconds of its valid
    records are strictly increasing in the order they arrive in. *)
Theorem series_follow_input_order (host : Host) (signals : list Signal.t) :
  (List.length (priceData signals) = List.length (filter price_isValid signals)
   /\ map ChartPoint.time (priceData signals)
      = map seconds (map Signal.timestamp (filter price_isValid signals))
   /\ strictly_increasing (map ChartPoint.time (priceData signals))
      = Z_strictly_increasing
          (map epoch_ms (map Signal.timestamp (filter price_isValid signals))))
  /\ (List.length (rsiData signals) = List.length (filter rsi_isValid signals)
      /\ map ChartPoint.time (rsiData signals)
         = map seconds (map Signal.timestamp (filter rsi_isValid signals))
      /\ strictly_increasing (map ChartPoint.time (rsiData signals))
         = Z_strictly_increasing
             (map epoch_ms (map Signal.timestamp (filter rsi_isValid signals)))).
Proof.
  assert (Hprice : map ChartPoint.time (priceData signals)
                   = map seconds (map Signal.timestamp (filter price_isValid signals)))
    by (unfold priceData; now rewrite !map_map).
  assert (Hrsi : map ChartPoint.time (rsiData signals)
                 = map seconds (map Signal.timestamp (filter rsi_isValid signals)))
    by (unfold rsiData; now rewrite !map_map).
  split; (split; [unfold priceData, rsiData; apply length_map|]);
    (split; [assumption|]).
  - rewrite Hprice. apply strictly_increasing_seconds.
    apply Forall_filter_timestamp, price_isValid_timestamp.
  - rewrite Hrsi. apply strictly_increasing_seconds.
    apply Forall_filter_timestamp, rsi_isValid_timestamp.
Qed.

(** C2 as stated fails: of two records on the same bar both points are
    emitted, with equal times; of two records out of order both are emitted,
    the later one first. *)
Lemma series_not_strictly_increasing :
  map ChartPoint.time (priceData Examples.duplicated) = [num 1; num 1]
  /\ map ChartPoint.time (rsiData Examples.decreasing) = [num 2; num 1]
  /\ ~ (forall signals,
          strictly_increasing (map ChartPoint.time (priceData signals)) = true
          /\ strictly_increasing (map ChartPoint.time (rsiData signals)) = true).
Proof.
  split; [vm_compute; reflexivity|].
  split; [vm_compute; reflexivity|].
  intros Hall.
  destruct (Hall Examples.duplicated) as [Hprice _].
  vm_compute in Hprice. discriminate.
Qed.

(** ** [sort] with a comparison function that compares a key *)

Section Sorting.
Context {A : Type} (comparefn : A -> A -> number) (key : A -> Q) (ok : A -> Prop).
Hypothesis compare_key :
  forall x y, ok x -> ok y -> SortCompare comparefn x y = (key x ?= key y)%Q.

Let key_le (a b : A) : Prop := (key a <= key b)%Q.
Let at_key (k : Q) (a : A) : bool := Qeq_bool (key a) k.

Lemma sort_insert_Permutation (x : A) (l : list A) :
  Permutation (x :: l) (sort_insert comparefn x l).
Proof.
  induction l as [|y l IH]; simpl; [reflexivity|].
  destruct (SortCompare comparefn x y); try reflexivity.
  rewrite perm_swap. now apply perm_skip.
Qed.

Lemma Array_sort_Permutation (l : list A) :
  Permutation l (Array_sort comparefn l).
Proof.
  induction l as [|x l IH]; simpl; [reflexivity|].
  rewrite <- sort_insert_Permutation. now apply perm_skip.
Qed.

Lemma sort_insert_Forall (P : A -> Prop) (x : A) (l : list A) :
  P x -> Forall P l -> Forall P (sort_insert comparefn x l).
Proof.
  intros Hx Hl.
  apply (Permutation_Forall (sort_insert_Permutation x l)).
  now constructor.
Qed.

Lemma Array_sort_Forall (P : A -> Prop) (l : list A) :
  Forall P l -> Forall P (Array_sort comparefn l).
Proof.
  apply Permutation_Forall, Array_sort_Permutation.
Qed.

Lemma sort_insert_sorted (x : A) (l : list A) :
  ok x -> Forall ok l -> StronglySorted key_le l ->
  StronglySorted key_le (sort_insert comparefn x l).
Proof.
  intros Hx Hok Hsorted.
  induction Hsorted as [|y l Hsorted IH Hy]; simpl.
  - repeat constructor.
  - inversion Hok as [|? ? Hoky Hokl]; subst.
    rewrite (compare_key x y Hx Hoky).
    destruct (key x ?= key y)%Q eqn:Hcmp.
    + apply Qeq_alt in Hcmp.
      constructor; [now constructor|].
      constructor; [unfold key_le; rewrite Hcmp; apply Qle_refl|].
      eapply Forall_impl; [|exact Hy].
      intros z Hz. unfold key_le in *. now rewrite Hcmp.
    + apply Qlt_alt in Hcmp.
      constructor; [now constructor|].
      constructor; [now apply Qlt_le_weak|].
      eapply Forall_impl; [|exact Hy].
      intros z Hz. unfold key_le in *.
      eapply Qle_trans; [apply Qlt_le_weak; exact Hcmp | exact Hz].
    + apply Qgt_alt in Hcmp.
      constructor; [now apply IH|].
      apply sort_insert_Forall; [now apply Qlt_le_weak | exact Hy].
Qed.

Lemma Array_sort_sorted (l : list A) :
  Forall ok l -> StronglySorted key_le (Array_sort comparefn l).
Proof.
  induction 1 as [|x l Hx Hl IH]; simpl; [constructor|].
  apply sort_insert_sorted; [assumption | now apply Array_sort_Forall | exact IH].
Qed.

Lemma sort_insert_at_key (k : Q) (x : A) (l : list A) :
  ok x -> Forall ok l ->
  filter (at_key k) (sort_insert comparefn x l) = filter (at_key k) (x :: l).
Proof.
  intros Hx Hok.
  induction Hok as [|y l Hy Hl IH]; [reflexivity|].
  cbn [sort_insert]. rewrite (compare_key x y Hx Hy).
  destruct (key x ?= key y)%Q eqn:Hcmp; try reflexivity.
  apply Qgt_alt in Hcmp.
  cbn [filter] in *. rewrite IH.
  destruct (at_key k x) eqn:Hkx; [|reflexivity].
  assert (Hky : at_key k y = false).
  { unfold at_key in *. apply Qeq_bool_iff in Hkx.
    destruct (Qeq_bool (key y) k) eqn:Heq; [|reflexivity].
    apply Qeq_bool_iff in Heq. rewrite Hkx, Heq in Hcmp.
    now apply Qlt_irrefl in Hcmp. }
  now rewrite Hky.
Qed.

Lemma Array_sort_at_key (k : Q) (l : list A) :
  Forall ok l ->
  filter (at_key k) (Array_sort comparefn l) = filter (at_key k) l.
Proof.
  induction 1 as [|x l Hx Hl IH]; [reflexivity|].
  cbn [Array_sort fold_right].
  fold (Array_sort comparefn l).
  rewrite sort_insert_at_key by (try assumption; now apply Array_sort_Forall).
  cbn [filter]. now rewrite IH.
Qed.

Lemma at_key_self (x : A) : at_key (key x) x = true.
Proof.
  apply Qeq_bool_iff. reflexivity.
Qed.

Lemma sorted_head_le (x y : A) (l : list A) :
  StronglySorted key_le (y :: l) -> In x (y :: l) -> key_le y x.
Proof.
  intros Hsorted [->|Hin]; [apply Qle_refl|].
  apply StronglySorted_inv in Hsorted. destruct Hsorted as [_ Hall].
  rewrite Forall_forall in Hall. now apply Hall.
Qed.

(** Two lists in the order of the key that agree, key by key, on the
    elements of that key and their order are the same list. *)
Lemma sorted_stable_unique (l1 l2 : list A) :
  StronglySorted key_le l1 -> StronglySorted key_le l2 ->
  (forall k, filter (at_key k) l1 = filter (at_key k) l2) -> l1 = l2.
Proof.
  revert l2. induction l1 as [|x l1 IH]; intros [|y l2] S1 S2 Hf.
  - reflexivity.
  - specialize (Hf (key y)). cbn [filter] in Hf.
    rewrite at_key_self in Hf. discriminate.
  - specialize (Hf (key x)). cbn [filter] in Hf.
    rewrite at_key_self in Hf. discriminate.
  - assert (Hxy : key_le y x).
    { apply (sorted_head_le x y l2 S2).
      pose proof (Hf (key x)) as Hx. cbn [filter] in Hx.
      rewrite at_key_self in Hx.
      assert (Hin : In x (filter (at_key (key x)) (y :: l2)))
        by (cbn [filter]; rewrite <- Hx; now left).
      now apply filter_In in Hin. }
    assert (Hyx : key_le x y).
    { apply (sorted_head_le y x l1 S1).
      pose proof (Hf (key y)) as Hy. cbn [filter] in Hy.
      rewrite at_key_self in Hy.
      assert (Hin : In y (filter (at_key (key y)) (x :: l1)))
        by (cbn [filter]; rewrite Hy; now left).
      now apply filter_In in Hin. }
    assert (Heq : at_key (key x) y = true)
      by (apply Qeq_bool_iff, Qle_antisym; assumption).
    pose proof (Hf (key x)) as Hx. cbn [filter] in Hx.
    rewrite at_key_self, Heq in Hx. injection Hx as -> _.
    f_equal. apply IH.
    + now apply StronglySorted_inv in S1.
    + now apply StronglySorted_inv in S2.
    + intros k. specialize (Hf k). cbn [filter] in Hf.
      destruct (at_key k y); [now injection Hf | exact Hf].
Qed.

(** So the result of a stable sort does not depend on the algorithm. *)
Lemma Array_sort_unique (l result : list A) :
  Forall ok l -> StronglySorted key_le result ->
  (forall k, filter (at_key k) result = filter (at_key k) l) ->
  result = Array_sort comparefn l.
Proof.
  intros Hok Hsorted Hstable.
  apply sorted_stable_unique; [assumption | now apply Array_sort_sorted|].
  intros k. now rewrite Array_sort_at_key.
Qed.

End Sorting.

(** ** The signal markers *)

Lemma Qcompare_minus_0 (p q : Q) : (p - q ?= 0)%Q = (p ?= q)%Q.
Proof.
  unfold Qcompare, Qminus, Qplus, Qopp. simpl.
  rewrite Z.mul_1_r, Z.mul_opp_l, Z.add_opp_r.
  symmetry. apply Z.compare_sub.
Qed.

Lemma byTime_compare (a b : Marker.t) :
  finite_time a -> finite_time b ->
  SortCompare byTime a b = (timeQ a ?= timeQ b)%Q.
Proof.
  intros [p Hp] [q Hq].
  unfold SortCompare, byTime, timeQ. rewrite Hp, Hq. cbn [number_sub].
  rewrite Qred_correct. apply Qcompare_minus_0.
Qed.

Lemma time_le_finite (a b : Marker.t) :
  finite_time a -> finite_time b -> (timeQ a <= timeQ b)%Q -> time_le a b.
Proof.
  intros [p Hp] [q Hq]. unfold time_le, timeQ, number_leb.
  rewrite Hp, Hq. simpl. intros Hle.
  apply (proj1 (Qle_alt p q)) in Hle.
  destruct (p ?= q)%Q; try reflexivity. now destruct Hle.
Qed.

Lemma StronglySorted_time_le (l : list Marker.t) :
  Forall finite_time l ->
  StronglySorted (fun a b => (timeQ a <= timeQ b)%Q) l ->
  StronglySorted time_le l.
Proof.
  intros Hfinite Hsorted.
  induction Hsorted as [|a l Hsorted IH Ha]; [constructor|].
  inversion Hfinite as [|? ? Hfa Hfl]; subst.
  constructor; [now apply IH|].
  rewrite Forall_forall in *. intros b Hb.
  apply time_le_finite; auto.
Qed.

Lemma StronglySorted_timeQ (l : list Marker.t) :
  Forall finite_time l -> StronglySorted time_le l ->
  StronglySorted (fun a b => (timeQ a <= timeQ b)%Q) l.
Proof.
  intros Hfinite Hsorted.
  induction Hsorted as [|a l Hsorted IH Ha]; [constructor|].
  inversion Hfinite as [|? ? [p Hp] Hfl]; subst.
  constructor; [now apply IH|].
  rewrite Forall_forall in *. intros b Hb.
  destruct (Hfl b Hb) as [q Hq]. specialize (Ha b Hb).
  unfold time_le, number_leb, timeQ in *. rewrite Hp, Hq in *. simpl in Ha.
  apply Qle_alt. now destruct (p ?= q)%Q.
Qed.

Lemma at_time_finite (k : Q) (l : list Marker.t) :
  Forall finite_time l ->
  at_time (Fin k) l = filter (fun m => Qeq_bool (timeQ m) k) l.
Proof.
  intros Hfinite. unfold at_time. apply filter_ext_in.
  intros m Hm. rewrite Forall_forall in Hfinite.
  destruct (Hfinite m Hm) as [q Hq].
  unfold timeQ, number_eqb. rewrite Hq. simpl.
  destruct (Qeq_bool q k) eqn:Heq.
  - apply Qeq_bool_iff, Qeq_alt in Heq. now rewrite Heq.
  - destruct (q ?= k)%Q eqn:Hcmp; try reflexivity.
    apply Qeq_alt, Qeq_bool_iff in Hcmp. congruence.
Qed.

Lemma at_time_not_finite (t : number) (l : list Marker.t) :
  (forall k, t <> Fin k) -> Forall finite_time l -> at_time t l = [].
Proof.
  intros Ht Hfinite. unfold at_time.
  induction Hfinite as [|m l [q Hq] Hl IH]; [reflexivity|].
  simpl. rewrite IH, Hq.
  destruct t as [|[|]|k]; try reflexivity.
  now destruct (Ht k).
Qed.

Section SignalMarkers.
Context `{Host}.

Lemma seconds_finite (ts : jsval) :
  number_truthy (getTime ts) = true -> exists q, seconds ts = Fin q.
Proof.
  intros Hts. rewrite (seconds_of_valid ts Hts). eauto.
Qed.

Lemma buy_isValid_price (s : Signal.t) :
  buy_isValid s = strict_eq_num (Signal.signal s) 1 && price_isValid s.
Proof.
  unfold buy_isValid, price_isValid. now rewrite !andb_assoc.
Qed.

Lemma sell_isValid_price (s : Signal.t) :
  sell_isValid s = strict_eq_num (Signal.signal s) (-1) && price_isValid s.
Proof.
  unfold sell_isValid, price_isValid. now rewrite !andb_assoc.
Qed.

Lemma buySignals_finite (signals : list Signal.t) :
  Forall finite_time (buySignals signals).
Proof.
  unfold buySignals. apply Forall_map, Forall_forall.
  intros s Hin. apply filter_In in Hin. destruct Hin as [_ Hvalid].
  rewrite buy_isValid_price in Hvalid. apply andb_prop in Hvalid.
  apply seconds_finite, price_isValid_timestamp. tauto.
Qed.

Lemma sellSignals_finite (signals : list Signal.t) :
  Forall finite_time (sellSignals signals).
Proof.
  unfold sellSignals. apply Forall_map, Forall_forall.
  intros s Hin. apply filter_In in Hin. destruct Hin as [_ Hvalid].
  rewrite sell_isValid_price in Hvalid. apply andb_prop in Hvalid.
  apply seconds_finite, price_isValid_timestamp. tauto.
Qed.

Lemma unsorted_finite (signals : list Signal.t) :
  Forall finite_time (buySignals signals ++ sellSignals signals).
Proof.
  apply Forall_app. split; [apply buySignals_finite | apply sellSignals_finite].
Qed.

End SignalMarkers.

(** C6, as the code has it.  The signal markers are the BUY markers
    followed by the SELL markers, sorted by time: a rearrangement of that
    list, in ascending order of time, in which the markers of one time keep
    the order they have in it (BUY before SELL, and the order of the records
    within each kind); no other list is all that, so the result does not
    depend on the engine's sorting algorithm.  There is a BUY marker for
    each record with signal 1, and a SELL marker for each record with signal
    -1, that passes the validity filter of the price series: a timestamp
    with a truthy time value and a price that is present and numeric.  A
    BUY marker sits at the time of its record in seconds, below the bar, a
    green arrow up with the text "BUY"; a SELL marker sits above the bar, a
    red arrow down with the text "SELL". *)
Theorem signalMarkers_sorted_stable (host : Host) (signals : list Signal.t) :
  Permutation (buySignals signals ++ sellSignals signals) (signalMarkers signals)
  /\ StronglySorted time_le (signalMarkers signals)
  /\ (forall t, at_time t (signalMarkers signals)
                = at_time t (buySignals signals ++ sellSignals signals))
  /\ buySignals signals
     = map buyMarker
         (filter (fun s => strict_eq_num (Signal.signal s) 1 && price_isValid s)
            signals)
  /\ sellSignals signals
     = map sellMarker
         (filter (fun s => strict_eq_num (Signal.signal s) (-1) && price_isValid s)
            signals)
  /\ (forall result,
        Permutation (buySignals signals ++ sellSignals signals) result ->
        StronglySorted time_le result ->
        (forall t, at_time t result
                   = at_time t (buySignals signals ++ sellSignals signals)) ->
        result = signalMarkers signals)
  /\ (forall s,
        buyMarker s
        = {| Marker.time := number_div (getTime (Signal.timestamp s)) (num 1000);
             Marker.position := "belowBar";
             Marker.color := "green";
             Marker.shape := "arrowUp";
             Marker.text := VStr "BUY" |})
  /\ (forall s,
        sellMarker s
        = {| Marker.time := number_div (getTime (Signal.timestamp s)) (num 1000);
             Marker.position := "aboveBar";
             Marker.color := "red";
             Marker.shape := "arrowDown";
             Marker.text := VStr "SELL" |}).
Proof.
  pose proof (unsorted_finite signals) as Hfinite.
  unfold signalMarkers.
  split; [apply Array_sort_Permutation|].
  split.
  { apply StronglySorted_time_le; [now apply Array_sort_Forall|].
    apply (Array_sort_sorted byTime timeQ finite_time byTime_compare).
    exact Hfinite. }
  split.
  { intros t. destruct t as [|negative|k].
    - rewrite !at_time_not_finite; try reflexivity; try discriminate;
        try assumption; now apply Array_sort_Forall.
    - rewrite !at_time_not_finite; try reflexivity; try discriminate;
        try assumption; now apply Array_sort_Forall.
    - rewrite !at_time_finite by (try assumption; now apply Array_sort_Forall).
      apply (Array_sort_at_key byTime timeQ finite_time byTime_compare).
      exact Hfinite. }
  split; [unfold buySignals; f_equal; apply filter_ext, buy_isValid_price|].
  split; [unfold sellSignals; f_equal; apply filter_ext, sell_isValid_price|].
  split; [|split; reflexivity].
  intros result Hperm Hsorted Hstable.
  pose proof (Permutation_Forall Hperm Hfinite) as Hresult.
  apply (Array_sort_unique byTime timeQ finite_time byTime_compare);
    [exact Hfinite | now apply StronglySorted_timeQ|].
  intros k. rewrite <- !at_time_finite by assumption. apply Hstable.
Qed.

(** C6 as stated fails on two counts.  A record with signal 1 and a valid
    timestamp but no price gets no BUY marker; and of a SELL record followed
    by a BUY record on the same bar the BUY marker comes first, against the
    order of the records. *)
Lemma signalMarkers_not_in_record_order :
  (signalMarkers Examples.unpriced_buy = []
   /\ markersInRecordOrder Examples.unpriced_buy
      = [Marker.mk (num 1) "belowBar" "green" "arrowUp" (VStr "BUY")])
  /\ (signalMarkers Examples.sell_then_buy
      = [Marker.mk (num 1) "belowBar" "green" "arrowUp" (VStr "BUY");
         Marker.mk (num 1) "aboveBar" "red" "arrowDown" (VStr "SELL")]
      /\ markersInRecordOrder Examples.sell_then_buy
         = [Marker.mk (num 1) "aboveBar" "red" "arrowDown" (VStr "SELL");
            Marker.mk (num 1) "belowBar" "green" "arrowUp" (VStr "BUY")])
  /\ ~ (forall signals, signalMarkers signals = markersInRecordOrder signals).
Proof.
  split; [split; vm_compute; reflexivity|].
  split; [split; vm_compute; reflexivity|].
  intros Hall. specialize (Hall Examples.unpriced_buy).
  vm_compute in Hall. discriminate.
Qed.

(** ** Time-scale synchronisation *)

Section Sync.
Context {chart series lib : Type} `{ChartLibrary chart series lib}.
Local Abbreviation World := (World chart series lib).

Lemma call_refs {A : Type} (op : lib -> completion A * lib) (w : World) :
  refs (snd (call op w)) = refs w.
Proof.
  unfold call. now destruct (op (charts w)).
Qed.

Lemma forEach_call_refs {A : Type} (op : A -> lib -> completion unit * lib)
  (l : list A) (w : World) :
  refs (snd (forEach l (fun x => call (op x)) w)) = refs w.
Proof.
  revert w. induction l as [|x l IH]; intros w; [reflexivity|].
  cbn [forEach]. unfold bind.
  pose proof (call_refs (op x) w) as Hcall.
  destruct (call (op x) w) as [[[]|message] w']; cbn [snd] in *.
  - now rewrite IH.
  - exact Hcall.
Qed.

Lemma forEach_two {A : Type} (x y : A) (f : A -> @M chart series lib unit)
  (w : World) :
  forEach [x; y] f w
  = match f x w with
    | (Normal _, w1) =>
        match f y w1 with
        | (Normal _, w2) => (Normal tt, w2)
        | (Throw message, w2) => (Throw message, w2)
        end
    | (Throw message, w1) => (Throw message, w1)
    end.
Proof.
  cbn [forEach]. unfold bind, ret.
  destruct (f x w) as [[[]|message] w1]; [|reflexivity].
  destruct (f y w1) as [[[]|message] w2]; reflexivity.
Qed.

Lemma onVisibleTimeRangeChange_ignored (sourceChart : chart)
  (targetCharts : list chart) (w : World) :
  isUpdatingTimeScale (refs w) = true ->
  onVisibleTimeRangeChange sourceChart targetCharts w = (Normal tt, w).
Proof.
  intros Hguard. unfold onVisibleTimeRangeChange, bind, getRefs.
  now rewrite Hguard.
Qed.

Lemma onVisibleTimeRangeChange_guard (sourceChart : chart)
  (targetCharts : list chart) (w : World) :
  isUpdatingTimeScale (refs w) = false ->
  match onVisibleTimeRangeChange sourceChart targetCharts w with
  | (Normal _, w') => isUpdatingTimeScale (refs w') = false
  | (Throw _, w') => isUpdatingTimeScale (refs w') = true
  end.
Proof.
  intros Hguard. unfold onVisibleTimeRangeChange, bind at 1, getRefs.
  rewrite Hguard. unfold bind at 1. cbn [setRefs].
  unfold bind at 1.
  match goal with
  | |- context [call ?op ?w1] =>
      pose proof (call_refs op w1) as Hget;
      destruct (call op w1) as [[timeRange|message] w2]
  end; cbn [snd refs] in Hget; [|now rewrite Hget].
  unfold bind.
  destruct timeRange as [range|]; [|reflexivity].
  match goal with
  | |- context [forEach ?l ?f ?w1] =>
      pose proof (forEach_call_refs
                    (fun t => setVisibleLogicalRange t range) l w1) as Hset;
      destruct (forEach l f w1) as [[[]|message] w3]
  end; cbn [snd] in Hset.
  - reflexivity.
  - now rewrite Hset, Hget.
Qed.

Lemma targetPanes_others (p q : Pane) : In q (targetPanes p) <-> q <> p.
Proof.
  destruct p, q; simpl; intuition congruence.
Qed.

End Sync.

(** C4, as the code has it.  A broadcast starts with the guard false and
    sets it true.  On the exit paths on which reading the source's range
    and applying it to the targets complete normally the guard is false
    again.  When one of these calls throws, the callback is left with the
    guard still true, and from then on every notification is ignored. *)
Theorem guard_released_unless_thrown {chart series lib : Type}
  (library : ChartLibrary chart series lib) (sourceChart : chart)
  (targetCharts : list chart) (w : World chart series lib) :
  isUpdatingTimeScale (refs w) = false ->
  match onVisibleTimeRangeChange sourceChart targetCharts w with
  | (Normal _, w') => isUpdatingTimeScale (refs w') = false
  | (Throw _, w') =>
      isUpdatingTimeScale (refs w') = true
      /\ forall source targets,
           onVisibleTimeRangeChange source targets w' = (Normal tt, w')
  end.
Proof.
  intros Hguard.
  pose proof (onVisibleTimeRangeChange_guard sourceChart targetCharts w Hguard)
    as Hafter.
  destruct (onVisibleTimeRangeChange sourceChart targetCharts w)
    as [[[]|message] w']; [exact Hafter|].
  split; [exact Hafter|].
  intros source targets. now apply onVisibleTimeRangeChange_ignored.
Qed.

Lemma guard_released_unless_thrown_witness :
  isUpdatingTimeScale
    (refs (snd (onVisibleTimeRangeChange PricePane [TradePane; RsiPane]
                  Examples.panned))) = false.
Proof.
  assert (Hguard : isUpdatingTimeScale (refs Examples.panned) = false)
    by (vm_compute; reflexivity).
  pose proof (guard_released_unless_thrown testCharts PricePane
                [TradePane; RsiPane] Examples.panned Hguard) as Hafter.
  assert (Hnormal : fst (onVisibleTimeRangeChange PricePane [TradePane; RsiPane]
                           Examples.panned) = Normal tt)
    by (vm_compute; reflexivity).
  destruct (onVisibleTimeRangeChange PricePane [TradePane; RsiPane]
              Examples.panned) as [[[]|message] w']; [exact Hafter|].
  discriminate Hnormal.
Defined.

(** C4 as stated fails: when the oscillator chart throws on
    [setVisibleLogicalRange], a range change of the price pane reaches the
    trade pane, the exception leaves the callback, and the guard stays
    true. *)
Lemma guard_left_true_when_target_throws :
  isUpdatingTimeScale (refs Examples.panned_rsi_disposed) = false
  /\ fst (handle (VisibleRangeChanged PricePane) Examples.panned_rsi_disposed)
     = Throw TestCharts.isDisposed
  /\ isUpdatingTimeScale
       (refs (snd (handle (VisibleRangeChanged PricePane)
                     Examples.panned_rsi_disposed))) = true
  /\ ~ (forall (w : World Pane (Pane * nat) TestCharts.Charts) (p : Pane),
          isUpdatingTimeScale (refs w) = false ->
          isUpdatingTimeScale (refs (snd (handle (VisibleRangeChanged p) w)))
          = false).
Proof.
  split; [vm_compute; reflexivity|].
  split; [vm_compute; reflexivity|].
  split; [vm_compute; reflexivity|].
  intros Hall.
  specialize (Hall Examples.panned_rsi_disposed PricePane).
  vm_compute in Hall. specialize (Hall eq_refl). discriminate.
Qed.

(** C5, as the code has it.  A range-change notification of any pane is
    ignored while the guard is true: nothing is read, no range is applied,
    the world is as it was.  With the guard false the callback reads the
    visible logical range of its own chart; a range that is not null it
    applies, the same one, to the charts of the two other panes, first one
    then the other; a null range it applies to no pane.  When these calls
    complete normally the callback ends with the guard false.  The three
    panes are wired alike: the targets of a pane are the two other panes. *)
Theorem rangeChanged_protocol {chart series lib : Type}
  (library : ChartLibrary chart series lib) (price trade rsi : chart)
  (p : Pane) (w : World chart series lib) :
  (isUpdatingTimeScale (refs w) = true ->
     rangeChanged price trade rsi p w = (Normal tt, w))
  /\ (isUpdatingTimeScale (refs w) = false ->
      forall range first second l1 l2 l3,
        targetPanes p = [first; second] ->
        getVisibleLogicalRange (chartOf price trade rsi p) (charts w)
        = (Normal (Some range), l1) ->
        setVisibleLogicalRange (chartOf price trade rsi first) range l1
        = (Normal tt, l2) ->
        setVisibleLogicalRange (chartOf price trade rsi second) range l2
        = (Normal tt, l3) ->
        rangeChanged price trade rsi p w
        = (Normal tt,
           mkWorld (app w) (with_isUpdatingTimeScale false (refs w)) l3
             (inflight w)))
  /\ (isUpdatingTimeScale (refs w) = false ->
      forall l1,
        getVisibleLogicalRange (chartOf price trade rsi p) (charts w)
        = (Normal None, l1) ->
        rangeChanged price trade rsi p w
        = (Normal tt,
           mkWorld (app w) (with_isUpdatingTimeScale false (refs w)) l1
             (inflight w)))
  /\ (forall q, In q (targetPanes p) <-> q <> p)
  /\ List.length (targetPanes p) = 2%nat.
Proof.
  split; [|split; [|split; [|split]]].
  - intros Hguard. now apply onVisibleTimeRangeChange_ignored.
  - intros Hguard range first second l1 l2 l3 Htargets Hget Hfirst Hsecond.
    unfold rangeChanged. rewrite Htargets. cbn [map].
    unfold onVisibleTimeRangeChange, bind at 1, getRefs.
    rewrite Hguard. unfold bind at 1. cbn [setRefs].
    unfold bind at 1. unfold call at 1. cbn [charts]. rewrite Hget.
    unfold bind. rewrite forEach_two. unfold call. cbn [charts].
    rewrite Hfirst. cbn [charts]. rewrite Hsecond.
    cbn. destruct (refs w); reflexivity.
  - intros Hguard l1 Hget.
    unfold rangeChanged, onVisibleTimeRangeChange, bind at 1, getRefs.
    rewrite Hguard. unfold bind at 1. cbn [setRefs].
    unfold bind at 1. unfold call at 1. cbn [charts]. rewrite Hget.
    cbn. destruct (refs w); reflexivity.
  - intros q. apply targetPanes_others.
  - now destruct p.
Qed.

Lemma rangeChanged_protocol_witness :
  let w' := snd (rangeChanged PricePane TradePane RsiPane PricePane
                   Examples.panned) in
  TestCharts.visibleLogicalRange (TestCharts.tradeChart (charts w'))
  = Some Examples.panned_range
  /\ TestCharts.visibleLogicalRange (TestCharts.rsiChart (charts w'))
     = Some Examples.panned_range
  /\ isUpdatingTimeScale (refs w') = false.
Proof.
  assert (Hguard : isUpdatingTimeScale (refs Examples.panned) = false)
    by (vm_compute; reflexivity).
  destruct (rangeChanged_protocol testCharts PricePane TradePane RsiPane
              PricePane Examples.panned) as (_ & Hbroadcast & _).
  pose (l1 := snd (getVisibleLogicalRange PricePane (charts Examples.panned))).
  pose (l2 := snd (setVisibleLogicalRange TradePane Examples.panned_range l1)).
  pose (l3 := snd (setVisibleLogicalRange RsiPane Examples.panned_range l2)).
  assert (Hget : getVisibleLogicalRange
                   (chartOf PricePane TradePane RsiPane PricePane)
                   (charts Examples.panned)
                 = (Normal (Some Examples.panned_range), l1))
    by (vm_compute; reflexivity).
  assert (Hfirst : setVisibleLogicalRange
                     (chartOf PricePane TradePane RsiPane TradePane)
                     Examples.panned_range l1 = (Normal tt, l2))
    by (vm_compute; reflexivity).
  assert (Hsecond : setVisibleLogicalRange
                      (chartOf PricePane TradePane RsiPane RsiPane)
                      Examples.panned_range l2 = (Normal tt, l3))
    by (vm_compute; reflexivity).
  rewrite (Hbroadcast Hguard Examples.panned_range TradePane RsiPane l1 l2 l3
             eq_refl Hget Hfirst Hsecond).
  vm_compute. repeat split; reflexivity.
Defined.

(** C5 as stated fails: a notification of the price pane while its chart
    shows no range (its series was removed) finds the guard false and
    applies nothing; the trade and oscillator panes keep the range they
    had, which is not the source's. *)
Lemma null_range_is_not_applied :
  isUpdatingTimeScale (refs Examples.price_emptied) = false
  /\ fst (getVisibleLogicalRange PricePane (charts Examples.price_emptied))
     = Normal None
  /\ (let w' := snd (handle (VisibleRangeChanged PricePane)
                       Examples.price_emptied) in
      charts w' = charts Examples.price_emptied
      /\ TestCharts.visibleLogicalRange (TestCharts.tradeChart (charts w'))
         = Some (LogicalRange.mk (num 0) (num 1)))
  /\ ~ (forall (w : World Pane (Pane * nat) TestCharts.Charts) (p q : Pane),
          isUpdatingTimeScale (refs w) = false ->
          In q (targetPanes p) ->
          TestCharts.visibleLogicalRange
            (TestCharts.chart
               (charts (snd (handle (VisibleRangeChanged p) w))) q)
          = TestCharts.visibleLogicalRange (TestCharts.chart (charts w) p)).
Proof.
  split; [vm_compute; reflexivity|].
  split; [vm_compute; reflexivity|].
  split; [vm_compute; split; reflexivity|].
  intros Hall.
  specialize (Hall Examples.price_emptied PricePane TradePane eq_refl).
  assert (Hin : In TradePane (targetPanes PricePane)) by (left; reflexivity).
  specialize (Hall Hin). vm_compute in Hall. discriminate.
Qed.

(** ** The chart-update effect *)

Lemma records_map_Some {A : Type} (l : list A) : records (map Some l) = Some l.
Proof.
  induction l as [|a l IH]; [reflexivity|].
  cbn [map records]. now rewrite IH.
Qed.

Lemma records_None {A : Type} (elements : list (option A)) :
  records elements = None <-> In None elements.
Proof.
  induction elements as [|[a|] elements IH]; cbn [records In].
  - split; [discriminate | tauto].
  - destruct (records elements); cbn [option_map].
    + split; [discriminate|]. intros [Hin|Hin]; [discriminate|].
      now apply IH in Hin.
    + split; [|reflexivity]. intros _. right. now apply IH.
  - split; [now left | reflexivity].
Qed.

Section ChartUpdate.
Context `{Host} {chart series lib : Type} `{ChartLibrary chart series lib}.
Local Abbreviation World := (World chart series lib).
Local Abbreviation M := (@M chart series lib).

Lemma bind_keeps {A B : Type} (m : M A) (k : A -> M B) :
  keeps_state m -> (forall a, keeps_state (k a)) -> keeps_state (bind m k).
Proof.
  intros Hm Hk w. unfold bind.
  pose proof (Hm w) as Hw.
  destruct (m w) as [[a|err] w']; cbn [snd] in *; [|exact Hw].
  now rewrite Hk.
Qed.

Lemma call_keeps {A : Type} (op : lib -> completion A * lib) :
  keeps_state (call op : M A).
Proof.
  intros w. unfold call. now destruct (op (charts w)).
Qed.

Lemma setRefs_keeps f : keeps_state (setRefs f : M unit).
Proof.
  intros w. reflexivity.
Qed.

Lemma clearSeries_keeps c ref with_ref :
  keeps_state (clearSeries c ref with_ref).
Proof.
  unfold clearSeries.
  apply bind_keeps; [intros w; reflexivity|].
  intros r. destruct (ref r) as [s|]; [|intros w; reflexivity].
  apply bind_keeps; [apply call_keeps|].
  intros _. apply setRefs_keeps.
Qed.

Ltac effect_step :=
  match goal with
  | |- keeps_state (bind _ _) => apply bind_keeps; [|intros ?]
  | |- keeps_state (clearSeries _ _ _) => apply clearSeries_keeps
  | |- keeps_state (call _) => apply call_keeps
  | |- keeps_state (setRefs _) => apply setRefs_keeps
  end.

Lemma showCharts_keeps pc tc rc sigs trs :
  keeps_state (showCharts pc tc rc sigs trs).
Proof.
  unfold showCharts.
  destruct (Nat.eqb (List.length (priceData sigs)) 0).
  - intros w. reflexivity.
  - repeat effect_step.
Qed.

Lemma refreshCharts_keeps pc tc rc sigs trs :
  keeps_state (refreshCharts pc tc rc sigs trs).
Proof.
  unfold refreshCharts. repeat effect_step. apply showCharts_keeps.
Qed.

(** Reading a response changes nothing. *)
Lemma filterable_world {A : Type} (expression name : string)
  (value : Response A) (w : World) :
  snd (filterable expression name value w) = w.
Proof.
  unfold filterable.
  destruct value as [|length|elements]; try reflexivity.
  now destruct (records elements).
Qed.

Lemma filterable_outcome {A : Type} (expression name : string)
  (value : Response A) (w : World) :
  match recordsOf value with
  | Some l => filterable expression name value w = (Normal l, w)
  | None =>
      exists reason,
        rejected expression name value reason
        /\ filterable expression name value w = (Throw (typeError reason), w)
  end.
Proof.
  unfold filterable, recordsOf.
  destruct value as [|length|elements];
    try (eexists; split; [constructor | reflexivity]).
  destruct (records elements) eqn:Hrecords; [reflexivity|].
  eexists. split; [|reflexivity].
  constructor. now apply records_None.
Qed.


Lemma refreshChartsOf_keeps pc tc rc signals trades :
  keeps_state (refreshChartsOf pc tc rc signals trades).
Proof.
  unfold refreshChartsOf. repeat effect_step.
  - intros w. now rewrite filterable_world.
  - intros w. now rewrite filterable_world.
  - apply showCharts_keeps.
Qed.

(** *** What the body of the [try] block throws *)

Lemma bind_only_throws {A B : Type} (P : exception -> Prop) (m : M A)
  (k : A -> M B) :
  only_throws P m -> (forall a, only_throws P (k a)) -> only_throws P (bind m k).
Proof.
  intros Hm Hk w err w' Hthrow. unfold bind in Hthrow.
  destruct (m w) as [[a|err1] w1] eqn:Hmw.
  - exact (Hk a w1 err w' Hthrow).
  - injection Hthrow as <- <-. exact (Hm w err1 w1 Hmw).
Qed.

Lemma only_throws_weaken {A : Type} (P Q : exception -> Prop) (m : M A) :
  (forall err, P err -> Q err) -> only_throws P m -> only_throws Q m.
Proof.
  intros HPQ Hm w err w' Hthrow. exact (HPQ err (Hm w err w' Hthrow)).
Qed.

Lemma call_only_throws {A : Type} (op : lib -> completion A * lib) :
  (forall l err l', op l = (Throw err, l') -> raised_by_library err) ->
  only_throws raised_by_library (call op : M A).
Proof.
  intros Hop w err w' Hthrow. unfold call in Hthrow.
  destruct (op (charts w)) as [c l] eqn:Hcall.
  injection Hthrow as -> <-. exact (Hop (charts w) err l Hcall).
Qed.

Lemma setRefs_only_throws (P : exception -> Prop) f :
  only_throws P (setRefs f : M unit).
Proof.
  intros w err w' Hthrow. discriminate.
Qed.

Lemma clearSeries_only_throws c ref with_ref :
  only_throws raised_by_library (clearSeries c ref with_ref).
Proof.
  unfold clearSeries.
  apply bind_only_throws; [intros w err w' Hthrow; discriminate|].
  intros r. destruct (ref r) as [s|]; [|intros w err w' Hthrow; discriminate].
  apply bind_only_throws.
  - apply call_only_throws. intros l err l'. apply raised_by_removeSeries.
  - intros _. apply setRefs_only_throws.
Qed.

Ltac throws_step :=
  match goal with
  | |- only_throws _ (bind _ _) => apply bind_only_throws; [|intros ?]
  | |- only_throws _ (setRefs _) => apply setRefs_only_throws
  | |- only_throws _ (call (addLineSeries _ _)) =>
      apply call_only_throws; intros ? ? ?; apply raised_by_addLineSeries
  | |- only_throws _ (call (setData _ _)) =>
      apply call_only_throws; intros ? ? ?; apply raised_by_setData
  | |- only_throws _ (call (setMarkers _ _)) =>
      apply call_only_throws; intros ? ? ?; apply raised_by_setMarkers
  | |- only_throws _ (call (createPriceLine _ _)) =>
      apply call_only_throws; intros ? ? ?; apply raised_by_createPriceLine
  | |- only_throws _ (call (fitContent _)) =>
      apply call_only_throws; intros ? ? ?; apply raised_by_fitContent
  end.

(** With a record that passes the price filter the block throws what the
    library throws and nothing else; without one it throws its own error
    before it calls the library. *)
Lemma showCharts_only_throws pc tc rc sigs trs :
  only_throws
    (fun err =>
       raised_by_library err
       \/ (err = Error noPriceData /\ priceData sigs = []))
    (showCharts pc tc rc sigs trs).
Proof.
  unfold showCharts.
  destruct (priceData sigs) as [|point points] eqn:Hprice; cbn [List.length Nat.eqb].
  - intros w err w' Hthrow. injection Hthrow as <- <-. right. now split.
  - apply only_throws_weaken with (P := raised_by_library); [now left|].
    repeat throws_step.
Qed.


Lemma refreshChartsOf_only_throws pc tc rc
  (signals : Response Signal.t) (trades : Response Trade.t) :
  only_throws
    (fun err =>
       raised_by_library err
       \/ (err = Error noPriceData
           /\ exists sigs,
                recordsOf signals = Some sigs /\ priceData sigs = []
                /\ recordsOf trades <> None)
       \/ (exists reason,
             err = typeError reason
             /\ (rejected "signals" "price" signals reason
                 \/ rejected "trades" "timestamp" trades reason)))
    (refreshChartsOf pc tc rc signals trades).
Proof.
  unfold refreshChartsOf.
  repeat (apply bind_only_throws;
          [apply only_throws_weaken with (P := raised_by_library);
           [now left | apply clearSeries_only_throws]
          |intros _]).
  intros w err w' Hthrow. unfold bind at 1 in Hthrow.
  pose proof (filterable_outcome "signals" "price" signals w) as Hsignals.
  destruct (recordsOf signals) as [sigs|].
  - rewrite Hsignals in Hthrow. unfold bind at 1 in Hthrow.
    pose proof (filterable_outcome "trades" "timestamp" trades w) as Htrades.
    destruct (recordsOf trades) as [trs|].
    + rewrite Htrades in Hthrow.
      destruct (showCharts_only_throws pc tc rc sigs trs w err w' Hthrow)
        as [Hlibrary|[-> Hprice]]; [now left|].
      right. left. split; [reflexivity|].
      exists sigs. repeat split; [exact Hprice | discriminate].
    + destruct Htrades as (reason & Hrejected & Htrades).
      rewrite Htrades in Hthrow.
      injection Hthrow as <- <-. right. right. exists reason. now split; [|right].
  - destruct Hsignals as (reason & Hrejected & Hsignals).
    rewrite Hsignals in Hthrow.
    injection Hthrow as <- <-. right. right. exists reason. now split; [|left].
Qed.

(** *** The guard and the [catch] block *)



(** What the [catch] block makes of a thrown value. *)
Lemma showUpdateError_outcome (err : exception) (w : World) :
  match err with
  | Thrown v =>
      if loose_eq_null v
      then showUpdateError err w = (Throw (typeError (CannotRead v "message")), w)
      else showUpdateError err w
           = (Normal tt,
              mkWorld (with_error (Some (updateFailed "undefined")) (app w))
                (refs w) (charts w) (inflight w))
  | ThrownObject message =>
      showUpdateError err w
      = (Normal tt,
         mkWorld (with_error (Some (updateFailed (ToString message))) (app w))
           (refs w) (charts w) (inflight w))
  end.
Proof.
  destruct err as [v|message]; [|reflexivity].
  unfold showUpdateError, messageOf, bind.
  destruct (loose_eq_null v); reflexivity.
Qed.




(** *** Arrays of records *)

Lemma greater_than_zero_length (n : nat) :
  greater_than_zero (VNum (num (Z.of_nat n))) = Nat.ltb 0 n.
Proof.
  unfold greater_than_zero, ToNumber, num, inject_Z. cbn [Qnum].
  destruct n as [|n]; [reflexivity|].
  cbn [Nat.ltb Nat.leb]. apply Z.ltb_lt. lia.
Qed.

Lemma refreshChartsOf_arrayOfRecords pc tc rc sigs trs (w : World) :
  refreshChartsOf pc tc rc (arrayOfRecords sigs) (arrayOfRecords trs) w
  = refreshCharts pc tc rc sigs trs w.
Proof.
  unfold refreshChartsOf, refreshCharts, arrayOfRecords, filterable.
  rewrite !records_map_Some. unfold bind, ret.
  destruct (clearSeries pc priceSeriesRef with_priceSeriesRef w)
    as [[[]|err] w1]; [|reflexivity].
  destruct (clearSeries tc tradeSeriesRef with_tradeSeriesRef w1)
    as [[[]|err] w2]; [|reflexivity].
  destruct (clearSeries rc rsiSeriesRef with_rsiSeriesRef w2)
    as [[[]|err] w3]; reflexivity.
Qed.

Lemma chartUpdateEffect_arrayOfRecords (w : World) :
  chartUpdateEffect (arrayOfRecords (signals (app w)))
    (arrayOfRecords (trades (app w))) w
  = updateCharts w.
Proof.
  unfold chartUpdateEffect, updateCharts, bind, getApp, getRefs.
  unfold arrayOfRecords at 1. cbn [lengthOf ret].
  rewrite greater_than_zero_length, length_map.
  destruct (Nat.ltb 0 (List.length (signals (app w)))); [|reflexivity].
  destruct (priceChartInstance (refs w)) as [pc|]; [|reflexivity].
  destruct (tradeChartInstance (refs w)) as [tc|]; [|reflexivity].
  destruct (rsiChartInstance (refs w)) as [rc|]; [|reflexivity].
  unfold try_catch. now rewrite refreshChartsOf_arrayOfRecords.
Qed.


End ChartUpdate.




(** ** Run selection and the settling of requests *)

Section Store.
Context `{Host} {chart series lib : Type} `{ChartLibrary chart series lib}.
Local Abbreviation World := (World chart series lib).

Lemma with_error_same (a : AppState) : with_error (error a) a = a.
Proof.
  now destruct a.
Qed.

(** The chart-update effect changes no state cell but [error]. *)
Lemma updateCharts_state (w : World) :
  exists e, app (snd (updateCharts w)) = with_error e (app w).
Proof.
  unfold updateCharts, bind, getApp, getRefs.
  destruct (Nat.ltb 0 (List.length (signals (app w))));
    [|exists (error (app w)); symmetry; apply with_error_same].
  destruct (priceChartInstance (refs w)) as [pc|];
    [|exists (error (app w)); symmetry; apply with_error_same].
  destruct (tradeChartInstance (refs w)) as [tc|];
    [|exists (error (app w)); symmetry; apply with_error_same].
  destruct (rsiChartInstance (refs w)) as [rc|];
    [|exists (error (app w)); symmetry; apply with_error_same].
  unfold try_catch.
  pose proof (refreshCharts_keeps pc tc rc (signals (app w)) (trades (app w)) w)
    as Hkeeps.
  destruct (refreshCharts pc tc rc (signals (app w)) (trades (app w)) w)
    as [[[]|message] w1]; cbn [snd] in *.
  - exists (error (app w)). rewrite Hkeeps. symmetry. apply with_error_same.
  - pose proof (showUpdateError_outcome message w1) as Hcatch.
    destruct message as [v|message]; [destruct (loose_eq_null v)|];
      rewrite Hcatch; cbn [snd app]; rewrite Hkeeps.
    + exists (error (app w)). symmetry. apply with_error_same.
    + now exists (Some (updateFailed "undefined")).
    + now exists (Some (updateFailed (ToString message))).
Qed.

Lemma runSelected_other (w : World) (run_id : string) :
  run_id <> "" -> run_id <> selectedRunId (app w) ->
  handle (RunSelected run_id) w
  = (Normal tt,
     mkWorld (with_selectedRunId run_id (app w)) (refs w) (charts w)
       (inflight w
        ++ [ mkFetch EpSignals run_id; mkFetch EpTrades run_id;
             mkFetch EpMetrics run_id; mkFetch EpPortfolioFinal run_id ])).
Proof.
  intros Hrun Hother.
  unfold handle, bind, getApp, setSelectedRunId, setState. cbn [app].
  destruct (String.eqb (selectedRunId (app w)) run_id) eqn:Hsame;
    [apply String.eqb_eq in Hsame; congruence|].
  assert (Htruthy : truthy (VStr run_id) = true).
  { cbn. destruct (String.eqb run_id "") eqn:Hempty; [|reflexivity].
    apply String.eqb_eq in Hempty. congruence. }
  unfold fetchRun, bind, getApp. cbn [app selectedRunId with_selectedRunId].
  rewrite Htruthy. unfold fetch. cbn.
  now rewrite <- !app_assoc.
Qed.

Lemma runSelected_none (w : World) :
  selectedRunId (app w) <> "" ->
  handle (RunSelected "") w
  = (Normal tt,
     mkWorld
       (mkAppState (runs (app w)) "" [] [] None VNull None)
       (refs w) (charts w) (inflight w)).
Proof.
  intros Hselected.
  unfold handle, bind, getApp, setSelectedRunId, setState. cbn [app].
  destruct (String.eqb (selectedRunId (app w)) "") eqn:Hsame;
    [apply String.eqb_eq in Hsame; congruence|].
  unfold fetchRun, bind, getApp, setSignals, setTrades, setMetrics,
    setFinalPortfolioValue, setError, setState.
  cbn. reflexivity.
Qed.

End Store.

(** C3, as the code has it.  Choosing another run discards nothing: the
    signals, trades, metrics, final value and error of the previous run, the
    refs and the charts stay as they are, and four requests for the new run
    go out.  Each piece is replaced on its own when its request settles,
    whichever run the request was made for: a signals response replaces the
    signals and leaves trades, metrics and final value alone, and likewise
    for the others.  Only clearing the selection empties the four pieces
    and the error in one step (and leaves the charts as they are). *)
Theorem run_change_keeps_previous_data (host : Host) {chart series lib : Type}
  (library : ChartLibrary chart series lib) (w : World chart series lib)
  (run_id : string) :
  (run_id <> "" -> run_id <> selectedRunId (app w) ->
     handle (RunSelected run_id) w
     = (Normal tt,
        mkWorld (with_selectedRunId run_id (app w)) (refs w) (charts w)
          (inflight w
           ++ [ mkFetch EpSignals run_id; mkFetch EpTrades run_id;
                mkFetch EpMetrics run_id; mkFetch EpPortfolioFinal run_id ])))
  /\ (selectedRunId (app w) <> "" ->
      handle (RunSelected "") w
      = (Normal tt,
         mkWorld (mkAppState (runs (app w)) "" [] [] None VNull None)
           (refs w) (charts w) (inflight w)))
  /\ (forall data,
        let a' := app (snd (handle (SignalsSettled run_id (Some data)) w)) in
        signals a' = data /\ trades a' = trades (app w)
        /\ metrics a' = metrics (app w)
        /\ finalPortfolioValue a' = finalPortfolioValue (app w)
        /\ selectedRunId a' = selectedRunId (app w))
  /\ (forall data,
        let a' := app (snd (handle (TradesSettled run_id (Some data)) w)) in
        trades a' = data /\ signals a' = signals (app w)
        /\ metrics a' = metrics (app w)
        /\ finalPortfolioValue a' = finalPortfolioValue (app w)
        /\ selectedRunId a' = selectedRunId (app w))
  /\ (forall data,
        app (snd (handle (MetricsSettled run_id (Some data)) w))
        = with_error None (with_metrics (Some data) (app w)))
  /\ (forall total,
        app (snd (handle (PortfolioFinalSettled run_id (Some total)) w))
        = with_error None (with_finalPortfolioValue total (app w))).
Proof.
  split; [apply runSelected_other|].
  split; [apply runSelected_none|].
  split; [|split; [|split]].
  - intros data a'. subst a'.
    cbv [handle bind settled onSignals setSignals setError setState isSome].
    cbn [app refs charts inflight].
    match goal with
    | |- context [updateCharts ?w1] =>
        destruct (updateCharts_state w1) as [e ->]
    end.
    cbn. repeat split; reflexivity.
  - intros data a'. subst a'.
    cbv [handle bind settled onTrades setTrades setState isSome].
    cbn [app refs charts inflight].
    match goal with
    | |- context [updateCharts ?w1] =>
        destruct (updateCharts_state w1) as [e ->]
    end.
    cbn. repeat split; reflexivity.
  - intros data. reflexivity.
  - intros total. reflexivity.
Qed.

Lemma run_change_keeps_previous_data_witness :
  let w' := snd (handle (RunSelected "R2") Examples.r1_loaded) in
  signals (app w') = Examples.r1_signals
  /\ trades (app w') = Examples.r1_trades
  /\ metrics (app w') = Some Examples.r1_metrics
  /\ charts w' = charts Examples.r1_loaded
  /\ inflight w'
     = [ mkFetch EpSignals "R2"; mkFetch EpTrades "R2"; mkFetch EpMetrics "R2";
         mkFetch EpPortfolioFinal "R2" ].
Proof.
  assert (Hrun : "R2" <> "") by discriminate.
  assert (Hother : "R2" <> selectedRunId (app Examples.r1_loaded))
    by (vm_compute; discriminate).
  destruct (run_change_keeps_previous_data testHost testCharts
              Examples.r1_loaded "R2") as (Hselect & _).
  rewrite (Hselect Hrun Hother).
  vm_compute. repeat split; reflexivity.
Defined.

(** C3 as stated fails.  Right after R2 is chosen the store still holds
    R1's signals, trades and metrics; and once R2's signals have arrived the
    store holds R2's signals with R1's trades and metrics, and the trade
    pane shows R2's price points under R1's trade markers. *)
Lemma run_change_mixes_runs :
  match
    run_events (Examples.r1_loaded_events ++ [RunSelected "R2"]) Examples.mounted,
    run_events
      (Examples.r1_loaded_events
       ++ [RunSelected "R2"; SignalsSettled "R2" (Some Examples.r2_signals)])
      Examples.mounted
  with
  | Some w1, Some w2 =>
      (selectedRunId (app w1) = "R2"
       /\ signals (app w1) = Examples.r1_signals
       /\ trades (app w1) = Examples.r1_trades
       /\ metrics (app w1) = Some Examples.r1_metrics)
      /\ (selectedRunId (app w2) = "R2"
          /\ signals (app w2) = Examples.r2_signals
          /\ trades (app w2) = Examples.r1_trades
          /\ metrics (app w2) = Some Examples.r1_metrics)
      /\ map (fun s => (TestCharts.data s, TestCharts.markers s))
           (TestCharts.seriesOf (TestCharts.tradeChart (charts w2)))
         = [ (priceData Examples.r2_signals, tradeMarkers Examples.r1_trades) ]
  | _, _ => False
  end
  /\ ~ (forall (w : World Pane (Pane * nat) TestCharts.Charts) (run_id : string),
          run_id <> selectedRunId (app w) ->
          let a' := app (snd (handle (RunSelected run_id) w)) in
          signals a' = [] /\ trades a' = [] /\ metrics a' = None).
Proof.
  split; [vm_compute; repeat split; reflexivity|].
  intros Hall.
  assert (Hother : "R2" <> selectedRunId (app Examples.r1_loaded))
    by (vm_compute; discriminate).
  destruct (Hall Examples.r1_loaded "R2" Hother) as [Hsignals _].
  vm_compute in Hsignals. discriminate.
Qed.

(** * Further properties *)

(** ** The points and markers of the charts *)

Lemma div_1000_nonzero (ms : Z) :
  ms <> 0 -> ~ (Qred (inject_Z ms / inject_Z 1000) == 0)%Q.
Proof.
  intros Hms Hzero. rewrite Qred_correct in Hzero.
  unfold Qeq, Qdiv, Qmult, Qinv, inject_Z in Hzero. simpl in Hzero. lia.
Qed.

Section Points.
Context `{Host}.

Lemma seconds_nonzero (ts : jsval) :
  number_truthy (getTime ts) = true ->
  exists q, seconds ts = Fin q /\ ~ (q == 0)%Q.
Proof.
  intros Hts. rewrite (seconds_of_valid ts Hts).
  destruct (getTime_truthy ts Hts) as (ms & Hms & Hnonzero).
  eexists. split; [reflexivity|].
  unfold epoch_ms. rewrite Hms. now apply div_1000_nonzero.
Qed.

Lemma price_isValid_value (s : Signal.t) :
  price_isValid s = true -> number_isNaN (Number (Signal.price s)) = false.
Proof.
  unfold price_isValid, isNaN, Number. intros Hvalid.
  apply andb_prop in Hvalid. destruct Hvalid as [Hvalid _].
  apply andb_prop in Hvalid. destruct Hvalid as [_ Hnumber].
  now apply negb_true_iff in Hnumber.
Qed.

Lemma rsi_isValid_value (s : Signal.t) :
  rsi_isValid s = true -> number_isNaN (Number (Signal.rsi s)) = false.
Proof.
  unfold rsi_isValid, isNaN, Number. intros Hvalid.
  apply andb_prop in Hvalid. destruct Hvalid as [Hvalid _].
  apply andb_prop in Hvalid. destruct Hvalid as [_ Hnumber].
  now apply negb_true_iff in Hnumber.
Qed.

Lemma buy_sell_exclusive (s : Signal.t) :
  buy_isValid s = true -> sell_isValid s = true -> False.
Proof.
  rewrite buy_isValid_price, sell_isValid_price.
  intros Hbuy Hsell.
  apply andb_prop in Hbuy. apply andb_prop in Hsell.
  destruct Hbuy as [Hbuy _], Hsell as [Hsell _].
  unfold strict_eq_num in *.
  destruct (Signal.signal s) as [| | |[| |q]|]; try discriminate.
  apply Qeq_bool_iff in Hbuy. apply Qeq_bool_iff in Hsell.
  rewrite Hbuy in Hsell. discriminate.
Qed.

Lemma buy_sell_within_price (signals : list Signal.t) :
  (List.length (filter buy_isValid signals)
   + List.length (filter sell_isValid signals)
   <= List.length (filter price_isValid signals))%nat.
Proof.
  induction signals as [|s signals IH]; [reflexivity|].
  cbn [filter].
  pose proof (buy_sell_exclusive s) as Hexclusive.
  pose proof (buy_isValid_price s) as Hbuy.
  pose proof (sell_isValid_price s) as Hsell.
  destruct (buy_isValid s), (sell_isValid s), (price_isValid s);
    cbn [List.length]; try lia;
    try (now destruct Hexclusive);
    try (rewrite andb_false_r in Hbuy; discriminate);
    try (rewrite andb_false_r in Hsell; discriminate).
Qed.

Lemma marker_on_price_point (signals : list Signal.t) (m : Marker.t) :
  In m (buySignals signals ++ sellSignals signals) ->
  In (Marker.time m) (map ChartPoint.time (priceData signals)).
Proof.
  intros Hin. apply in_app_or in Hin.
  unfold buySignals, sellSignals, priceData in *.
  destruct Hin as [Hin|Hin];
    apply in_map_iff in Hin; destruct Hin as (s & <- & Hs);
    apply filter_In in Hs; destruct Hs as [Hs Hvalid].
  - rewrite buy_isValid_price in Hvalid. apply andb_prop in Hvalid.
    apply in_map_iff. exists (pricePoint s). split; [reflexivity|].
    apply in_map, filter_In. tauto.
  - rewrite sell_isValid_price in Hvalid. apply andb_prop in Hvalid.
    apply in_map_iff. exists (pricePoint s). split; [reflexivity|].
    apply in_map, filter_In. tauto.
Qed.

End Points.

(** X1. A point of the price series is the point of a record of the
    response that passes the price filter, and every such record gives one;
    its value is a Number, not NaN, and its time is finite and not zero.
    The same holds of the oscillator series with the filter and the value of
    the oscillator. *)
Theorem chart_points_are_numeric (host : Host) (signals : list Signal.t)
  (p : ChartPoint.t) :
  (In p (priceData signals)
   <-> exists s, In s signals /\ price_isValid s = true /\ p = pricePoint s)
  /\ (In p (priceData signals) ->
      number_isNaN (ChartPoint.value p) = false
      /\ exists q, ChartPoint.time p = Fin q /\ ~ (q == 0)%Q)
  /\ (In p (rsiData signals)
      <-> exists s, In s signals /\ rsi_isValid s = true /\ p = rsiPoint s)
  /\ (In p (rsiData signals) ->
      number_isNaN (ChartPoint.value p) = false
      /\ exists q, ChartPoint.time p = Fin q /\ ~ (q == 0)%Q).
Proof.
  unfold priceData, rsiData.
  split; [|split; [|split]].
  - rewrite in_map_iff. split.
    + intros (s & <- & Hs). apply filter_In in Hs. exists s. tauto.
    + intros (s & Hs & Hvalid & ->). exists s. split; [reflexivity|].
      apply filter_In. tauto.
  - intros Hin. apply in_map_iff in Hin. destruct Hin as (s & <- & Hs).
    apply filter_In in Hs. destruct Hs as [Hs Hvalid].
    split; [now apply price_isValid_value|].
    now apply seconds_nonzero, price_isValid_timestamp.
  - rewrite in_map_iff. split.
    + intros (s & <- & Hs). apply filter_In in Hs. exists s. tauto.
    + intros (s & Hs & Hvalid & ->). exists s. split; [reflexivity|].
      apply filter_In. tauto.
  - intros Hin. apply in_map_iff in Hin. destruct Hin as (s & <- & Hs).
    apply filter_In in Hs. destruct Hs as [Hs Hvalid].
    split; [now apply rsi_isValid_value|].
    now apply seconds_nonzero, rsi_isValid_timestamp.
Qed.

Lemma chart_points_are_numeric_witness :
  number_isNaN
    (ChartPoint.value (pricePoint (hd Examples.epoch_signal Examples.r1_signals)))
  = false.
Proof.
  assert (Hin : In (pricePoint (hd Examples.epoch_signal Examples.r1_signals))
                  (priceData Examples.r1_signals))
    by (vm_compute; left; reflexivity).
  destruct (chart_points_are_numeric testHost Examples.r1_signals
              (pricePoint (hd Examples.epoch_signal Examples.r1_signals)))
    as (_ & Hprice & _).
  destruct (Hprice Hin) as [Hvalue _].
  exact Hvalue.
Defined.

(** X2. Every signal marker sits at the time of a point of the price
    series, and there are no more signal markers than price points: a
    record gives a BUY marker or a SELL marker only if it gives a price
    point, and never both. *)
Theorem signal_markers_sit_on_price_points (host : Host)
  (signals : list Signal.t) :
  (forall m, In m (signalMarkers signals) ->
     In (Marker.time m) (map ChartPoint.time (priceData signals)))
  /\ (List.length (signalMarkers signals) <= List.length (priceData signals))%nat.
Proof.
  pose proof (Array_sort_Permutation byTime
                (buySignals signals ++ sellSignals signals)) as Hperm.
  fold (signalMarkers signals) in Hperm.
  split.
  - intros m Hin. apply marker_on_price_point.
    now apply (Permutation_in m (Permutation_sym Hperm)).
  - rewrite <- (Permutation_length Hperm), length_app.
    unfold buySignals, sellSignals, priceData. rewrite !length_map.
    apply buy_sell_within_price.
Qed.

(** X3. Sorting the signal markers again changes nothing; and when the
    BUY markers followed by the SELL markers are already in ascending order
    of time, the sort leaves them as they are. *)
Theorem signalMarkers_sorted_once (host : Host) (signals : list Signal.t) :
  Array_sort byTime (signalMarkers signals) = signalMarkers signals
  /\ (StronglySorted time_le (buySignals signals ++ sellSignals signals)%list ->
      signalMarkers signals = (buySignals signals ++ sellSignals signals)%list).
Proof.
  pose proof (unsorted_finite signals) as Hfinite.
  split.
  - symmetry.
    apply (Array_sort_unique byTime timeQ finite_time byTime_compare).
    + unfold signalMarkers. now apply Array_sort_Forall.
    + unfold signalMarkers.
      now apply (Array_sort_sorted byTime timeQ finite_time byTime_compare).
    + reflexivity.
  - intros Hsorted. symmetry. unfold signalMarkers.
    apply (Array_sort_unique byTime timeQ finite_time byTime_compare).
    + exact Hfinite.
    + now apply StronglySorted_timeQ.
    + reflexivity.
Qed.

Lemma signalMarkers_sorted_once_witness :
  signalMarkers Examples.r1_signals
  = (buySignals Examples.r1_signals ++ sellSignals Examples.r1_signals)%list.
Proof.
  apply (proj2 (signalMarkers_sorted_once testHost Examples.r1_signals)).
  repeat constructor; vm_compute; reflexivity.
Defined.

(** ** What the effects leave alone *)

Lemma same_but_error_refl (a : AppState) : same_but_error a a.
Proof.
  unfold same_but_error. tauto.
Qed.

Lemma same_but_error_trans (a b c : AppState) :
  same_but_error a b -> same_but_error b c -> same_but_error a c.
Proof.
  unfold same_but_error. intuition congruence.
Qed.

Lemma same_but_error_with_error (e : option string) (a : AppState) :
  same_but_error a (with_error e a).
Proof.
  unfold same_but_error. cbn. tauto.
Qed.

Section Frames.
Context `{Host} {chart series lib : Type} `{ChartLibrary chart series lib}.
Local Abbreviation World := (World chart series lib).
Local Abbreviation M := (@M chart series lib).

Lemma same_charts_and_guard_refl (r : Refs chart series) :
  same_charts_and_guard r r.
Proof.
  unfold same_charts_and_guard. tauto.
Qed.

Lemma same_charts_and_guard_trans (r s t : Refs chart series) :
  same_charts_and_guard r s -> same_charts_and_guard s t ->
  same_charts_and_guard r t.
Proof.
  unfold same_charts_and_guard. intuition congruence.
Qed.

Lemma bind_frame {A B : Type} (m : M A) (k : A -> M B) :
  keeps_frame m -> (forall a, keeps_frame (k a)) -> keeps_frame (bind m k).
Proof.
  intros Hm Hk w. unfold bind.
  destruct (Hm w) as (Happ & Hrefs & Hinflight).
  destruct (m w) as [[a|message] w1]; cbn [snd] in *; [|tauto].
  destruct (Hk a w1) as (Happ' & Hrefs' & Hinflight').
  split; [eapply same_but_error_trans; eassumption|].
  split; [eapply same_charts_and_guard_trans; eassumption | congruence].
Qed.

Lemma call_frame {A : Type} (op : lib -> completion A * lib) :
  keeps_frame (call op : M A).
Proof.
  intros w. unfold call. destruct (op (charts w)) as [c l]. cbn.
  split; [apply same_but_error_refl|].
  split; [apply same_charts_and_guard_refl | reflexivity].
Qed.

Lemma getRefs_frame : keeps_frame (getRefs : M _).
Proof.
  intros w. cbn.
  split; [apply same_but_error_refl|].
  split; [apply same_charts_and_guard_refl | reflexivity].
Qed.

Lemma ret_frame {A : Type} (a : A) : keeps_frame (ret a : M A).
Proof.
  intros w. cbn.
  split; [apply same_but_error_refl|].
  split; [apply same_charts_and_guard_refl | reflexivity].
Qed.

Lemma throw_frame {A : Type} (err : exception) :
  keeps_frame (throw err : M A).
Proof.
  intros w. cbn.
  split; [apply same_but_error_refl|].
  split; [apply same_charts_and_guard_refl | reflexivity].
Qed.

Lemma setSeriesRef_frame (f : Refs chart series -> Refs chart series) :
  (forall r, same_charts_and_guard r (f r)) -> keeps_frame (setRefs f : M unit).
Proof.
  intros Hf w. cbn.
  split; [apply same_but_error_refl|].
  split; [apply Hf | reflexivity].
Qed.

Lemma setError_frame (e : option string) : keeps_frame (setError e : M unit).
Proof.
  intros w. cbn.
  split; [apply same_but_error_with_error|].
  split; [apply same_charts_and_guard_refl | reflexivity].
Qed.

Lemma clearSeries_frame c ref with_ref :
  (forall v r, same_charts_and_guard r (with_ref v r)) ->
  keeps_frame (clearSeries c ref with_ref).
Proof.
  intros Hwith. unfold clearSeries.
  apply bind_frame; [apply getRefs_frame|].
  intros r. destruct (ref r) as [s|]; [|apply ret_frame].
  apply bind_frame; [apply call_frame|].
  intros _. apply setSeriesRef_frame. intros r'. apply Hwith.
Qed.

Lemma with_priceSeriesRef_same v (r : Refs chart series) :
  same_charts_and_guard r (with_priceSeriesRef v r).
Proof.
  unfold same_charts_and_guard. cbn. tauto.
Qed.

Lemma with_tradeSeriesRef_same v (r : Refs chart series) :
  same_charts_and_guard r (with_tradeSeriesRef v r).
Proof.
  unfold same_charts_and_guard. cbn. tauto.
Qed.

Lemma with_rsiSeriesRef_same v (r : Refs chart series) :
  same_charts_and_guard r (with_rsiSeriesRef v r).
Proof.
  unfold same_charts_and_guard. cbn. tauto.
Qed.

Ltac frame_step :=
  match goal with
  | |- keeps_frame (bind _ _) => apply bind_frame; [|intros ?]
  | |- keeps_frame (clearSeries _ _ _) => apply clearSeries_frame
  | |- keeps_frame (call _) => apply call_frame
  | |- keeps_frame (setRefs (with_priceSeriesRef _)) =>
      apply setSeriesRef_frame; intros ?; apply with_priceSeriesRef_same
  | |- keeps_frame (setRefs (with_tradeSeriesRef _)) =>
      apply setSeriesRef_frame; intros ?; apply with_tradeSeriesRef_same
  | |- keeps_frame (setRefs (with_rsiSeriesRef _)) =>
      apply setSeriesRef_frame; intros ?; apply with_rsiSeriesRef_same
  | |- keeps_frame (throw _) => apply throw_frame
  | |- forall _ _, same_charts_and_guard _ (with_priceSeriesRef _ _) =>
      apply with_priceSeriesRef_same
  | |- forall _ _, same_charts_and_guard _ (with_tradeSeriesRef _ _) =>
      apply with_tradeSeriesRef_same
  | |- forall _ _, same_charts_and_guard _ (with_rsiSeriesRef _ _) =>
      apply with_rsiSeriesRef_same
  end.

Lemma showCharts_frame pc tc rc sigs trs :
  keeps_frame (showCharts pc tc rc sigs trs).
Proof.
  unfold showCharts.
  destruct (Nat.eqb (List.length (priceData sigs)) 0); repeat frame_step.
Qed.

Lemma refreshCharts_frame pc tc rc sigs trs :
  keeps_frame (refreshCharts pc tc rc sigs trs).
Proof.
  unfold refreshCharts. repeat frame_step. apply showCharts_frame.
Qed.

Lemma filterable_frame {A : Type} (expression name : string)
  (value : Response A) :
  keeps_frame (filterable expression name value : M (list A)).
Proof.
  unfold filterable. destruct value as [|length|elements]; try apply throw_frame.
  destruct (records elements); [apply ret_frame | apply throw_frame].
Qed.

Lemma refreshChartsOf_frame pc tc rc signals trades :
  keeps_frame (refreshChartsOf pc tc rc signals trades).
Proof.
  unfold refreshChartsOf. repeat frame_step; try apply filterable_frame.
  apply showCharts_frame.
Qed.

Lemma showUpdateError_frame (err : exception) :
  keeps_frame (showUpdateError err : M unit).
Proof.
  unfold showUpdateError, messageOf.
  apply bind_frame; [|intros message; apply setError_frame].
  destruct err as [v|message]; [|apply ret_frame].
  destruct (loose_eq_null v); [apply throw_frame | apply ret_frame].
Qed.

Lemma try_catch_frame (body : M unit) (handler : exception -> M unit) :
  keeps_frame body -> (forall message, keeps_frame (handler message)) ->
  keeps_frame (try_catch body handler).
Proof.
  intros Hbody Hhandler w. unfold try_catch.
  destruct (Hbody w) as (Happ & Hrefs & Hinflight).
  destruct (body w) as [[[]|message] w1]; cbn [snd] in *; [tauto|].
  destruct (Hhandler message w1) as (Happ' & Hrefs' & Hinflight').
  split; [eapply same_but_error_trans; eassumption|].
  split; [eapply same_charts_and_guard_trans; eassumption | congruence].
Qed.

Lemma updateCharts_frame : keeps_frame (updateCharts : M unit).
Proof.
  unfold updateCharts.
  apply bind_frame; [intros w; cbn; split; [apply same_but_error_refl|];
                     split; [apply same_charts_and_guard_refl | reflexivity]|].
  intros a. apply bind_frame; [apply getRefs_frame|]. intros r.
  destruct (Nat.ltb 0 (List.length (signals a))); [|apply ret_frame].
  destruct (priceChartInstance r); [|apply ret_frame].
  destruct (tradeChartInstance r); [|apply ret_frame].
  destruct (rsiChartInstance r); [|apply ret_frame].
  apply try_catch_frame; [apply refreshCharts_frame|].
  apply showUpdateError_frame.
Qed.

Lemma chartUpdateEffect_frame signals trades :
  keeps_frame (chartUpdateEffect signals trades : M unit).
Proof.
  unfold chartUpdateEffect.
  apply bind_frame.
  { unfold lengthOf. destruct signals as [|length|elements];
      [apply throw_frame | apply ret_frame | apply ret_frame]. }
  intros length. apply bind_frame; [apply getRefs_frame|]. intros r.
  destruct (greater_than_zero length); [|apply ret_frame].
  destruct (priceChartInstance r); [|apply ret_frame].
  destruct (tradeChartInstance r); [|apply ret_frame].
  destruct (rsiChartInstance r); [|apply ret_frame].
  apply try_catch_frame; [apply refreshChartsOf_frame|].
  apply showUpdateError_frame.
Qed.

(** The effect throws when it reads the length of [null], or when the
    [catch] block reads the message of a thrown [null] or [undefined], and
    then no state cell has changed. *)
Lemma chartUpdateEffect_throws signals trades (w w' : World) (err : exception) :
  chartUpdateEffect signals trades w = (Throw err, w') ->
  (signals = NullResponse
   /\ err = typeError (CannotRead VNull "length") /\ w' = w)
  \/ (exists v,
        loose_eq_null v = true /\ raised_by_library (Thrown v)
        /\ err = typeError (CannotRead v "message") /\ app w' = app w).
Proof.
  unfold chartUpdateEffect, bind at 1.
  destruct signals as [|length|elements]; cbn [lengthOf throw ret].
  { intros Hthrow. injection Hthrow as <- <-. left. repeat split. }
  all: unfold bind, getRefs;
    match goal with
    | |- context [greater_than_zero ?length] =>
        destruct (greater_than_zero length); [|discriminate]
    end;
    destruct (priceChartInstance (refs w)) as [pc|]; [|discriminate];
    destruct (tradeChartInstance (refs w)) as [tc|]; [|discriminate];
    destruct (rsiChartInstance (refs w)) as [rc|]; [|discriminate];
    unfold try_catch;
    match goal with
    | |- context [refreshChartsOf ?p ?t ?r ?sigs ?trs ?w0] =>
        pose proof (refreshChartsOf_only_throws p t r sigs trs w0) as Hraised;
        pose proof (refreshChartsOf_keeps p t r sigs trs w0) as Hkeeps;
        destruct (refreshChartsOf p t r sigs trs w0)
          as [[[]|thrown] w1]; [discriminate|]
    end;
    cbn [snd] in Hkeeps; specialize (Hraised thrown w1 eq_refl);
    pose proof (showUpdateError_outcome thrown w1) as Hcatch;
    (destruct thrown as [v|message];
     [destruct (loose_eq_null v) eqn:Hnullish|]);
    rewrite Hcatch; try discriminate;
    intros Hthrow; injection Hthrow as <- <-;
    right; exists v;
    (split; [exact Hnullish|]);
    (split; [|split; [reflexivity | exact Hkeeps]]);
    (destruct Hraised as [Hlibrary|[[Hown _]|(reason & Hown & _)]];
     [exact Hlibrary | discriminate Hown | discriminate Hown]).
Qed.

Lemma updateCharts_throws (w w' : World) (err : exception) :
  updateCharts w = (Throw err, w') ->
  exists v,
    loose_eq_null v = true /\ raised_by_library (Thrown v)
    /\ err = typeError (CannotRead v "message") /\ app w' = app w.
Proof.
  rewrite <- chartUpdateEffect_arrayOfRecords. intros Hthrow.
  destruct (chartUpdateEffect_throws _ _ w w' err Hthrow)
    as [(Hnull & _)|Hcatch]; [discriminate Hnull | exact Hcatch].
Qed.

End Frames.

(** X4. The chart-update effect lets an exception escape in two cases
    only, whatever the two cells hold and whatever the charting library
    does or throws (a primitive value, or an object with a primitive
    message).  Signals that are [null] make it throw a TypeError when it reads
    their length, before it has touched anything.  And when a call of the
    library throws [null] or [undefined] inside the [try] block, the [catch]
    block throws a TypeError when it reads the message.  In both cases no
    state cell has changed, the error included. *)
Theorem chartUpdateEffect_throws_only (host : Host) {chart series lib : Type}
  (library : ChartLibrary chart series lib) (signals : Response Signal.t)
  (trades : Response Trade.t) (w w' : World chart series lib) (err : exception) :
  chartUpdateEffect signals trades w = (Throw err, w') ->
  (signals = NullResponse
   /\ err = typeError (CannotRead VNull "length") /\ w' = w)
  \/ (exists v,
        loose_eq_null v = true /\ raised_by_library (Thrown v)
        /\ err = typeError (CannotRead v "message") /\ app w' = app w).
Proof.
  apply chartUpdateEffect_throws.
Qed.

Lemma chartUpdateEffect_throws_only_witness :
  typeError (CannotRead VNull "length")
  = Error "Cannot read properties of null (reading 'length')".
Proof.
  assert (Hthrow : chartUpdateEffect NullResponse (arrayOfRecords [])
                     Examples.mounted
                   = (Throw (typeError (CannotRead VNull "length")),
                      Examples.mounted))
    by reflexivity.
  destruct (chartUpdateEffect_throws_only testHost testCharts NullResponse
              (arrayOfRecords []) Examples.mounted Examples.mounted
              (typeError (CannotRead VNull "length")) Hthrow)
    as [(_ & Herr & _)|(v & _ & _ & Herr & _)]; reflexivity.
Defined.

(** X5. The chart-update effect changes, of the state cells, the error at
    most: the runs, the selection, the signals, the trades, the metrics and
    the final value are as before.  It leaves the three chart instances, the
    guard of the synchronisation and the requests in flight alone. *)
Theorem updateCharts_changes_error_only (host : Host) {chart series lib : Type}
  (library : ChartLibrary chart series lib) (w : World chart series lib) :
  same_but_error (app w) (app (snd (updateCharts w)))
  /\ same_charts_and_guard (refs w) (refs (snd (updateCharts w)))
  /\ inflight (snd (updateCharts w)) = inflight w.
Proof.
  apply updateCharts_frame.
Qed.

(** X23. Whatever the signals and trades cells hold, an array of records
    or not, the chart-update effect changes no state cell but the error, and
    leaves the three chart instances, the guard of the synchronisation and
    the requests in flight alone, whether it completes or throws. *)
Theorem chartUpdateEffect_changes_error_only (host : Host)
  {chart series lib : Type} (library : ChartLibrary chart series lib)
  (signals : Response Signal.t) (trades : Response Trade.t)
  (w : World chart series lib) :
  same_but_error (app w) (app (snd (chartUpdateEffect signals trades w)))
  /\ same_charts_and_guard (refs w)
       (refs (snd (chartUpdateEffect signals trades w)))
  /\ inflight (snd (chartUpdateEffect signals trades w)) = inflight w.
Proof.
  apply chartUpdateEffect_frame.
Qed.

(** ** A refresh that completes *)

Section Completed.
Context `{Host} {chart series lib : Type} `{ChartLibrary chart series lib}.
Local Abbreviation World := (World chart series lib).
Local Abbreviation M := (@M chart series lib).

Lemma bind_normal_inv {A B : Type} (m : M A) (k : A -> M B) (w w' : World)
  (b : B) :
  bind m k w = (Normal b, w') ->
  exists a w1, m w = (Normal a, w1) /\ k a w1 = (Normal b, w').
Proof.
  unfold bind. destruct (m w) as [[a|message] w1]; [eauto | discriminate].
Qed.

Lemma call_normal_inv {A : Type} (op : lib -> completion A * lib)
  (w w' : World) (a : A) :
  call op w = (Normal a, w') -> app w' = app w /\ refs w' = refs w.
Proof.
  unfold call. destruct (op (charts w)) as [c l].
  intros Hcall. injection Hcall as _ <-. now split.
Qed.

Lemma setRefs_inv (f : Refs chart series -> Refs chart series) (w w' : World)
  (u : unit) :
  setRefs f w = (Normal u, w') -> app w' = app w /\ refs w' = f (refs w).
Proof.
  unfold setRefs. intros Hset. injection Hset as _ <-. now split.
Qed.

Lemma clearSeries_inv c ref with_ref (w w' : World) (u : unit) :
  clearSeries c ref with_ref w = (Normal u, w') -> app w' = app w.
Proof.
  intros Hclear.
  pose proof (clearSeries_keeps c ref with_ref w) as Hkeeps.
  now rewrite Hclear in Hkeeps.
Qed.

Lemma refreshCharts_completed pc tc rc sigs trs (w w' : World) :
  refreshCharts pc tc rc sigs trs w = (Normal tt, w') ->
  priceData sigs <> []
  /\ app w' = app w
  /\ exists priceSeries tradeSeries rsiSeries,
       priceSeriesRef (refs w') = Some priceSeries
       /\ tradeSeriesRef (refs w') = Some tradeSeries
       /\ rsiSeriesRef (refs w') = Some rsiSeries.
Proof.
  unfold refreshCharts. intros Hrun.
  repeat (apply bind_normal_inv in Hrun;
          let a := fresh "a" in
          let w1 := fresh "w" in
          let Hstep := fresh "Hstep" in
          destruct Hrun as (a & w1 & Hstep & Hrun)).
  unfold showCharts in Hrun.
  destruct (priceData sigs) as [|point points] eqn:Hpoints;
    [discriminate Hrun|].
  cbn [List.length Nat.eqb] in Hrun.
  repeat (apply bind_normal_inv in Hrun;
          let a := fresh "a" in
          let w1 := fresh "w" in
          let Hstep := fresh "Hstep" in
          destruct Hrun as (a & w1 & Hstep & Hrun)).
  repeat match goal with
         | Hc : clearSeries _ _ _ _ = (Normal _, _) |- _ =>
             apply clearSeries_inv in Hc
         | Hc : call _ _ = (Normal _, _) |- _ =>
             apply call_normal_inv in Hc; destruct Hc as [? ?]
         | Hc : setRefs _ _ = (Normal _, _) |- _ =>
             apply setRefs_inv in Hc; destruct Hc as [? ?]
         end.
  split; [discriminate|].
  split; [congruence|].
  repeat match goal with
         | Hr : refs ?x = refs ?y |- _ => rewrite Hr in *; clear Hr
         end.
  repeat match goal with
         | Hr : refs ?x = _ |- context [refs ?x] => rewrite Hr
         end.
  do 3 eexists. cbn. repeat split; reflexivity.
Qed.

End Completed.

(** X6. When the body of the refresh completes, some record passed the
    price filter, every pane has a series in its ref, and no state cell has
    changed: an error shown before the refresh is still shown after it. *)
Theorem refresh_completed (host : Host) {chart series lib : Type}
  (library : ChartLibrary chart series lib) (priceChart tradeChart rsiChart : chart)
  (w w' : World chart series lib) :
  refreshCharts priceChart tradeChart rsiChart (signals (app w)) (trades (app w)) w
  = (Normal tt, w') ->
  priceData (signals (app w)) <> []
  /\ app w' = app w
  /\ exists priceSeries tradeSeries rsiSeries,
       priceSeriesRef (refs w') = Some priceSeries
       /\ tradeSeriesRef (refs w') = Some tradeSeries
       /\ rsiSeriesRef (refs w') = Some rsiSeries.
Proof.
  apply refreshCharts_completed.
Qed.

Lemma refresh_completed_witness :
  error (app (snd (refreshCharts PricePane TradePane RsiPane
                     (signals (app Examples.r1_loaded))
                     (trades (app Examples.r1_loaded)) Examples.r1_loaded)))
  = error (app Examples.r1_loaded).
Proof.
  pose (w' := snd (refreshCharts PricePane TradePane RsiPane
                     (signals (app Examples.r1_loaded))
                     (trades (app Examples.r1_loaded)) Examples.r1_loaded)).
  assert (Hrun : refreshCharts PricePane TradePane RsiPane
                   (signals (app Examples.r1_loaded))
                   (trades (app Examples.r1_loaded)) Examples.r1_loaded
                 = (Normal tt, w')) by (vm_compute; reflexivity).
  destruct (refresh_completed testHost testCharts PricePane TradePane RsiPane
              Examples.r1_loaded w' Hrun) as (_ & Happ & _).
  fold w'. now rewrite Happ.
Defined.


(** ** The synchronisation callback *)

Section SyncFrame.
Context {chart series lib : Type} `{ChartLibrary chart series lib}.
Local Abbreviation World := (World chart series lib).
Local Abbreviation M := (@M chart series lib).

Lemma call_world {A : Type} (op : lib -> completion A * lib) (w : World) :
  app (snd (call op w)) = app w
  /\ refs (snd (call op w)) = refs w
  /\ inflight (snd (call op w)) = inflight w.
Proof.
  unfold call. destruct (op (charts w)). cbn. tauto.
Qed.

Lemma forEach_call_world {A : Type} (op : A -> lib -> completion unit * lib)
  (l : list A) (w : World) :
  app (snd (forEach l (fun x => call (op x)) w)) = app w
  /\ refs (snd (forEach l (fun x => call (op x)) w)) = refs w
  /\ inflight (snd (forEach l (fun x => call (op x)) w)) = inflight w.
Proof.
  revert w. induction l as [|x l IH]; intros w; [cbn; tauto|].
  cbn [forEach]. unfold bind.
  pose proof (call_world (op x) w) as Hcall.
  destruct (call (op x) w) as [[[]|message] w1]; cbn [snd] in *; [|exact Hcall].
  destruct (IH w1) as (Happ & Hrefs & Hinflight).
  destruct Hcall as (Happ' & Hrefs' & Hinflight').
  repeat split; congruence.
Qed.

Lemma same_but_guard_with (b : bool) (r r' : Refs chart series) :
  r' = with_isUpdatingTimeScale b r -> same_but_guard r r'.
Proof.
  intros ->. unfold same_but_guard. cbn. tauto.
Qed.

Lemma onVisibleTimeRangeChange_outcome (sourceChart : chart)
  (targetCharts : list chart) (w w' : World) (c : completion unit) :
  onVisibleTimeRangeChange sourceChart targetCharts w = (c, w') ->
  app w' = app w /\ same_but_guard (refs w) (refs w')
  /\ inflight w' = inflight w.
Proof.
  unfold onVisibleTimeRangeChange, bind at 1, getRefs.
  destruct (isUpdatingTimeScale (refs w)).
  { intros Hrun. injection Hrun as _ <-.
    unfold same_but_guard. repeat split; reflexivity. }
  unfold bind at 1. cbn [setRefs].
  unfold bind at 1.
  match goal with
  | |- context [call ?op ?w1] =>
      destruct (call_world op w1) as (Happ & Hrefs & Hinflight);
      destruct (call op w1) as [[timeRange|message] w2]
  end; cbn [snd app refs inflight] in *.
  - unfold bind.
    assert (Hafter :
      forall m : M unit,
        app (snd (m w2)) = app w2 /\ refs (snd (m w2)) = refs w2
        /\ inflight (snd (m w2)) = inflight w2 ->
        (let (c0, w3) := m w2 in
         match c0 with
         | Normal _ => setRefs (with_isUpdatingTimeScale false) w3
         | Throw message => (Throw message, w3)
         end) = (c, w') ->
        app w' = app w /\ same_but_guard (refs w) (refs w')
        /\ inflight w' = inflight w).
    { intros m (Hm1 & Hm2 & Hm3).
      destruct (m w2) as [[[]|message] w3]; cbn [snd] in *;
        intros Hrun; injection Hrun as _ <-; cbn [app refs inflight setRefs snd];
        (split; [congruence|]); (split; [|congruence]);
        rewrite Hm2, Hrefs; unfold same_but_guard; cbn; repeat split; reflexivity. }
    destruct timeRange as [range|].
    + apply Hafter.
      apply (forEach_call_world (fun t => setVisibleLogicalRange t range)).
    + apply (Hafter (ret tt)). cbn. repeat split; reflexivity.
  - intros Hrun. injection Hrun as _ <-.
    split; [congruence|]. split; [|congruence].
    rewrite Hrefs. unfold same_but_guard. cbn. repeat split; reflexivity.
Qed.

Lemma onVisibleTimeRangeChange_frame (sourceChart : chart)
  (targetCharts : list chart) (w : World) :
  app (snd (onVisibleTimeRangeChange sourceChart targetCharts w)) = app w
  /\ same_but_guard (refs w)
       (refs (snd (onVisibleTimeRangeChange sourceChart targetCharts w)))
  /\ inflight (snd (onVisibleTimeRangeChange sourceChart targetCharts w))
     = inflight w.
Proof.
  destruct (onVisibleTimeRangeChange sourceChart targetCharts w) as [c w']
    eqn:Hrun.
  now apply (onVisibleTimeRangeChange_outcome sourceChart targetCharts w w' c).
Qed.

Lemma bind_same {A B : Type} (m m' : M A) (k k' : A -> M B) (w : World) :
  m w = m' w ->
  (forall a w1, m w = (Normal a, w1) -> k a w1 = k' a w1) ->
  bind m k w = bind m' k' w.
Proof.
  intros Hm Hk. unfold bind. rewrite <- Hm.
  destruct (m w) as [[a|message] w1]; [now apply Hk | reflexivity].
Qed.

Lemma notified_ignored (depth : nat) (price trade rsi : chart) (p : Pane)
  (w : World) :
  isUpdatingTimeScale (refs w) = true ->
  notified (S depth) price trade rsi p w = (Normal tt, w).
Proof.
  intros Hguard. cbn [notified]. unfold bind, getRefs.
  now rewrite Hguard.
Qed.

Lemma forEach_notified (depth : nat) (price trade rsi : chart)
  (range : LogicalRange.t) (l : list Pane) (w : World) :
  isUpdatingTimeScale (refs w) = true ->
  forEach l
    (fun q =>
       bind (call (setVisibleLogicalRange (chartOf price trade rsi q) range))
         (fun _ => notified (S depth) price trade rsi q)) w
  = forEach (map (chartOf price trade rsi) l)
      (fun c => call (setVisibleLogicalRange c range)) w.
Proof.
  revert w. induction l as [|q l IH]; intros w Hguard; [reflexivity|].
  cbn [forEach map]. unfold bind at 1 2 4.
  match goal with
  | |- context [call ?op w] =>
      destruct (call_world op w) as (_ & Hrefs & _);
      destruct (call op w) as [[[]|message] w1]
  end; cbn [snd] in *; [|reflexivity].
  rewrite notified_ignored by congruence.
  apply IH. congruence.
Qed.

End SyncFrame.

(** X7. The synchronisation callback changes the guard and the library's
    state and nothing else, whether it returns or throws: the state cells,
    the chart instances, the series refs and the requests in flight are as
    before. *)
Theorem sync_changes_guard_only {chart series lib : Type}
  (library : ChartLibrary chart series lib) (sourceChart : chart)
  (targetCharts : list chart) (w : World chart series lib) :
  app (snd (onVisibleTimeRangeChange sourceChart targetCharts w)) = app w
  /\ same_but_guard (refs w)
       (refs (snd (onVisibleTimeRangeChange sourceChart targetCharts w)))
  /\ inflight (snd (onVisibleTimeRangeChange sourceChart targetCharts w))
     = inflight w.
Proof.
  apply onVisibleTimeRangeChange_frame.
Qed.

(** X8. The guard stops the feedback between the panes.  When the library
    calls the callback of a target pane from inside
    [setVisibleLogicalRange], with two stack frames or more the outcome and
    the world are those of the callback run alone: the nested notifications
    change nothing, apply no range and never run out of stack. *)
Theorem nested_notifications_change_nothing {chart series lib : Type}
  (library : ChartLibrary chart series lib) (depth : nat)
  (price trade rsi : chart) (p : Pane) (w : World chart series lib) :
  notified (S (S depth)) price trade rsi p w = rangeChanged price trade rsi p w.
Proof.
  unfold rangeChanged, onVisibleTimeRangeChange.
  cbn [notified].
  apply bind_same; [reflexivity|].
  intros r w0 Hrefs. injection Hrefs as <- <-.
  destruct (isUpdatingTimeScale (refs w)) eqn:Hguard; [reflexivity|].
  apply bind_same; [reflexivity|].
  intros [] w1 Hset. injection Hset as <-.
  apply bind_same; [reflexivity|].
  intros timeRange w2 Hcall.
  apply bind_same; [|reflexivity].
  destruct timeRange as [range|]; [|reflexivity].
  apply forEach_notified.
  match type of Hcall with
  | call ?op ?w1 = _ => destruct (call_world op w1) as (_ & Hrefs & _)
  end.
  rewrite Hcall in Hrefs. cbn [snd] in Hrefs. rewrite Hrefs. reflexivity.
Qed.

(** ** Events *)

Section EventFacts.
Context `{Host} {chart series lib : Type} `{ChartLibrary chart series lib}.
Local Abbreviation World := (World chart series lib).
Local Abbreviation M := (@M chart series lib).

Lemma bind_blind {A B : Type} (m : M A) (k : A -> M B) :
  inflight_blind m -> (forall a, inflight_blind (k a)) ->
  inflight_blind (bind m k).
Proof.
  intros Hm Hk w i. unfold bind. rewrite (Hm w i).
  destruct (m w) as [[a|message] w1]; cbn [fst snd]; [apply Hk | reflexivity].
Qed.

Lemma call_blind {A : Type} (op : lib -> completion A * lib) :
  inflight_blind (call op : M A).
Proof.
  intros w i. unfold call, with_inflight. cbn [charts].
  now destruct (op (charts w)).
Qed.

Lemma setRefs_blind f : inflight_blind (setRefs f : M unit).
Proof.
  intros w i. reflexivity.
Qed.

Lemma setState_blind f : inflight_blind (setState f : M unit).
Proof.
  intros w i. reflexivity.
Qed.

Lemma getRefs_blind : inflight_blind (getRefs : M _).
Proof.
  intros w i. reflexivity.
Qed.

Lemma getApp_blind : inflight_blind (getApp : M _).
Proof.
  intros w i. reflexivity.
Qed.

Lemma ret_blind {A : Type} (a : A) : inflight_blind (ret a : M A).
Proof.
  intros w i. reflexivity.
Qed.

Lemma throw_blind {A : Type} (err : exception) :
  inflight_blind (throw err : M A).
Proof.
  intros w i. reflexivity.
Qed.

Lemma try_catch_blind (body : M unit) (handler : exception -> M unit) :
  inflight_blind body -> (forall message, inflight_blind (handler message)) ->
  inflight_blind (try_catch body handler).
Proof.
  intros Hbody Hhandler w i. unfold try_catch. rewrite (Hbody w i).
  destruct (body w) as [[[]|message] w1]; cbn [fst snd];
    [reflexivity | apply Hhandler].
Qed.

Lemma clearSeries_blind c ref with_ref :
  inflight_blind (clearSeries c ref with_ref).
Proof.
  unfold clearSeries. apply bind_blind; [apply getRefs_blind|].
  intros r. destruct (ref r); [|apply ret_blind].
  apply bind_blind; [apply call_blind|]. intros _. apply setRefs_blind.
Qed.

Ltac blind_step :=
  match goal with
  | |- inflight_blind (bind _ _) => apply bind_blind; [|intros ?]
  | |- inflight_blind (clearSeries _ _ _) => apply clearSeries_blind
  | |- inflight_blind (call _) => apply call_blind
  | |- inflight_blind (setRefs _) => apply setRefs_blind
  | |- inflight_blind (throw _) => apply throw_blind
  end.

Lemma refreshCharts_blind pc tc rc sigs trs :
  inflight_blind (refreshCharts pc tc rc sigs trs).
Proof.
  unfold refreshCharts, showCharts.
  destruct (Nat.eqb (List.length (priceData sigs)) 0); repeat blind_step.
Qed.

Lemma showUpdateError_blind (err : exception) :
  inflight_blind (showUpdateError err : M unit).
Proof.
  unfold showUpdateError, messageOf.
  apply bind_blind; [|intros message; apply setState_blind].
  destruct err as [v|message]; [|apply ret_blind].
  destruct (loose_eq_null v); [apply throw_blind | apply ret_blind].
Qed.

Lemma updateCharts_blind : inflight_blind (updateCharts : M unit).
Proof.
  unfold updateCharts.
  apply bind_blind; [apply getApp_blind|]. intros a.
  apply bind_blind; [apply getRefs_blind|]. intros r.
  destruct (Nat.ltb 0 (List.length (signals a))); [|apply ret_blind].
  destruct (priceChartInstance r); [|apply ret_blind].
  destruct (tradeChartInstance r); [|apply ret_blind].
  destruct (rsiChartInstance r); [|apply ret_blind].
  apply try_catch_blind; [apply refreshCharts_blind|].
  apply showUpdateError_blind.
Qed.

(** What follows the [settled] bookkeeping of a response. *)
Lemma afterSignals_blind response :
  inflight_blind
    (bind (onSignals response)
       (fun _ => if isSome response then updateCharts else ret tt) : M unit).
Proof.
  apply bind_blind.
  - destruct response; [|apply setState_blind].
    apply bind_blind; [apply setState_blind|]. intros _. apply setState_blind.
  - intros _. destruct response; [apply updateCharts_blind | apply ret_blind].
Qed.

Lemma afterTrades_blind response :
  inflight_blind
    (bind (onTrades response)
       (fun _ => if isSome response then updateCharts else ret tt) : M unit).
Proof.
  apply bind_blind.
  - destruct response; apply setState_blind.
  - intros _. destruct response; [apply updateCharts_blind | apply ret_blind].
Qed.

Lemma settled_then {A : Type} (f : Fetch) (rest : M A) (w : World) :
  inflight_blind rest ->
  bind (settled f) (fun _ => rest) w
  = (fst (rest w), with_inflight (remove_first f (inflight w)) (snd (rest w))).
Proof.
  intros Hrest. unfold bind, settled.
  apply (Hrest w (remove_first f (inflight w))).
Qed.

Lemma updateCharts_outcome (w : World) :
  normal_or_nullish (fst (updateCharts w)).
Proof.
  destruct (updateCharts w) as [[[]|err] w'] eqn:Hupdate; [now left|].
  destruct (updateCharts_throws w w' err Hupdate) as (v & Hv & Hraised & -> & _).
  right. exists v. repeat split; assumption.
Qed.

Lemma handle_non_range_outcome (e : Event) (w : World) :
  (forall p, e <> VisibleRangeChanged p) -> normal_or_nullish (fst (handle e w)).
Proof.
  intros Hrange.
  destruct e as [run_id|response|run_id response|run_id response
                |run_id response|run_id response|p];
    [| | | | | |now destruct (Hrange p)].
  - cbv [handle bind getApp setSelectedRunId setState].
    cbn [app].
    destruct (String.eqb (selectedRunId (app w)) run_id); [now left|].
    cbv [fetchRun bind getApp fetch setSignals setTrades setMetrics
           setFinalPortfolioValue setError setState].
    cbn [app selectedRunId with_selectedRunId].
    destruct (truthy (VStr run_id)); [now left|].
    apply updateCharts_outcome.
  - cbv [handle bind settled onRuns setRuns setState].
    destruct response; now left.
  - cbv [handle bind settled onSignals setSignals setError setState isSome].
    destruct response; [apply updateCharts_outcome | now left].
  - cbv [handle bind settled onTrades setTrades setError setState isSome].
    destruct response; [apply updateCharts_outcome | now left].
  - cbv [handle bind settled onMetrics setMetrics setError setState].
    destruct response; now left.
  - cbv [handle bind settled onPortfolioFinal setFinalPortfolioValue setError
           setState].
    destruct response; now left.
Qed.

Lemma updateCharts_refs (w : World) :
  same_charts_and_guard (refs w) (refs (snd (updateCharts w))).
Proof.
  apply updateCharts_frame.
Qed.

Lemma updateCharts_inflight (w : World) :
  inflight (snd (updateCharts w)) = inflight w.
Proof.
  apply updateCharts_frame.
Qed.

Lemma handle_non_range_refs (e : Event) (w : World) :
  (forall p, e <> VisibleRangeChanged p) ->
  same_charts_and_guard (refs w) (refs (snd (handle e w))).
Proof.
  intros Hrange.
  destruct e as [run_id|response|run_id response|run_id response
                |run_id response|run_id response|p];
    [| | | | | |now destruct (Hrange p)].
  - cbv [handle bind getApp setSelectedRunId setState].
    cbn [app].
    destruct (String.eqb (selectedRunId (app w)) run_id);
      [apply same_charts_and_guard_refl|].
    cbv [fetchRun bind getApp fetch setSignals setTrades setMetrics
           setFinalPortfolioValue setError setState].
    cbn [app selectedRunId with_selectedRunId].
    destruct (truthy (VStr run_id)); [apply same_charts_and_guard_refl|].
    match goal with
    | |- context [updateCharts ?w1] => apply (updateCharts_refs w1)
    end.
  - cbv [handle bind settled onRuns setRuns setState].
    destruct response; apply same_charts_and_guard_refl.
  - cbv [handle bind settled onSignals setSignals setError setState isSome].
    destruct response; [|apply same_charts_and_guard_refl].
    match goal with
    | |- context [updateCharts ?w1] => apply (updateCharts_refs w1)
    end.
  - cbv [handle bind settled onTrades setTrades setError setState isSome].
    destruct response; [|apply same_charts_and_guard_refl].
    match goal with
    | |- context [updateCharts ?w1] => apply (updateCharts_refs w1)
    end.
  - cbv [handle bind settled onMetrics setMetrics setError setState].
    destruct response; apply same_charts_and_guard_refl.
  - cbv [handle bind settled onPortfolioFinal setFinalPortfolioValue setError
           setState].
    destruct response; apply same_charts_and_guard_refl.
Qed.

Lemma handle_range_refs (p : Pane) (w : World) :
  same_but_guard (refs w) (refs (snd (handle (VisibleRangeChanged p) w))).
Proof.
  cbv [handle]. unfold bind, getRefs.
  destruct (priceChartInstance (refs w)) as [pc|];
    [|unfold same_but_guard; repeat split; reflexivity].
  destruct (tradeChartInstance (refs w)) as [tc|];
    [|unfold same_but_guard; repeat split; reflexivity].
  destruct (rsiChartInstance (refs w)) as [rc|];
    [|unfold same_but_guard; repeat split; reflexivity].
  apply onVisibleTimeRangeChange_frame.
Qed.

Lemma remove_first_Forall (P : Fetch -> Prop) (f : Fetch) (l : list Fetch) :
  Forall P l -> Forall P (remove_first f l).
Proof.
  induction 1 as [|g l Hg Hl IH]; [constructor|].
  cbn [remove_first]. destruct (Fetch_eqb f g); [exact Hl | now constructor].
Qed.

Lemma truthy_run_id (run_id : string) :
  truthy (VStr run_id) = true -> run_id <> "".
Proof.
  cbn. intros Htruthy ->. discriminate.
Qed.

Lemma handle_inflight (e : Event) (w : World) :
  Forall for_a_run (inflight w) ->
  Forall for_a_run (inflight (snd (handle e w))).
Proof.
  intros Hw.
  destruct e as [run_id|response|run_id response|run_id response
                |run_id response|run_id response|p].
  - cbv [handle bind getApp setSelectedRunId setState].
    cbn [app].
    destruct (String.eqb (selectedRunId (app w)) run_id); [exact Hw|].
    cbv [fetchRun bind getApp fetch setSignals setTrades setMetrics
           setFinalPortfolioValue setError setState].
    cbn [app selectedRunId with_selectedRunId].
    destruct (truthy (VStr run_id)) eqn:Htruthy.
    + cbn [snd inflight refs charts app].
      apply truthy_run_id in Htruthy.
      repeat (apply Forall_app; split); try exact Hw;
        (constructor; [right; exact Htruthy | constructor]).
    + match goal with
      | |- context [updateCharts ?w1] => rewrite (updateCharts_inflight w1)
      end.
      exact Hw.
  - cbv [handle bind settled onRuns setRuns setState].
    destruct response; now apply remove_first_Forall.
  - cbv [handle bind settled onSignals setSignals setError setState isSome].
    destruct response; [|now apply remove_first_Forall].
    match goal with
    | |- context [updateCharts ?w1] => rewrite (updateCharts_inflight w1)
    end.
    now apply remove_first_Forall.
  - cbv [handle bind settled onTrades setTrades setError setState isSome].
    destruct response; [|now apply remove_first_Forall].
    match goal with
    | |- context [updateCharts ?w1] => rewrite (updateCharts_inflight w1)
    end.
    now apply remove_first_Forall.
  - cbv [handle bind settled onMetrics setMetrics setError setState].
    destruct response; now apply remove_first_Forall.
  - cbv [handle bind settled onPortfolioFinal setFinalPortfolioValue setError
           setState].
    destruct response; now apply remove_first_Forall.
  - cbv [handle]. unfold bind, getRefs.
    destruct (priceChartInstance (refs w)) as [pc|]; [|exact Hw].
    destruct (tradeChartInstance (refs w)) as [tc|]; [|exact Hw].
    destruct (rsiChartInstance (refs w)) as [rc|]; [|exact Hw].
    unfold rangeChanged.
    match goal with
    | |- context [onVisibleTimeRangeChange ?s ?t ?w1] =>
        destruct (onVisibleTimeRangeChange_frame s t w1) as (_ & _ & ->)
    end.
    exact Hw.
Qed.

End EventFacts.

Section ErrorCell.
Context `{Host} {chart series lib : Type} `{ChartLibrary chart series lib}.
Local Abbreviation World := (World chart series lib).

(** After the chart-update effect the error is the one before it or the
    message of a failed refresh. *)
Lemma updateCharts_error (w : World) :
  error (app (snd (updateCharts w))) = error (app w)
  \/ exists message,
       error (app (snd (updateCharts w))) = Some (updateFailed message).
Proof.
  unfold updateCharts, bind, getApp, getRefs.
  destruct (Nat.ltb 0 (List.length (signals (app w)))); [|now left].
  destruct (priceChartInstance (refs w)) as [pc|]; [|now left].
  destruct (tradeChartInstance (refs w)) as [tc|]; [|now left].
  destruct (rsiChartInstance (refs w)) as [rc|]; [|now left].
  unfold try_catch.
  pose proof (refreshCharts_keeps pc tc rc (signals (app w)) (trades (app w)) w)
    as Hkeeps.
  destruct (refreshCharts pc tc rc (signals (app w)) (trades (app w)) w)
    as [[[]|err] w1]; cbn [snd] in *.
  - left. now rewrite Hkeeps.
  - pose proof (showUpdateError_outcome err w1) as Hcatch.
    destruct err as [v|message]; [destruct (loose_eq_null v)|];
      rewrite Hcatch; cbn [snd app].
    + left. now rewrite Hkeeps.
    + right. now exists "undefined".
    + right. now exists (ToString message).
Qed.

End ErrorCell.

Lemma on_chart_throws {A : Type} (p : Pane)
  (f : TestCharts.Chart -> A * TestCharts.Chart) (l l' : TestCharts.Charts)
  (err : exception) :
  TestCharts.on_chart p f l = (Throw err, l') -> err = TestCharts.isDisposed.
Proof.
  unfold TestCharts.on_chart.
  destruct (TestCharts.disposed (TestCharts.chart l p)).
  - intros Hcall. injection Hcall as <- _. reflexivity.
  - destruct (f (TestCharts.chart l p)). discriminate.
Qed.

Lemma testCharts_throws_isDisposed (err : exception) :
  raised_by_library (lib := TestCharts.Charts) err -> err = TestCharts.isDisposed.
Proof.
  intros [c x l l' Hcall|c o l l' Hcall|x d l l' Hcall|x m l l' Hcall
         |x o l l' Hcall|c l l' Hcall];
    cbn in Hcall; exact (on_chart_throws _ _ _ _ _ Hcall).
Qed.

(** X9. For responses that are arrays of records, a run selection or a
    callback of a request lets an exception escape in one case only: a call
    of the charting library threw [null] or [undefined] during the chart
    update that followed, and the [catch] block failed on its message.  With
    a library that throws neither, every event other than a visible-range
    change completes normally. *)
Theorem handlers_throw_only (host : Host) {chart series lib : Type}
  (library : ChartLibrary chart series lib) (e : Event)
  (w : World chart series lib) :
  (forall p, e <> VisibleRangeChanged p) ->
  (fst (handle e w) = Normal tt
   \/ exists v,
        loose_eq_null v = true /\ raised_by_library (Thrown v)
        /\ fst (handle e w) = Throw (typeError (CannotRead v "message")))
  /\ ((forall v, raised_by_library (Thrown v) -> loose_eq_null v = false) ->
      fst (handle e w) = Normal tt).
Proof.
  intros Hrange.
  pose proof (handle_non_range_outcome e w Hrange) as Houtcome.
  split; [exact Houtcome|].
  intros Hlibrary. destruct Houtcome as [Hnormal|(v & Hv & Hraised & _)];
    [exact Hnormal|].
  rewrite (Hlibrary v Hraised) in Hv. discriminate.
Qed.

Lemma handlers_throw_only_witness :
  fst (handle (SignalsSettled "R1" (Some Examples.r1_signals))
         Examples.panned_rsi_disposed) = Normal tt.
Proof.
  assert (Hrange : forall p,
             SignalsSettled "R1" (Some Examples.r1_signals)
             <> VisibleRangeChanged p)
    by (intros p; discriminate).
  assert (Hlibrary : forall v,
             raised_by_library (lib := TestCharts.Charts) (Thrown v) ->
             loose_eq_null v = false).
  { intros v Hraised. apply testCharts_throws_isDisposed in Hraised.
    discriminate. }
  destruct (handlers_throw_only testHost testCharts
              (SignalsSettled "R1" (Some Examples.r1_signals))
              Examples.panned_rsi_disposed Hrange) as [_ Hnormal].
  exact (Hnormal Hlibrary).
Defined.

(** X10. No event replaces a chart instance.  An event other than a
    visible-range change leaves the guard as it is, and a visible-range
    change leaves the series refs as they are; so the guard, false before
    an event that completes normally, is false after it. *)
Theorem events_keep_charts_and_guard (host : Host) {chart series lib : Type}
  (library : ChartLibrary chart series lib) (e : Event)
  (w : World chart series lib) :
  (priceChartInstance (refs (snd (handle e w))) = priceChartInstance (refs w)
   /\ tradeChartInstance (refs (snd (handle e w))) = tradeChartInstance (refs w)
   /\ rsiChartInstance (refs (snd (handle e w))) = rsiChartInstance (refs w))
  /\ ((forall p, e <> VisibleRangeChanged p) ->
      isUpdatingTimeScale (refs (snd (handle e w)))
      = isUpdatingTimeScale (refs w))
  /\ (forall p, e = VisibleRangeChanged p ->
      priceSeriesRef (refs (snd (handle e w))) = priceSeriesRef (refs w)
      /\ tradeSeriesRef (refs (snd (handle e w))) = tradeSeriesRef (refs w)
      /\ rsiSeriesRef (refs (snd (handle e w))) = rsiSeriesRef (refs w))
  /\ (isUpdatingTimeScale (refs w) = false ->
      fst (handle e w) = Normal tt ->
      isUpdatingTimeScale (refs (snd (handle e w))) = false).
Proof.
  assert (Hcases : (forall p, e <> VisibleRangeChanged p)
                   \/ exists p, e = VisibleRangeChanged p).
  { destruct e; try (left; intros p; discriminate). right. eauto. }
  destruct Hcases as [Hother|[p ->]].
  - destruct (handle_non_range_refs e w Hother) as (Hp & Ht & Hr & Hg).
    split; [repeat split; congruence|].
    split; [intros _; congruence|].
    split; [intros p Hp'; now destruct (Hother p)|].
    intros Hguard _. congruence.
  - destruct (handle_range_refs p w) as (Hp & Ht & Hr & Hps & Hts & Hrs).
    split; [repeat split; congruence|].
    split; [intros Hother; now destruct (Hother p)|].
    split; [intros _ _; repeat split; congruence|].
    intros Hguard Hnormal.
    cbv [handle] in *. unfold bind, getRefs in *.
    destruct (priceChartInstance (refs w)) as [pc|]; [|exact Hguard].
    destruct (tradeChartInstance (refs w)) as [tc|]; [|exact Hguard].
    destruct (rsiChartInstance (refs w)) as [rc|]; [|exact Hguard].
    unfold rangeChanged in *.
    match goal with
    | |- context [onVisibleTimeRangeChange ?s ?t w] =>
        pose proof (onVisibleTimeRangeChange_guard s t w Hguard) as Hafter;
        destruct (onVisibleTimeRangeChange s t w) as [[[]|message] w']
    end; cbn [fst snd] in *; [exact Hafter | discriminate].
Qed.

Lemma events_keep_charts_and_guard_witness :
  isUpdatingTimeScale
    (refs (snd (handle (VisibleRangeChanged PricePane) Examples.panned)))
  = false.
Proof.
  assert (Hguard : isUpdatingTimeScale (refs Examples.panned) = false)
    by (vm_compute; reflexivity).
  assert (Hnormal : fst (handle (VisibleRangeChanged PricePane) Examples.panned)
                    = Normal tt) by (vm_compute; reflexivity).
  destruct (events_keep_charts_and_guard testHost testCharts
              (VisibleRangeChanged PricePane) Examples.panned)
    as (_ & _ & _ & Hafter).
  exact (Hafter Hguard Hnormal).
Defined.

(** X11. A response is not matched against the selected run: whichever run
    the request was made for, the same response gives the same outcome, the
    same state cells, the same refs and the same charts.  A late response
    for a run that is no longer selected is applied like a current one. *)
Theorem responses_ignore_their_run (host : Host) {chart series lib : Type}
  (library : ChartLibrary chart series lib) (w : World chart series lib)
  (run_id run_id' : string) :
  (forall response,
     fst (handle (SignalsSettled run_id response) w)
     = fst (handle (SignalsSettled run_id' response) w)
     /\ same_but_inflight (snd (handle (SignalsSettled run_id response) w))
          (snd (handle (SignalsSettled run_id' response) w)))
  /\ (forall response,
        fst (handle (TradesSettled run_id response) w)
        = fst (handle (TradesSettled run_id' response) w)
        /\ same_but_inflight (snd (handle (TradesSettled run_id response) w))
             (snd (handle (TradesSettled run_id' response) w)))
  /\ (forall response,
        same_but_inflight (snd (handle (MetricsSettled run_id response) w))
          (snd (handle (MetricsSettled run_id' response) w)))
  /\ (forall response,
        same_but_inflight
          (snd (handle (PortfolioFinalSettled run_id response) w))
          (snd (handle (PortfolioFinalSettled run_id' response) w))).
Proof.
  split; [|split; [|split]].
  - intros response. cbn [handle].
    rewrite !(settled_then _ _ w (afterSignals_blind response)).
    cbn [fst snd]. unfold same_but_inflight, with_inflight. cbn.
    repeat split; reflexivity.
  - intros response. cbn [handle].
    rewrite !(settled_then _ _ w (afterTrades_blind response)).
    cbn [fst snd]. unfold same_but_inflight, with_inflight. cbn.
    repeat split; reflexivity.
  - intros response. unfold same_but_inflight.
    destruct response; cbn; repeat split; reflexivity.
  - intros response. unfold same_but_inflight.
    destruct response; cbn; repeat split; reflexivity.
Qed.

(** X12. The error of a failed request outlives a trades response but not
    the others.  After a successful signals response the error is empty or
    the message of a failed chart refresh; after a successful metrics or
    final-value response it is empty; after a successful trades response an
    error that was shown is still shown, or replaced by the message of a
    failed chart refresh. *)
Theorem error_after_a_response (host : Host) {chart series lib : Type}
  (library : ChartLibrary chart series lib) (w : World chart series lib)
  (run_id : string) :
  (forall data,
     let e' := error (app (snd (handle (SignalsSettled run_id (Some data)) w))) in
     e' = None \/ exists message, e' = Some (updateFailed message))
  /\ (forall data,
        error (app (snd (handle (MetricsSettled run_id (Some data)) w))) = None)
  /\ (forall total,
        error (app (snd (handle (PortfolioFinalSettled run_id (Some total)) w)))
        = None)
  /\ (forall data,
        let e' := error (app (snd (handle (TradesSettled run_id (Some data)) w))) in
        e' = error (app w) \/ exists message, e' = Some (updateFailed message)).
Proof.
  split; [|split; [|split]].
  - intros data e'. subst e'.
    cbv [handle bind settled onSignals setSignals setError setState isSome].
    cbn [app refs charts inflight].
    match goal with
    | |- context [updateCharts ?w1] =>
        destruct (updateCharts_error w1) as [-> | [message ->]]
    end; [left; reflexivity | right; eauto].
  - intros data. reflexivity.
  - intros total. reflexivity.
  - intros data e'. subst e'.
    cbv [handle bind settled onTrades setTrades setState isSome].
    cbn [app refs charts inflight].
    match goal with
    | |- context [updateCharts ?w1] =>
        destruct (updateCharts_error w1) as [-> | [message ->]]
    end; [left; reflexivity | right; eauto].
Qed.

Section Requests.
Context `{Host} {chart series lib : Type} `{ChartLibrary chart series lib}.

Lemma run_events_inflight (es : list Event) (w w' : World chart series lib) :
  Forall for_a_run (inflight w) -> run_events es w = Some w' ->
  Forall for_a_run (inflight w').
Proof.
  revert w. induction es as [|e es IH]; intros w Hw Hrun.
  - injection Hrun as <-. exact Hw.
  - cbn [run_events] in Hrun. unfold step in Hrun.
    destruct (enabled e w); [|discriminate].
    apply (IH (snd (handle e w))); [now apply handle_inflight | exact Hrun].
Qed.

End Requests.

(** X13. A request for signals, trades, metrics or the final value is never
    made for the empty run id: if that holds of the requests in flight
    before a sequence of events, it holds of those in flight after it. *)
Theorem no_request_for_the_empty_run (host : Host) {chart series lib : Type}
  (library : ChartLibrary chart series lib) (es : list Event)
  (w w' : World chart series lib) :
  Forall for_a_run (inflight w) -> run_events es w = Some w' ->
  Forall for_a_run (inflight w').
Proof.
  apply run_events_inflight.
Qed.

Lemma no_request_for_the_empty_run_witness :
  Forall for_a_run
    (inflight (snd (handle (RunSelected "R2") Examples.r1_loaded))).
Proof.
  assert (Hstart : Forall for_a_run (inflight Examples.mounted))
    by constructor.
  assert (Hrun : run_events (Examples.r1_loaded_events ++ [RunSelected "R2"])
                   Examples.mounted
                 = Some (snd (handle (RunSelected "R2") Examples.r1_loaded)))
    by (vm_compute; reflexivity).
  exact (no_request_for_the_empty_run testHost testCharts _ _ _ Hstart Hrun).
Defined.

(** ** The metrics table and the formatter *)

Lemma string_length_app (s1 s2 : string) :
  String.length (s1 ++ s2) = (String.length s1 + String.length s2)%nat.
Proof.
  induction s1 as [|c s1 IH]; [reflexivity|].
  cbn. now rewrite IH.
Qed.

Lemma length_zeros (k : nat) : String.length (zeros k) = k.
Proof.
  induction k as [|k IH]; [reflexivity|].
  cbn. now rewrite IH.
Qed.

Lemma substring_whole (s : string) : substring 0 (String.length s) s = s.
Proof.
  induction s as [|c s IH]; [reflexivity|].
  cbn. now rewrite IH.
Qed.

Lemma substring_split (s : string) (n : nat) :
  (n <= String.length s)%nat ->
  substring 0 n s ++ substring n (String.length s - n) s = s.
Proof.
  revert n. induction s as [|c s IH]; intros n Hn.
  - destruct n; [reflexivity | cbn in Hn; lia].
  - destruct n as [|n].
    + cbn [substring append]. cbn [String.length Nat.sub].
      cbn [substring]. now rewrite substring_whole.
    + cbn [String.length] in *. cbn [substring append Nat.sub].
      f_equal. apply IH. lia.
Qed.

Lemma substring_length (s : string) (n m : nat) :
  (n + m <= String.length s)%nat -> String.length (substring n m s) = m.
Proof.
  revert n m. induction s as [|c s IH]; intros n m Hlen.
  - cbn in Hlen. assert (n = 0%nat) by lia. assert (m = 0%nat) by lia.
    subst. reflexivity.
  - destruct n as [|n].
    + destruct m as [|m]; [reflexivity|].
      cbn [substring String.length]. f_equal. apply IH.
      cbn [String.length] in Hlen. lia.
    + cbn [substring]. apply IH. cbn [String.length] in Hlen. lia.
Qed.

Lemma padded_length (f : nat) (n : Z) : (S f <= String.length (padded f n))%nat.
Proof.
  unfold padded. rewrite string_length_app, length_zeros. lia.
Qed.

Lemma toFixed_digits_shape (f : nat) (q : Q) :
  f <> 0%nat ->
  let n := Qfloor (Qabs q * inject_Z (10 ^ Z.of_nat f) + (1 # 2))%Q in
  exists whole fraction,
    toFixed_digits f q = whole ++ "." ++ fraction
    /\ String.length fraction = f
    /\ (1 <= String.length whole)%nat
    /\ whole ++ fraction = padded f n.
Proof.
  intros Hf n. unfold toFixed_digits. fold n. fold (padded f n).
  pose proof (padded_length f n) as Hlen.
  destruct (Nat.eqb f 0) eqn:Hzero; [apply Nat.eqb_eq in Hzero; congruence|].
  exists (substring 0 (String.length (padded f n) - f) (padded f n)).
  exists (substring (String.length (padded f n) - f) f (padded f n)).
  split; [reflexivity|].
  split; [apply substring_length; lia|].
  split; [rewrite substring_length; lia|].
  pose proof (substring_split (padded f n) (String.length (padded f n) - f))
    as Hsplit.
  replace (String.length (padded f n) - (String.length (padded f n) - f))%nat
    with f in Hsplit by lia.
  apply Hsplit. lia.
Qed.

Lemma property_missing (m : Metrics) (key : string) :
  hasProperty m key = false -> property m key = VUndefined.
Proof.
  induction m as [|[k v] m IH]; [reflexivity|].
  cbn. destruct (String.eqb k key); [discriminate|]. exact IH.
Qed.

(** X14. Under every key with a percent, ratio, duration or currency rule
    a finite value below 10^21 is written with its sign, at least one digit,
    a point and exactly two digits: the digits of the integer nearest to a
    hundred times its absolute value (the larger one on a tie), with zeros
    in front up to three digits.  The percent keys get ["%"] after it, the
    duration key [" min"], the currency key the rupee sign in front. *)
Theorem formatted_with_two_decimals (host : Host) (q : Q) (key : string) :
  Qle_bool (inject_Z (10 ^ 21)) (Qabs q) = false ->
  exists (n : Z) (whole fraction : string),
    nearest_integer (Qabs q * inject_Z 100) n
    /\ whole ++ fraction = padded 2 n
    /\ String.length fraction = 2%nat
    /\ (1 <= String.length whole)%nat
    /\ let text := (if Q_is_neg q then "-" else "") ++ whole ++ "." ++ fraction in
       (includes percent_keys (VStr key) = true ->
          formatMetric (VNum (Fin q)) key = VStr (text ++ "%"))
       /\ (includes ratio_keys (VStr key) = true ->
             formatMetric (VNum (Fin q)) key = VStr text)
       /\ formatMetric (VNum (Fin q)) "avg_trade_duration" = VStr (text ++ " min")
       /\ formatMetric (VNum (Fin q)) "final_portfolio_value" = VStr ("₹" ++ text).
Proof.
  intros Hsmall.
  destruct (toFixed_digits_shape 2 q) as (whole & fraction & Hdigits & Hlen
                                          & Hwhole & Hpadded);
    [discriminate|].
  exists (Qfloor (Qabs q * inject_Z (10 ^ Z.of_nat 2) + (1 # 2))%Q), whole, fraction.
  split; [apply Math_round_nearest|].
  split; [exact Hpadded|]. split; [exact Hlen|]. split; [exact Hwhole|].
  assert (Hfixed : toFixed (Fin q) 2
                   = (if Q_is_neg q then "-" else "") ++ whole ++ "." ++ fraction).
  { unfold toFixed. rewrite Hsmall, Hdigits. reflexivity. }
  cbv zeta. unfold formatMetric, Number. cbn [loose_eq_null ToNumber].
  rewrite Hfixed.
  split; [|split; [|split]].
  - intros Hkey.
    destruct (includes date_keys (VStr key)) eqn:Hdate; [|now rewrite Hkey].
    exfalso. revert Hdate Hkey. cbn.
    repeat match goal with
           | |- context [String.eqb key ?k] =>
               destruct (String.eqb_spec key k); [subst; cbn; try discriminate|]
           end; discriminate.
  - intros Hkey.
    destruct (includes date_keys (VStr key)) eqn:Hdate;
      [|destruct (includes percent_keys (VStr key)) eqn:Hpercent;
        [|now rewrite Hkey]];
      exfalso; revert Hdate Hkey; try revert Hpercent; cbn;
      repeat match goal with
             | |- context [String.eqb key ?k] =>
                 destruct (String.eqb_spec key k); [subst; cbn; try discriminate|]
             end; discriminate.
  - reflexivity.
  - reflexivity.
Qed.

Lemma formatted_with_two_decimals_witness :
  exists (n : Z) (whole fraction : string),
    nearest_integer (Qabs (12345 # 1000) * inject_Z 100) n
    /\ whole ++ fraction = padded 2 n
    /\ String.length fraction = 2%nat
    /\ (1 <= String.length whole)%nat
    /\ let text := (if Q_is_neg (12345 # 1000) then "-" else "")
                   ++ whole ++ "." ++ fraction in
       (includes percent_keys (VStr "max_drawdown") = true ->
          formatMetric (VNum (Fin (12345 # 1000))) "max_drawdown"
          = VStr (text ++ "%"))
       /\ (includes ratio_keys (VStr "max_drawdown") = true ->
             formatMetric (VNum (Fin (12345 # 1000))) "max_drawdown" = VStr text)
       /\ formatMetric (VNum (Fin (12345 # 1000))) "avg_trade_duration"
          = VStr (text ++ " min")
       /\ formatMetric (VNum (Fin (12345 # 1000))) "final_portfolio_value"
          = VStr ("₹" ++ text).
Proof.
  apply (formatted_with_two_decimals testHost (12345 # 1000) "max_drawdown").
  reflexivity.
Defined.

(** X15. A value that is not null and does not convert to a Number is not
    turned away: under the percent, ratio, duration and currency keys the
    text is built on ["NaN"], and under a key without a string rule the
    result is the Number NaN. *)
Theorem not_a_number_is_formatted (host : Host) (value : jsval) (key : string) :
  loose_eq_null value = false -> number_isNaN (ToNumber value) = true ->
  (includes percent_keys (VStr key) = true ->
     formatMetric value key = VStr "NaN%")
  /\ (includes ratio_keys (VStr key) = true ->
        formatMetric value key = VStr "NaN")
  /\ formatMetric value "avg_trade_duration" = VStr "NaN min"
  /\ formatMetric value "final_portfolio_value" = VStr "₹NaN"
  /\ (includes string_keys (VStr key) = false ->
        formatMetric value key = VNum NaN).
Proof.
  intros Hvalue Hnan.
  assert (Hnumber : ToNumber value = NaN)
    by (destruct (ToNumber value); [reflexivity | discriminate | discriminate]).
  unfold formatMetric, Number. rewrite Hvalue, Hnumber.
  split; [|split; [|split; [|split]]].
  - intros Hkey.
    destruct (includes date_keys (VStr key)) eqn:Hdate; [|now rewrite Hkey].
    exfalso. revert Hdate Hkey. cbn.
    repeat match goal with
           | |- context [String.eqb key ?k] =>
               destruct (String.eqb_spec key k); [subst; cbn; try discriminate|]
           end; discriminate.
  - intros Hkey.
    destruct (includes date_keys (VStr key)) eqn:Hdate;
      [|destruct (includes percent_keys (VStr key)) eqn:Hpercent;
        [|now rewrite Hkey]];
      exfalso; revert Hdate Hkey; try revert Hpercent; cbn;
      repeat match goal with
             | |- context [String.eqb key ?k] =>
                 destruct (String.eqb_spec key k); [subst; cbn; try discriminate|]
             end; discriminate.
  - reflexivity.
  - reflexivity.
  - unfold string_keys. rewrite !includes_app. intros Hkey.
    apply orb_false_iff in Hkey. destruct Hkey as [-> Hkey].
    apply orb_false_iff in Hkey. destruct Hkey as [-> Hkey].
    apply orb_false_iff in Hkey. destruct Hkey as [-> Hkey].
    cbn [includes existsb orb] in Hkey.
    apply orb_false_iff in Hkey. destruct Hkey as [-> Hkey].
    apply orb_false_iff in Hkey. destruct Hkey as [-> _].
    reflexivity.
Qed.

Lemma not_a_number_is_formatted_witness :
  formatMetric (VStr "n/a") "avg_trade_duration" = VStr "NaN min".
Proof.
  assert (Hvalue : loose_eq_null (VStr "n/a") = false) by reflexivity.
  assert (Hnan : number_isNaN (ToNumber (VStr "n/a")) = true)
    by (vm_compute; reflexivity).
  destruct (not_a_number_is_formatted testHost (VStr "n/a") "total_trades"
              Hvalue Hnan) as (_ & _ & Hduration & _).
  exact Hduration.
Defined.

(** X16. A row of the table whose key the metrics object lacks shows
    ["N/A"], and so does a row whose property is null; the row of the final
    value is formatted from the final-value cell whatever the metrics object
    holds under that key. *)
Theorem missing_metric_is_not_available (host : Host) (a : AppState)
  (m : Metrics) (key : string) :
  metrics a = Some m -> key <> "final_portfolio_value" ->
  (hasProperty m key = false -> metricCell a key = Some (VStr "N/A"))
  /\ (property m key = VNull -> metricCell a key = Some (VStr "N/A"))
  /\ metricCell a "final_portfolio_value"
     = Some (formatMetric (finalPortfolioValue a) "final_portfolio_value").
Proof.
  intros Hmetrics Hkey. unfold metricCell. rewrite Hmetrics.
  destruct (String.eqb_spec key "final_portfolio_value") as [|_]; [congruence|].
  split; [|split].
  - intros Hmissing. now rewrite (property_missing m key Hmissing).
  - intros ->. reflexivity.
  - reflexivity.
Qed.

Lemma missing_metric_is_not_available_witness :
  metricCell (app Examples.r1_loaded) "calmar_ratio" = Some (VStr "N/A").
Proof.
  assert (Hmetrics : metrics (app Examples.r1_loaded) = Some Examples.r1_metrics)
    by (vm_compute; reflexivity).
  assert (Hkey : "calmar_ratio" <> "final_portfolio_value") by discriminate.
  destruct (missing_metric_is_not_available testHost (app Examples.r1_loaded)
              Examples.r1_metrics "calmar_ratio" Hmetrics Hkey)
    as (Hmissing & _).
  apply Hmissing. reflexivity.
Defined.

(** X17. The table is left out exactly when there is no metrics object and
    the final value is null.  When it is rendered it has the twelve rows of
    [metricDisplay] in order; and without a metrics object the row of the
    final value is the only one with a value, so a final-value response
    that arrives first, even one without a total, brings up the table. *)
Theorem metrics_table_rows (host : Host) (a : AppState) :
  (metricsTable a = None <->
   metrics a = None /\ finalPortfolioValue a = VNull)
  /\ (forall rows, metricsTable a = Some rows ->
        map fst rows = map snd metricDisplay
        /\ (metrics a = None ->
            forall label cell, In (label, cell) rows ->
              (label = "Final Portfolio Value"
               /\ cell = Some (formatMetric (finalPortfolioValue a)
                                 "final_portfolio_value"))
              \/ (label <> "Final Portfolio Value" /\ cell = None)))
  /\ (metrics a = None -> finalPortfolioValue a = VUndefined ->
      exists rows, metricsTable a = Some rows
                   /\ In ("Final Portfolio Value", Some (VStr "N/A")) rows).
Proof.
  unfold metricsTable.
  split; [|split].
  - destruct (metrics a) as [m|]; cbn [isSome orb].
    + split; [discriminate | intros [Hm _]; discriminate].
    + destruct (finalPortfolioValue a); cbn [strict_neq_null];
        split; try discriminate; try tauto; intros [_ Hv]; discriminate.
  - intros rows Hrows.
    destruct (isSome (metrics a) || strict_neq_null (finalPortfolioValue a));
      [|discriminate].
    injection Hrows as <-.
    split; [reflexivity|].
    intros Hnone label cell Hin.
    unfold metricCell in Hin. rewrite Hnone in Hin.
    cbn in Hin.
    repeat (destruct Hin as [Hin|Hin];
            [injection Hin as <- <-;
             first [left; split; reflexivity | right; split; [discriminate|reflexivity]]
            |]).
    destruct Hin.
  - intros Hnone Hundefined. rewrite Hnone, Hundefined. cbn [isSome orb strict_neq_null].
    eexists. split; [reflexivity|].
    unfold metricCell. rewrite Hundefined. cbn. left. reflexivity.
Qed.

(** ** The initialisation of the charts *)

Section InitFacts.
Context `{Host} {chart series lib : Type} `{ChartLibrary chart series lib}
  `{ChartFactory chart lib}.
Local Abbreviation World := (World chart series lib).
Local Abbreviation M := (@M chart series lib).

Lemma createCharts_completed (priceEl tradeEl rsiEl : Container)
  (w w' : World) :
  createCharts priceEl tradeEl rsiEl w = (Normal tt, w') ->
  app w' = app w
  /\ exists price trade rsi,
       priceChartInstance (refs w') = Some price
       /\ tradeChartInstance (refs w') = Some trade
       /\ rsiChartInstance (refs w') = Some rsi.
Proof.
  unfold createCharts, syncTimeScales. intros Hrun.
  repeat (apply bind_normal_inv in Hrun;
          let a := fresh "a" in
          let w1 := fresh "w" in
          let Hstep := fresh "Hstep" in
          destruct Hrun as (a & w1 & Hstep & Hrun)).
  repeat match goal with
         | Hc : call _ _ = (Normal _, _) |- _ =>
             apply call_normal_inv in Hc; destruct Hc as [? ?]
         | Hc : setRefs _ _ = (Normal _, _) |- _ =>
             apply setRefs_inv in Hc; destruct Hc as [? ?]
         end.
  split; [congruence|].
  repeat match goal with
         | Hr : refs ?x = refs ?y |- _ => rewrite Hr in *; clear Hr
         end.
  repeat match goal with
         | Hr : refs ?x = _ |- context [refs ?x] => rewrite Hr
         end.
  do 3 eexists. cbn. repeat split; reflexivity.
Qed.

Lemma createCharts_keeps (priceEl tradeEl rsiEl : Container) :
  keeps_state (createCharts priceEl tradeEl rsiEl : M unit).
Proof.
  unfold createCharts, syncTimeScales.
  repeat match goal with
         | |- keeps_state (bind _ _) => apply bind_keeps; [|intros ?]
         | |- keeps_state (call _) => apply call_keeps
         | |- keeps_state (setRefs _) => apply setRefs_keeps
         end.
Qed.

Lemma updateCharts_without_charts (w : World) :
  priceChartInstance (refs w) = None \/ tradeChartInstance (refs w) = None
  \/ rsiChartInstance (refs w) = None ->
  updateCharts w = (Normal tt, w).
Proof.
  intros Hnone. unfold updateCharts, bind, getApp, getRefs.
  destruct (Nat.ltb 0 (List.length (signals (app w)))); [|reflexivity].
  destruct (priceChartInstance (refs w)); [|reflexivity].
  destruct (tradeChartInstance (refs w)); [|reflexivity].
  destruct (rsiChartInstance (refs w)); [|reflexivity].
  destruct Hnone as [Hnone|[Hnone|Hnone]]; discriminate.
Qed.

Lemma chartUpdateEffect_without_charts signals trades (w : World) :
  priceChartInstance (refs w) = None \/ tradeChartInstance (refs w) = None
  \/ rsiChartInstance (refs w) = None ->
  signals <> NullResponse ->
  chartUpdateEffect signals trades w = (Normal tt, w).
Proof.
  intros Hnone Hsignals. unfold chartUpdateEffect, bind, getRefs.
  destruct signals as [|length|elements]; [congruence| |]; cbn [lengthOf ret].
  all: match goal with
       | |- context [greater_than_zero ?v] =>
           destruct (greater_than_zero v); [|reflexivity]
       end;
    destruct (priceChartInstance (refs w)); [|reflexivity];
    destruct (tradeChartInstance (refs w)); [|reflexivity];
    destruct (rsiChartInstance (refs w)); [|reflexivity];
    destruct Hnone as [Hnone|[Hnone|Hnone]]; discriminate.
Qed.

End InitFacts.

(** X19. The initialisation never throws.  Without one of the three
    containers it does nothing at all.  With the three of them, when a call
    of the library throws, the error cell gets the fixed text "Failed to
    initialize charts.", whatever the message of the exception, and no other
    state cell changes; when no call throws, the three chart instances are
    set and no state cell changes. *)
Theorem initCharts_outcomes {chart series lib : Type}
  (factory : ChartFactory chart lib)
  (priceChartRef tradeChartRef rsiChartRef : option Container)
  (w : World chart series lib) :
  fst (initCharts priceChartRef tradeChartRef rsiChartRef w) = Normal tt
  /\ (priceChartRef = None \/ tradeChartRef = None \/ rsiChartRef = None ->
      initCharts priceChartRef tradeChartRef rsiChartRef w = (Normal tt, w))
  /\ (forall priceEl tradeEl rsiEl,
        priceChartRef = Some priceEl -> tradeChartRef = Some tradeEl ->
        rsiChartRef = Some rsiEl ->
        (forall message w1,
           createCharts priceEl tradeEl rsiEl w = (Throw message, w1) ->
           initCharts priceChartRef tradeChartRef rsiChartRef w
           = (Normal tt,
              mkWorld (with_error (Some initFailed) (app w)) (refs w1)
                (charts w1) (inflight w1)))
        /\ (forall w1,
              createCharts priceEl tradeEl rsiEl w = (Normal tt, w1) ->
              initCharts priceChartRef tradeChartRef rsiChartRef w
              = (Normal tt, w1)
              /\ app w1 = app w
              /\ exists price trade rsi,
                   priceChartInstance (refs w1) = Some price
                   /\ tradeChartInstance (refs w1) = Some trade
                   /\ rsiChartInstance (refs w1) = Some rsi)).
Proof.
  split; [|split].
  - unfold initCharts.
    destruct priceChartRef as [p|]; [|reflexivity].
    destruct tradeChartRef as [t|]; [|reflexivity].
    destruct rsiChartRef as [r|]; [|reflexivity].
    unfold try_catch.
    destruct (createCharts p t r w) as [[[]|message] w1]; reflexivity.
  - intros Hnone. unfold initCharts.
    destruct priceChartRef as [p|]; [|reflexivity].
    destruct tradeChartRef as [t|]; [|reflexivity].
    destruct rsiChartRef as [r|]; [|reflexivity].
    destruct Hnone as [Hnone|[Hnone|Hnone]]; discriminate.
  - intros p t r -> -> ->. unfold initCharts, try_catch. split.
    + intros message w1 Hrun.
      pose proof (createCharts_keeps p t r w) as Hkeeps.
      rewrite Hrun in *. cbn [snd] in Hkeeps.
      unfold setError, setState. now rewrite Hkeeps.
    + intros w1 Hrun. rewrite Hrun.
      split; [reflexivity|]. now apply (createCharts_completed p t r).
Qed.

Lemma initCharts_outcomes_witness :
  initCharts None (Some MoreExamples.tradeDiv) (Some MoreExamples.rsiDiv)
    MoreExamples.unmounted
  = (Normal tt, MoreExamples.unmounted).
Proof.
  destruct (initCharts_outcomes testFactory None (Some MoreExamples.tradeDiv)
              (Some MoreExamples.rsiDiv) MoreExamples.unmounted)
    as (_ & Hmissing & _).
  apply Hmissing. left. reflexivity.
Defined.

(** X20. An initialisation that leaves one of the three chart instances
    unset, because a container was missing or because a call of the library
    threw, disables the charts for good: whatever the state cells hold
    later, the chart-update effect does nothing (signals that are [null]
    make it throw, as they always do).  With the three containers present
    the error cell then holds "Failed to initialize charts."; with one of
    them missing the initialisation did nothing, and no error is shown for
    it. *)
Theorem failed_init_disables_refresh (host : Host) {chart series lib : Type}
  (library : ChartLibrary chart series lib) (factory : ChartFactory chart lib)
  (priceChartRef tradeChartRef rsiChartRef : option Container)
  (w : World chart series lib) :
  let w' := snd (initCharts priceChartRef tradeChartRef rsiChartRef w) in
  priceChartInstance (refs w') = None \/ tradeChartInstance (refs w') = None
  \/ rsiChartInstance (refs w') = None ->
  (forall a i,
     updateCharts (mkWorld a (refs w') (charts w') i)
     = (Normal tt, mkWorld a (refs w') (charts w') i))
  /\ (forall signals trades a i,
        signals <> NullResponse ->
        chartUpdateEffect signals trades (mkWorld a (refs w') (charts w') i)
        = (Normal tt, mkWorld a (refs w') (charts w') i))
  /\ (forall priceEl tradeEl rsiEl,
        priceChartRef = Some priceEl -> tradeChartRef = Some tradeEl ->
        rsiChartRef = Some rsiEl ->
        error (app w') = Some initFailed)
  /\ (priceChartRef = None \/ tradeChartRef = None \/ rsiChartRef = None ->
      w' = w).
Proof.
  intros w' Hnone.
  split; [intros a i; now apply updateCharts_without_charts|].
  split; [intros signals trades a i;
          now apply chartUpdateEffect_without_charts|].
  split.
  - intros priceEl tradeEl rsiEl -> -> ->.
    subst w'. unfold initCharts, try_catch in *.
    destruct (createCharts priceEl tradeEl rsiEl w) as [[[]|err] w1] eqn:Hrun;
      [|reflexivity].
    destruct (createCharts_completed priceEl tradeEl rsiEl w w1 Hrun)
      as (_ & pc & tc & rc & Hp & Ht & Hr).
    cbn [snd] in Hnone. rewrite Hp, Ht, Hr in Hnone.
    destruct Hnone as [Hnone|[Hnone|Hnone]]; discriminate.
  - intros Hmissing. subst w'. unfold initCharts.
    destruct priceChartRef as [p|]; [|reflexivity].
    destruct tradeChartRef as [t|]; [|reflexivity].
    destruct rsiChartRef as [r|]; [|reflexivity].
    destruct Hmissing as [Hmissing|[Hmissing|Hmissing]]; discriminate.
Qed.

Lemma failed_init_disables_refresh_witness :
  error (app (snd (initCharts (Some MoreExamples.priceDiv)
                     (Some MoreExamples.tradeDiv) (Some MoreExamples.rsiDiv)
                     MoreExamples.unmounted_trade_disposed)))
  = Some "Failed to initialize charts."
  /\ snd (initCharts None (Some MoreExamples.tradeDiv)
            (Some MoreExamples.rsiDiv) MoreExamples.unmounted)
     = MoreExamples.unmounted.
Proof.
  split.
  - assert (Hnone :
      let w' := snd (initCharts (Some MoreExamples.priceDiv)
                       (Some MoreExamples.tradeDiv) (Some MoreExamples.rsiDiv)
                       MoreExamples.unmounted_trade_disposed) in
      priceChartInstance (refs w') = None \/ tradeChartInstance (refs w') = None
      \/ rsiChartInstance (refs w') = None)
      by (right; left; vm_compute; reflexivity).
    destruct (failed_init_disables_refresh testHost testCharts testFactory
                (Some MoreExamples.priceDiv) (Some MoreExamples.tradeDiv)
                (Some MoreExamples.rsiDiv)
                MoreExamples.unmounted_trade_disposed Hnone)
      as (_ & _ & Herror & _).
    exact (Herror MoreExamples.priceDiv MoreExamples.tradeDiv
             MoreExamples.rsiDiv eq_refl eq_refl eq_refl).
  - assert (Hnone :
      let w' := snd (initCharts None (Some MoreExamples.tradeDiv)
                       (Some MoreExamples.rsiDiv) MoreExamples.unmounted) in
      priceChartInstance (refs w') = None \/ tradeChartInstance (refs w') = None
      \/ rsiChartInstance (refs w') = None)
      by (left; vm_compute; reflexivity).
    destruct (failed_init_disables_refresh testHost testCharts testFactory
                None (Some MoreExamples.tradeDiv) (Some MoreExamples.rsiDiv)
                MoreExamples.unmounted Hnone)
      as (_ & _ & _ & Hsame).
    apply Hsame. left. reflexivity.
Defined.

(** ** What the test charts show after a refresh *)

Lemma priceData_signals (host : Host) (signals : list Signal.t) :
  priceData signals <> [] ->
  Nat.ltb 0 (List.length signals) = true
  /\ Nat.eqb (List.length (priceData signals)) 0 = false.
Proof.
  intros Hprice. split.
  - destruct signals; [now destruct Hprice | reflexivity].
  - destruct (priceData signals); [now destruct Hprice | reflexivity].
Qed.

Ltac compute_refresh :=
  cbv [clearSeries bind getRefs call setRefs throw ret refs charts app inflight
         priceSeriesRef tradeSeriesRef rsiSeriesRef
         with_priceSeriesRef with_tradeSeriesRef with_rsiSeriesRef
         priceChartInstance tradeChartInstance rsiChartInstance
         isUpdatingTimeScale
         removeSeries addLineSeries setData setMarkers createPriceLine
         fitContent testCharts TestCharts.on_chart TestCharts.chart
         TestCharts.with_chart TestCharts.disposed TestCharts.seriesOf
         TestCharts.created TestCharts.visibleLogicalRange
         TestCharts.priceChart TestCharts.tradeChart TestCharts.rsiChart
         TestCharts.update_series TestCharts.id TestCharts.options
         TestCharts.data TestCharts.markers TestCharts.priceLines
         tidy theSeries shown TestCharts.live
         fst snd filter map List.app negb].

Lemma shown_cases (l : TestCharts.Charts) (p : Pane) (ref : option (Pane * nat)) :
  shown l p ref ->
  (exists n o d m k,
     ref = Some (p, n)
     /\ TestCharts.seriesOf (TestCharts.chart l p)
        = [TestCharts.mkSeries n o d m k])
  \/ (ref = None /\ TestCharts.seriesOf (TestCharts.chart l p) = []).
Proof.
  destruct ref as [[q n]|]; cbn [shown fst snd]; [|now right].
  intros (-> & [xn xo xd xm xk] & Hx & Hid). cbn in Hid. subst xn.
  left. do 5 eexists. split; [reflexivity | exact Hx].
Qed.

Lemma refresh_on_tidy (host : Host)
  (w : World Pane (Pane * nat) TestCharts.Charts) :
  tidy w -> priceData (signals (app w)) <> [] ->
  let w' := snd (updateCharts w) in
  tidy w' /\ app w' = app w
  /\ (exists n, theSeries (charts w') PricePane
                = Some (TestCharts.mkSeries n priceLineOptions
                          (priceData (signals (app w)))
                          (signalMarkers (signals (app w))) []))
  /\ (exists n, theSeries (charts w') TradePane
                = Some (TestCharts.mkSeries n priceLineOptions
                          (priceData (signals (app w)))
                          (tradeMarkers (trades (app w))) []))
  /\ (exists n, theSeries (charts w') RsiPane
                = Some (TestCharts.mkSeries n rsiLineOptions
                          (rsiData (signals (app w))) []
                          [overboughtLine; oversoldLine])).
Proof.
  intros Htidy Hprice w'. subst w'.
  destruct (priceData_signals host _ Hprice) as [Hsignals Hpoints].
  destruct w as [a [pci tci rci psr tsr rsr g] [pc tc rc] inf].
  unfold tidy, TestCharts.live in Htidy. cbn [refs charts app] in *.
  cbn [priceChartInstance tradeChartInstance rsiChartInstance priceSeriesRef
         tradeSeriesRef rsiSeriesRef] in Htidy.
  destruct Htidy as (-> & -> & -> & Hlive & Hps & Hts & Hrs).
  pose proof (Hlive PricePane) as Hlp. pose proof (Hlive TradePane) as Hlt.
  pose proof (Hlive RsiPane) as Hlr. cbn in Hlp, Hlt, Hlr.
  destruct pc as [pcs pcn pcr pcd], tc as [tcs tcn tcr tcd],
    rc as [rcs rcn rcr rcd].
  cbn in Hlp, Hlt, Hlr. subst pcd tcd rcd.
  unfold updateCharts, bind, getApp, getRefs. cbn [app refs].
  cbn [priceChartInstance tradeChartInstance rsiChartInstance].
  rewrite Hsignals.
  unfold try_catch, refreshCharts, showCharts.
  rewrite Hpoints.
  set (pd := priceData (signals a)) in *.
  set (rd := rsiData (signals a)) in *.
  set (sm := signalMarkers (signals a)) in *.
  set (tm := tradeMarkers (trades a)) in *.
  clearbody pd rd sm tm.
  apply shown_cases in Hps, Hts, Hrs.
  cbn [TestCharts.chart TestCharts.seriesOf TestCharts.priceChart
         TestCharts.tradeChart TestCharts.rsiChart] in Hps, Hts, Hrs.
  destruct Hps as [(pn & po & pdt & pm & pk & -> & ->)|[-> ->]],
           Hts as [(tn & to & tdt & tmk & tk & -> & ->)|[-> ->]],
           Hrs as [(rn & ro & rdt & rm & rk & -> & ->)|[-> ->]];
    compute_refresh; rewrite ?Nat.eqb_refl; compute_refresh;
    rewrite ?Nat.eqb_refl; compute_refresh.
  all: repeat split; try reflexivity; eauto;
    try (intros p; destruct p; reflexivity).
Qed.

(** A refresh in which no record passes the price filter, and an effect
    that is skipped. *)
Lemma updateCharts_tidy (host : Host)
  (w : World Pane (Pane * nat) TestCharts.Charts) :
  tidy w -> tidy (snd (updateCharts w)).
Proof.
  intros Htidy.
  destruct (priceData (signals (app w))) as [|point points] eqn:Hprice;
    [|apply (refresh_on_tidy host w Htidy); congruence].
  destruct (Nat.ltb 0 (List.length (signals (app w)))) eqn:Hsignals;
    [|unfold updateCharts, bind, getApp, getRefs; now rewrite Hsignals].
  destruct w as [a [pci tci rci psr tsr rsr g] [pc tc rc] inf].
  unfold tidy, TestCharts.live in Htidy. cbn [refs charts app] in *.
  cbn [priceChartInstance tradeChartInstance rsiChartInstance priceSeriesRef
         tradeSeriesRef rsiSeriesRef] in Htidy.
  destruct Htidy as (-> & -> & -> & Hlive & Hps & Hts & Hrs).
  pose proof (Hlive PricePane) as Hlp. pose proof (Hlive TradePane) as Hlt.
  pose proof (Hlive RsiPane) as Hlr. cbn in Hlp, Hlt, Hlr.
  destruct pc as [pcs pcn pcr pcd], tc as [tcs tcn tcr tcd],
    rc as [rcs rcn rcr rcd].
  cbn in Hlp, Hlt, Hlr. subst pcd tcd rcd.
  unfold updateCharts, bind, getApp, getRefs. cbn [app refs].
  cbn [priceChartInstance tradeChartInstance rsiChartInstance].
  rewrite Hsignals.
  unfold try_catch, refreshCharts, showCharts.
  rewrite Hprice. cbn [List.length Nat.eqb].
  apply shown_cases in Hps, Hts, Hrs.
  cbn [TestCharts.chart TestCharts.seriesOf TestCharts.priceChart
         TestCharts.tradeChart TestCharts.rsiChart] in Hps, Hts, Hrs.
  destruct Hps as [(pn & po & pdt & pm & pk & -> & ->)|[-> ->]],
           Hts as [(tn & to & tdt & tmk & tk & -> & ->)|[-> ->]],
           Hrs as [(rn & ro & rdt & rm & rk & -> & ->)|[-> ->]];
    compute_refresh; rewrite ?Nat.eqb_refl; compute_refresh;
    cbv [showUpdateError messageOf Error bind ret setError setState with_error
           refs charts app];
    compute_refresh.
  all: repeat split; try reflexivity;
    try (intros p; destruct p; reflexivity).
Qed.

Lemma rangeChanged_tidy (p : Pane)
  (w : World Pane (Pane * nat) TestCharts.Charts) :
  tidy w -> tidy (snd (handle (VisibleRangeChanged p) w)).
Proof.
  intros Htidy.
  destruct w as [a [pci tci rci psr tsr rsr g] [pc tc rc] inf].
  unfold tidy, TestCharts.live in *. cbn [refs charts app] in *.
  cbn [priceChartInstance tradeChartInstance rsiChartInstance priceSeriesRef
         tradeSeriesRef rsiSeriesRef] in Htidy.
  destruct Htidy as (-> & -> & -> & Hlive & Hps & Hts & Hrs).
  pose proof (Hlive PricePane) as Hlp. pose proof (Hlive TradePane) as Hlt.
  pose proof (Hlive RsiPane) as Hlr. cbn in Hlp, Hlt, Hlr.
  destruct pc as [pcs pcn pcr pcd], tc as [tcs tcn tcr tcd],
    rc as [rcs rcn rcr rcd].
  cbn in Hlp, Hlt, Hlr. subst pcd tcd rcd.
  cbn [TestCharts.chart TestCharts.seriesOf TestCharts.priceChart
         TestCharts.tradeChart TestCharts.rsiChart] in Hps, Hts, Hrs.
  destruct g, p, pcr, tcr, rcr; cbn;
    (split; [reflexivity|]); (split; [reflexivity|]); (split; [reflexivity|]);
    (split; [intros q; destruct q; reflexivity|]);
    (split; [exact Hps|]); (split; [exact Hts | exact Hrs]).
Qed.

Lemma handle_tidy (host : Host) (e : Event)
  (w : World Pane (Pane * nat) TestCharts.Charts) :
  tidy w -> tidy (snd (handle e w)).
Proof.
  intros Htidy.
  assert (Hsame : forall a i, tidy (mkWorld a (refs w) (charts w) i))
    by (intros a i; exact Htidy).
  destruct e as [run_id|response|run_id response|run_id response
                |run_id response|run_id response|p];
    [| | | | | |now apply rangeChanged_tidy].
  - cbv [handle bind getApp setSelectedRunId setState].
    cbn [app].
    destruct (String.eqb (selectedRunId (app w)) run_id); [apply Hsame|].
    cbv [fetchRun bind getApp fetch setSignals setTrades setMetrics
           setFinalPortfolioValue setError setState].
    cbn [app selectedRunId with_selectedRunId refs charts inflight].
    destruct (truthy (VStr run_id)); [apply Hsame|].
    apply updateCharts_tidy, Hsame.
  - cbv [handle bind settled onRuns setRuns setState].
    destruct response; apply Hsame.
  - cbv [handle bind settled onSignals setSignals setError setState isSome].
    cbn [app refs charts inflight].
    destruct response; [apply updateCharts_tidy|]; apply Hsame.
  - cbv [handle bind settled onTrades setTrades setError setState isSome].
    cbn [app refs charts inflight].
    destruct response; [apply updateCharts_tidy|]; apply Hsame.
  - cbv [handle bind settled onMetrics setMetrics setError setState].
    destruct response; apply Hsame.
  - cbv [handle bind settled onPortfolioFinal setFinalPortfolioValue setError
           setState].
    destruct response; apply Hsame.
Qed.

(** X21. On the test charts, a refresh with a record that passes the price
    filter leaves every pane with exactly one series, whatever series it
    had: the price pane shows the price points with the signal markers, the
    trade pane shows the same price points with the trade markers, and the
    oscillator pane shows the oscillator points with the two threshold
    lines at 70 and 30 and no marker.  The refs name these series, and no
    state cell changes. *)
Theorem refresh_shows_one_series_per_pane (host : Host)
  (w : World Pane (Pane * nat) TestCharts.Charts) :
  tidy w -> priceData (signals (app w)) <> [] ->
  let w' := snd (updateCharts w) in
  tidy w' /\ app w' = app w
  /\ (exists n, theSeries (charts w') PricePane
                = Some (TestCharts.mkSeries n priceLineOptions
                          (priceData (signals (app w)))
                          (signalMarkers (signals (app w))) []))
  /\ (exists n, theSeries (charts w') TradePane
                = Some (TestCharts.mkSeries n priceLineOptions
                          (priceData (signals (app w)))
                          (tradeMarkers (trades (app w))) []))
  /\ (exists n, theSeries (charts w') RsiPane
                = Some (TestCharts.mkSeries n rsiLineOptions
                          (rsiData (signals (app w))) []
                          [overboughtLine; oversoldLine])).
Proof.
  apply refresh_on_tidy.
Qed.

Lemma tidy_r1_loaded : tidy Examples.r1_loaded.
Proof.
  unfold tidy, shown, TestCharts.live. vm_compute.
  repeat split; try (intros p; destruct p; reflexivity);
    eexists; split; reflexivity.
Qed.

Lemma refresh_shows_one_series_per_pane_witness :
  app (snd (updateCharts Examples.r1_loaded)) = app Examples.r1_loaded.
Proof.
  assert (Hprice : priceData (signals (app Examples.r1_loaded)) <> [])
    by (vm_compute; discriminate).
  destruct (refresh_shows_one_series_per_pane testHost Examples.r1_loaded
              tidy_r1_loaded Hprice) as (_ & Happ & _).
  exact Happ.
Defined.

(** X22. On the test charts no pane ever holds two series, and the series
    a pane holds is the one its ref names: this is so when the component is
    mounted and stays so after every sequence of events. *)
Theorem one_series_per_pane_always (host : Host) (es : list Event)
  (w w' : World Pane (Pane * nat) TestCharts.Charts) :
  tidy w -> run_events es w = Some w' -> tidy w'.
Proof.
  revert w. induction es as [|e es IH]; intros w Htidy Hrun.
  - injection Hrun as <-. exact Htidy.
  - cbn [run_events] in Hrun. unfold step in Hrun.
    destruct (enabled e w); [|discriminate].
    apply (IH (snd (handle e w))); [now apply handle_tidy | exact Hrun].
Qed.

Lemma one_series_per_pane_always_witness : tidy Examples.r1_loaded.
Proof.
  assert (Hmounted : tidy Examples.mounted).
  { unfold tidy, shown, TestCharts.live. vm_compute.
    repeat split; intros p; destruct p; reflexivity. }
  assert (Hrun : run_events Examples.r1_loaded_events Examples.mounted
                 = Some Examples.r1_loaded) by (vm_compute; reflexivity).
  exact (one_series_per_pane_always testHost Examples.r1_loaded_events
           Examples.mounted Examples.r1_loaded Hmounted Hrun).
Defined.
